(** * Tangram mapping helpers ([tangram/mapping_utils.py])

    A shallow embedding of [pp_adatas], [adata_to_cluster_expression] and
    [map_cells_to_space], and the properties of their contracts.

    Modelling conventions.
    - Floating-point numbers are idealised as exact rationals ([Q]); the
      conversion to [float32] is the identity.  The square root taken by
      [np.linalg.norm] has no rational counterpart and is a parameter.  A
      quotient by zero is 0 in [Q] where numpy answers [nan]: a statement
      about a quotient carries the hypothesis that its divisor is not zero.
    - A Python exception is a value of [exn]; a computation that may raise
      returns a [result].
    - A column of [adata.obs] is a list of cells; a categorical column also
      declares its categories.
    - The view [adata[:, genes]] of a data set keeps the class of [X]; the
      [X] of a view of a dense array still answers [toarray()], while the
      view itself has no such method.
    - Calls to [logging] only write to the log and are left out. *)

From Stdlib Require Import QArith Ascii String Permutation.
From Stdlib Require Import Sorted.
From stdpp Require Import gmap strings list fin_maps.

Local Open Scope string_scope.

(** ** Exceptions and fallible computations *)

(** A [KeyError] carries the names that were looked up in vain: the column
    asked of a data frame, or the names that the message of anndata lists as
    not valid. *)
Inductive exn : Type :=
| ValueError (msg : string)
| KeyError (names : list string)
| AttributeError (msg : string)
| RuntimeError (msg : string)
| AssertionError
| NotImplementedError.


Inductive result (A : Type) : Type :=
| Ok (a : A)
| Raise (e : exn).
Arguments Ok {A} a.
Arguments Raise {A} e.

#[global] Instance result_ret : MRet result := @Ok.
#[global] Instance result_bind : MBind result := fun A B f r =>
  match r with Ok a => f a | Raise e => Raise e end.

(** ** Numbers and vectors *)

Definition Qnat (n : nat) : Q := inject_Z (Z.of_nat n).

Definition Qsum (v : list Q) : Q := foldr Qplus 0%Q v.

Definition Qnonzero (q : Q) : bool := negb (Qeq_bool q 0).

(** [u @ v] for two one-dimensional arrays. *)
Definition dot (u v : list Q) : Q := Qsum (zip_with Qmult u v).

(** [np.ones(n) / n] *)
Definition ones_over (n : nat) : list Q := List.map (fun one => (one / Qnat n)%Q) (repeat 1%Q n).

(** ** Two-dimensional arrays

    [rows] holds the entries row by row and [shape1] the number of columns
    (a numpy array keeps it even when it has no row). *)

Record matrix : Type := { shape1 : nat; rows : list (list Q) }.

Definition shape0 (m : matrix) : nat := length (rows m).

Definition entry (m : matrix) (i j : nat) : Q := nth j (nth i (rows m) []) 0%Q.

Definition wf_matrix (m : matrix) : Prop :=
  Forall (fun r => length r = shape1 m) (rows m).

Definition column (j : nat) (m : matrix) : list Q :=
  List.map (fun r => nth j r 0%Q) (rows m).

(** [m[:, js]] for a list of column positions. *)
Definition take_columns (js : list nat) (m : matrix) : matrix :=
  {| shape1 := length js;
     rows := List.map (fun r => List.map (fun j => nth j r 0%Q) js) (rows m) |}.

(** [m[mask]] for a boolean mask over the rows. *)
Fixpoint select_rows (mask : list bool) (rs : list (list Q)) : list (list Q) :=
  match mask, rs with
  | b :: mask', r :: rs' =>
      if b then r :: select_rows mask' rs' else select_rows mask' rs'
  | _, _ => []
  end.

Definition vadd (u v : list Q) : list Q := zip_with Qplus u v.

(** [m.sum(axis=0)], [m.mean(axis=0)] and [m.sum(axis=1)] *)
Definition sum_axis0 (m : matrix) : list Q :=
  foldr vadd (repeat 0%Q (shape1 m)) (rows m).

Definition mean_axis0 (m : matrix) : list Q :=
  List.map (fun s => (s / Qnat (shape0 m))%Q) (sum_axis0 m).

Definition sum_axis1 (m : matrix) : list Q := List.map Qsum (rows m).

(** [m.any(axis=0).all()]: every column has a non-zero entry. *)
Definition any_axis0_all (m : matrix) : bool :=
  forallb (fun j => existsb Qnonzero (column j m)) (seq 0 (shape1 m)).

(** [m.T] *)
Definition transpose (m : matrix) : matrix :=
  {| shape1 := shape0 m;
     rows := List.map (fun j => column j m) (seq 0 (shape1 m)) |}.

(** [a @ b] *)
Definition matmul (a b : matrix) : matrix :=
  {| shape1 := shape1 b;
     rows := List.map (fun ra => List.map (fun j => dot ra (column j b)) (seq 0 (shape1 b)))
                      (rows a) |}.

(** ** Annotated data sets (AnnData) *)

(** The class of the object stored in [adata.X]. *)
Inductive storage : Type :=
| csc_matrix
| csr_matrix
| ndarray
| other_storage (type_name : string).

(** One cell of a data-frame column: a text label, a number, or a missing
    value. *)
Inductive cell : Type :=
| CStr (s : string)
| CNum (q : Q)
| CNaN.

(** [a == b] on two cells; a missing value equals nothing. *)
Definition cell_eqb (a b : cell) : bool :=
  match a, b with
  | CStr s, CStr t => String.eqb s t
  | CNum p, CNum q => Qeq_bool p q
  | _, _ => false
  end.

Definition notna (c : cell) : bool :=
  match c with CNaN => false | _ => true end.

(** [X_type] is [type(adata.X)] and [X] the numbers it stores; [obs] maps a
    column name of [adata.obs] to the column and [obs_categories] the name
    of a categorical column to the categories it declares (a column without
    entry holds plain values); [var_index] is [adata.var.index], and [uns]
    keeps the entries of [adata.uns] that are lists of gene names. *)
Record AnnData : Type := {
  X_type : storage;
  X : matrix;
  obs : gmap string (list cell);
  obs_categories : gmap string (list cell);
  var_index : list string;
  uns : gmap string (list string)
}.

Definition n_obs (a : AnnData) : nat := shape0 (X a).

(** [adata.obs[name] = col] for a column of plain values. *)
Definition set_obs (a : AnnData) (name : string) (col : list cell) : AnnData :=
  {| X_type := X_type a; X := X a; obs := <[name := col]> (obs a);
     obs_categories := delete name (obs_categories a);
     var_index := var_index a; uns := uns a |}.

Definition set_uns (a : AnnData) (name : string) (v : list string) : AnnData :=
  {| X_type := X_type a; X := X a; obs := obs a; obs_categories := obs_categories a;
     var_index := var_index a; uns := <[name := v]> (uns a) |}.

(** Position of a gene name in an index. *)
Fixpoint index_of (g : string) (idx : list string) : option nat :=
  match idx with
  | [] => None
  | h :: t => if String.eqb g h then Some 0 else S <$> index_of g t
  end.

(** The names of a list that an index does not hold. *)
Definition absent_names (genes idx : list string) : list string :=
  List.filter (fun g => negb (bool_decide (is_Some (index_of g idx)))) genes.

(** Positions of a list of names in an index; when some names are absent a
    [KeyError] reports all of them. *)
Definition positions (genes idx : list string) : result (list nat) :=
  match absent_names genes idx with
  | [] => Ok (List.map (fun g => default 0%nat (index_of g idx)) genes)
  | absent => Raise (KeyError absent)
  end.

(** [adata[:, genes]]: the view restricted to the named variables. *)
Definition subset_vars (a : AnnData) (genes : list string) : result AnnData :=
  js ← positions genes (var_index a);
  Ok {| X_type := X_type a; X := take_columns js (X a); obs := obs a;
        obs_categories := obs_categories a; var_index := genes; uns := uns a |}.

(** ** [adata_to_cluster_expression] *)

(** Distinct values in order of first appearance. *)
Fixpoint unique (l : list cell) : list cell :=
  match l with
  | [] => []
  | c :: l' => c :: List.filter (fun x => negb (cell_eqb c x)) (unique l')
  end.

Definition count_cell (c : cell) (l : list cell) : nat :=
  length (List.filter (cell_eqb c) l).

(** Insertion of a counted label into a list sorted by decreasing count;
    among equal counts the label inserted comes first. *)
Fixpoint insert_by_count (x : cell * nat) (l : list (cell * nat)) : list (cell * nat) :=
  match l with
  | [] => [x]
  | y :: l' => if (y.2 <=? x.2)%nat then x :: y :: l' else y :: insert_by_count x l'
  end.

Definition sort_by_count (l : list (cell * nat)) : list (cell * nat) :=
  foldr insert_by_count [] l.

(** [col.value_counts(normalize=True)] for a column of plain values: missing
    values are dropped, the distinct values are counted and listed by
    decreasing count (equal counts in order of first appearance), and each
    count is divided by the number of values counted. *)
Definition value_counts (col : list cell) : list (cell * Q) :=
  let vals := List.filter notna col in
  let counted := List.map (fun c => (c, count_cell c vals)) (unique vals) in
  List.map (fun cn => (cn.1, (Qnat cn.2 / Qnat (length vals))%Q)) (sort_by_count counted).

(** [value_counts[i]] *)
Fixpoint lookup_count (i : cell) (vc : list (cell * Q)) : option Q :=
  match vc with
  | [] => None
  | (c, q) :: vc' => if cell_eqb i c then Some q else lookup_count i vc'
  end.

(** The observations of [adata] whose label is [l]:
    [adata[adata.obs[cluster_label] == l].X] *)
Definition cluster_members (col : list cell) (l : cell) (x : matrix) : matrix :=
  {| shape1 := shape1 x;
     rows := select_rows (List.map (fun c => cell_eqb c l) col) (rows x) |}.

Definition cluster_row (scale : bool) (col : list cell) (x : matrix) (l : cell) : list Q :=
  if negb scale then mean_axis0 (cluster_members col l x)
  else sum_axis0 (cluster_members col l x).

(** The declared categories of a categorical column that none of its values
    takes. *)
Definition unused_categories (cats col : list cell) : list cell :=
  unique (List.filter (fun c => notna c && negb (existsb (cell_eqb c) col)) cats).

(** [adata.obs[label].value_counts(normalize=True)]: for a categorical
    column pandas also lists the declared categories that do not occur, with
    count 0; they come after the values that occur. *)
Definition obs_value_counts (categories : option (list cell)) (col : list cell)
  : list (cell * Q) :=
  match categories with
  | None => value_counts col
  | Some cats =>
      app (value_counts col)
          (List.map (fun c => (c, (Qnat 0 / Qnat (length (List.filter notna col)))%Q))
                    (unused_categories cats col))
  end.

(** [labels.map(lambda i: value_counts[i])]; every label is a key of
    [value_counts]. *)
Definition cluster_density_column (vc : list (cell * Q)) (labels : list cell) : list cell :=
  List.map (fun i => match lookup_count i vc with Some q => CNum q | None => CNaN end) labels.

Definition adata_to_cluster_expression
    (adata : AnnData) (cluster_label : string) (scale add_density : bool)
  : result AnnData :=
  match obs adata !! cluster_label with
  | None => Raise (ValueError "Provided label must belong to adata.obs.")
  | Some col =>
      let vc := obs_value_counts (obs_categories adata !! cluster_label) col in
      let unique_labels := vc.*1 in
      let new_obs : gmap string (list cell) := {[ cluster_label := unique_labels ]} in
      let new_categories : gmap string (list cell) :=
        match obs_categories adata !! cluster_label with
        | Some cats => {[ cluster_label := cats ]}
        | None => ∅
        end in
      let X_new :=
        {| shape1 := shape1 (X adata);
           rows := List.map (cluster_row scale col (X adata)) unique_labels |} in
      let adata_ret :=
        {| X_type := ndarray; X := X_new; obs := new_obs;
           obs_categories := new_categories;
           var_index := var_index adata; uns := uns adata |} in
      if add_density then
        Ok (set_obs adata_ret "cluster_density" (cluster_density_column vc unique_labels))
      else Ok adata_ret
  end.

(** ** [pp_adatas] *)

Definition lower_ascii (c : ascii) : ascii :=
  let n := nat_of_ascii c in
  if ((65 <=? n) && (n <=? 90))%nat then ascii_of_nat (n + 32) else c.

(** [g.lower()], on ASCII letters. *)
Fixpoint lower (g : string) : string :=
  match g with
  | EmptyString => EmptyString
  | String c g' => String (lower_ascii c) (lower g')
  end.

Definition set_var_index (a : AnnData) (idx : list string) : AnnData :=
  {| X_type := X_type a; X := X a; obs := obs a; obs_categories := obs_categories a;
     var_index := idx; uns := uns a |}.

Definition Qpositive (q : Q) : bool := negb (Qle_bool q 0).

(** [sc.pp.filter_genes(adata, min_cells=1)] (scanpy): a gene is kept when
    at least one observation has a count above zero for it. *)
Definition kept_genes (x : matrix) : list nat :=
  List.filter (fun j => (1 <=? length (List.filter Qpositive (column j x)))%nat)
              (seq 0 (shape1 x)).

Definition filter_genes (a : AnnData) : AnnData :=
  let keep := kept_genes (X a) in
  {| X_type := X_type a; X := take_columns keep (X a); obs := obs a;
     obs_categories := obs_categories a;
     var_index := List.map (fun j => nth j (var_index a) EmptyString) keep; uns := uns a |}.

(** [rna_count_per_spot / np.sum(rna_count_per_spot)] *)
Definition rna_count_based_density (x : matrix) : list Q :=
  let rna_count_per_spot := sum_axis1 x in
  List.map (fun c => (c / Qsum rna_count_per_spot)%Q) rna_count_per_spot.

(** ** Small data sets used as examples *)

(** One observation, one gene [a], already annotated with the training
    genes; the expression matrix is stored as [t]. *)
Definition tiny_adata (t : storage) : AnnData :=
  {| X_type := t; X := {| shape1 := 1; rows := [[1%Q]] |}; obs := ∅;
     obs_categories := ∅;
     var_index := ["a"]; uns := {[ "training_genes" := ["a"] ]} |}.

(** Two cells in two clusters, stored sparsely. *)
Definition two_cluster_adata : AnnData :=
  {| X_type := csr_matrix; X := {| shape1 := 1; rows := [[1%Q]; [2%Q]] |};
     obs := {[ "cl" := [CStr "A"; CStr "B"] ]}; obs_categories := ∅;
     var_index := ["a"]; uns := {[ "training_genes" := ["a"] ]} |}.


(** A spatial data set without spots and a source without training genes. *)
Definition empty_space : AnnData :=
  {| X_type := ndarray; X := {| shape1 := 0; rows := [] |}; obs := ∅;
     obs_categories := ∅;
     var_index := []; uns := {[ "training_genes" := [] ]} |}.

Definition cells_without_genes : AnnData :=
  {| X_type := csr_matrix; X := {| shape1 := 1; rows := [[1%Q]] |}; obs := ∅;
     obs_categories := ∅;
     var_index := ["a"]; uns := {[ "training_genes" := [] ]} |}.

(** Four cells, three labelled [A] and one labelled [B], over two genes. *)
Definition three_one_adata : AnnData :=
  {| X_type := csr_matrix;
     X := {| shape1 := 2; rows := [[1; 2]; [3; 4]; [5; 6]; [7; 8]]%Q |};
     obs := {[ "cl" := [CStr "A"; CStr "A"; CStr "A"; CStr "B"] ]}; obs_categories := ∅;
     var_index := ["g1"; "g2"]; uns := ∅ |}.

(** Raw data before [pp_adatas]: two genes, the second silent in space. *)
Definition raw_cells : AnnData :=
  {| X_type := csr_matrix; X := {| shape1 := 2; rows := [[1; 2]; [0; 1]]%Q |};
     obs := ∅; obs_categories := ∅; var_index := ["Gene1"; "Gene2"]; uns := ∅ |}.

Definition raw_space : AnnData :=
  {| X_type := ndarray; X := {| shape1 := 2; rows := [[1; 0]; [3; 0]; [0; 0]]%Q |};
     obs := ∅; obs_categories := ∅; var_index := ["GENE1"; "gene2"]; uns := ∅ |}.

(** Three cells in two clusters over two genes, and four spots over three
    genes; both carry the training genes [g2] and [g1], in that order. *)
Definition demo_cells (t : storage) : AnnData :=
  {| X_type := t; X := {| shape1 := 2; rows := [[1; 0]; [0; 2]; [1; 1]]%Q |};
     obs := {[ "cl" := [CStr "A"; CStr "B"; CStr "A"] ]}; obs_categories := ∅;
     var_index := ["g1"; "g2"]; uns := {[ "training_genes" := ["g2"; "g1"] ]} |}.

Definition demo_space (t : storage) : AnnData :=
  {| X_type := t;
     X := {| shape1 := 3; rows := [[2; 1; 0]; [0; 3; 5]; [1; 1; 1]; [4; 0; 2]]%Q |};
     obs := ∅; obs_categories := ∅;
     var_index := ["g1"; "g3"; "g2"]; uns := {[ "training_genes" := ["g2"; "g1"] ]} |}.

(** As [three_one_adata], the label column being categorical with a third
    category that no cell takes. *)
Definition unused_category_adata : AnnData :=
  {| X_type := csr_matrix;
     X := {| shape1 := 2; rows := [[1; 2]; [3; 4]; [5; 6]; [7; 8]]%Q |};
     obs := {[ "cl" := [CStr "A"; CStr "A"; CStr "A"; CStr "B"] ]};
     obs_categories := {[ "cl" := [CStr "A"; CStr "B"; CStr "C"] ]};
     var_index := ["g1"; "g2"]; uns := ∅ |}.

Section Tangram.

(** *** Code that lives outside [mapping_utils.py] *)

(** [AnnData.var_names_make_unique] (anndata): renames repeated names. *)
Variable var_names_make_unique : list string -> list string.

(** Whether [torch.device] accepts a device string. *)
Variable valid_device : string -> bool.

(** The truth value of [array == s] for an array and a string.  It depends
    on the version of numpy: the comparison answers [False], or it answers
    an array of booleans whose truth value is an error when it has several
    entries. *)
Variable array_equals_str : list Q -> string -> result bool.

(** The square root inside [np.linalg.norm]. *)
Variable sqrtQ : Q -> Q.

(** The state a run starts from (random generators), the training history the
    optimizer reports and the experiment handle it logs to. *)
Context {World History Experiment : Type}.

(** [pp_adatas] changes both data sets in place; the model returns them. *)
Definition pp_adatas (adata_sc adata_sp : AnnData) (genes : option (list string))
  : AnnData * AnnData :=
  let adata_sc := set_var_index adata_sc (List.map lower (var_index adata_sc)) in
  let adata_sp := set_var_index adata_sp (List.map lower (var_index adata_sp)) in
  let adata_sc := set_var_index adata_sc (var_names_make_unique (var_index adata_sc)) in
  let adata_sp := set_var_index adata_sp (var_names_make_unique (var_index adata_sp)) in
  let adata_sc := filter_genes adata_sc in
  let adata_sp := filter_genes adata_sp in
  let genes :=
    match genes with
    | None => List.map lower (var_index adata_sc)
    | Some genes => List.map lower genes
    end in
  let genes : list string :=
    elements ((list_to_set genes : gset string)
                ∩ list_to_set (var_index adata_sc) ∩ list_to_set (var_index adata_sp)) in
  let adata_sc := set_uns adata_sc "training_genes" genes in
  let adata_sp := set_uns adata_sp "training_genes" genes in
  let adata_sp :=
    set_obs adata_sp "rna_count_based_density"
            (List.map CNum (rna_count_based_density (X adata_sp))) in
  (adata_sc, adata_sp).

(** ** [map_cells_to_space] *)

(** A density argument as the caller may give it: [None], a string, or an
    array. *)
Inductive density_arg : Type :=
| ANone
| AStr (s : string)
| AArray (v : list Q).

(** The object bound to [d] when the optimizer is built; an [obs] column is
    a pandas Series. *)
Inductive density : Type :=
| DNone
| DStr (s : string)
| DArray (v : list Q)
| DSeries (col : list cell).

Definition density_of_arg (a : density_arg) : density :=
  match a with
  | ANone => DNone
  | AStr s => DStr s
  | AArray v => DArray v
  end.

(** The test [density_prior == s] of lines 196 and 200, for an argument
    ([None], a string or an array). *)
Definition density_eq_str (dp : density) (s : string) : result bool :=
  match dp with
  | DStr t => Ok (String.eqb t s)
  | DArray v => array_equals_str v s
  | DNone | DSeries _ => Ok false
  end.

Definition is_None (dp : density) : bool :=
  match dp with DNone => true | _ => false end.

(** The numbers of a density, when it is an array or a numeric column. *)
Fixpoint cells_numbers (col : list cell) : option (list Q) :=
  match col with
  | [] => Some []
  | CNum q :: col' => (q ::.) <$> cells_numbers col'
  | _ :: _ => None
  end.

Definition density_entries (dn : density) : option (list Q) :=
  match dn with
  | DArray v => Some v
  | DSeries col => cells_numbers col
  | _ => None
  end.

(** The annotated result: [X] is the mapping matrix, [obs] and [var] come
    from the observations of the two inputs, and [uns] holds
    [train_genes_df] (index and [train_score], in row order) and
    [training_history].  The sparsity columns that [utils] adds to
    [train_genes_df] afterwards leave [train_score] as it is and are not
    part of the model. *)
Record MappingResult : Type := {
  map_X : matrix;
  map_obs : gmap string (list cell);
  map_var : gmap string (list cell);
  train_genes_df : list (string * Q);
  training_history : History
}.

Record Args : Type := {
  adata_cells : AnnData;
  adata_space : AnnData;
  mode : string;
  adata_map : option MappingResult;
  device : string;
  learning_rate : Q;
  num_epochs : nat;
  d : density_arg;
  cluster_label : option string;
  scale : bool;
  lambda_d : Q;
  lambda_g1 : Q;
  lambda_g2 : Q;
  lambda_r : Q;
  random_state : option Z;
  verbose : bool;
  density_prior : density_arg;
  experiment : option Experiment
}.

(** [map_cells_to_space] with its defaults, given the two data sets. *)
Definition default_args (cells space : AnnData) : Args :=
  {| adata_cells := cells; adata_space := space; mode := "cells"; adata_map := None;
     device := "cuda:0"; learning_rate := 1 # 10; num_epochs := 1000; d := ANone;
     cluster_label := None; scale := true; lambda_d := 0; lambda_g1 := 1;
     lambda_g2 := 0; lambda_r := 0; random_state := None; verbose := true;
     density_prior := ANone; experiment := None |}.

Definition clusters_args (cells space : AnnData) (label : string) : Args :=
  {| adata_cells := cells; adata_space := space; mode := "clusters"; adata_map := None;
     device := "cuda:0"; learning_rate := 1 # 10; num_epochs := 1000; d := ANone;
     cluster_label := Some label; scale := true; lambda_d := 0; lambda_g1 := 1;
     lambda_g2 := 0; lambda_r := 0; random_state := None; verbose := true;
     density_prior := ANone; experiment := None |}.

(** A call that names a density prior and weighs the density term. *)
Definition density_args (cells space : AnnData) (prior : density_arg) : Args :=
  {| adata_cells := cells; adata_space := space; mode := "cells"; adata_map := None;
     device := "cuda:0"; learning_rate := 1 # 10; num_epochs := 1000; d := ANone;
     cluster_label := None; scale := true; lambda_d := 1; lambda_g1 := 1;
     lambda_g2 := 0; lambda_r := 0; random_state := None; verbose := true;
     density_prior := prior; experiment := None |}.

Definition with_d (a : Args) (d' : density_arg) : Args :=
  {| adata_cells := adata_cells a; adata_space := adata_space a; mode := mode a;
     adata_map := adata_map a; device := device a; learning_rate := learning_rate a;
     num_epochs := num_epochs a; d := d'; cluster_label := cluster_label a;
     scale := scale a; lambda_d := lambda_d a; lambda_g1 := lambda_g1 a;
     lambda_g2 := lambda_g2 a; lambda_r := lambda_r a; random_state := random_state a;
     verbose := verbose a; density_prior := density_prior a;
     experiment := experiment a |}.

(** What [mo.Mapper(...)] and [mapper.train(...)] receive. *)
Record MapperInit : Type := {
  init_S : matrix;
  init_G : matrix;
  init_d : density;
  init_device : string;
  init_adata_map : option MappingResult;
  init_random_state : option Z;
  init_lambda_d : Q;
  init_lambda_g1 : Q;
  init_lambda_g2 : Q;
  init_lambda_r : Q
}.

Record TrainArgs : Type := {
  train_learning_rate : Q;
  train_num_epochs : nat;
  train_print_each : option nat;
  train_experiment : option Experiment
}.

(** The optimizer of [mapping_optimizer]: building a [Mapper] and running
    [train] yields the mapping matrix and the training history, or raises. *)
Variable Mapper_train : World -> MapperInit -> TrainArgs -> result (matrix * History).

(** [view.X.toarray()] for a view [adata[:, genes]]: a sparse matrix is
    converted to a dense array, and the view of a dense array (anndata's
    [ArrayView]) returns a copy of itself. *)
Definition X_toarray (view : AnnData) : result matrix :=
  match X_type view with
  | csc_matrix | csr_matrix | ndarray => Ok (X view)
  | other_storage _ => Raise (AttributeError "object has no attribute 'toarray'")
  end.

(** [adata.toarray()]: an AnnData object has no such method. *)
Definition AnnData_toarray (a : AnnData) : result matrix :=
  Raise (AttributeError "'AnnData' object has no attribute 'toarray'").

Definition is_sparse (t : storage) : bool :=
  match t with csc_matrix | csr_matrix => true | _ => false end.

Definition is_ndarray (t : storage) : bool :=
  match t with ndarray => true | _ => false end.

(** Lines 174-181: the source matrix [S]. *)
Definition extract_S (adata_cells : AnnData) (training_genes : list string)
  : result matrix :=
  if is_sparse (X_type adata_cells) then
    view ← subset_vars adata_cells training_genes; X_toarray view
  else if is_ndarray (X_type adata_cells) then
    view ← subset_vars adata_cells training_genes; X_toarray view
  else Raise NotImplementedError.

(** Lines 183-190: the target matrix [G]. *)
Definition extract_G (adata_space : AnnData) (training_genes : list string)
  : result matrix :=
  if is_sparse (X_type adata_space) then
    view ← subset_vars adata_space training_genes; AnnData_toarray view
  else if is_ndarray (X_type adata_space) then
    view ← subset_vars adata_space training_genes; Ok (X view)
  else Raise NotImplementedError.

(** Lines 195-201: the density named by a string is looked up or built. *)
Definition resolve_density_prior
    (density_prior : density) (adata_space : AnnData) (G : matrix) : result density :=
  match density_eq_str density_prior "rna_count_based" with
  | Raise e => Raise e
  | Ok true =>
      match obs adata_space !! "rna_count_based_density" with
      | Some col => Ok (DSeries col)
      | None => Raise (KeyError ["rna_count_based_density"])
      end
  | Ok false =>
      match density_eq_str density_prior "uniform" with
      | Raise e => Raise e
      | Ok true => Ok (DArray (ones_over (shape0 G)))
      | Ok false => Ok density_prior
      end
  end.

(** Lines 203-209: the value bound to [d], starting from the argument. *)
Definition choose_d (mode : string) (d density_prior : density) (G : matrix) : density :=
  let d := if String.eqb mode "cells" then density_prior else d in
  if String.eqb mode "clusters" then
    let d := density_prior in
    if is_None d then DArray (ones_over (shape0 G)) else d
  else d.

(** The local variables of [map_cells_to_space] when the optimizer is
    built. *)
Record Prepared : Type := {
  p_adata_cells : AnnData;
  p_training_genes : list string;
  p_S : matrix;
  p_G : matrix;
  p_d : density;
  p_device : string
}.

Definition check (failed : bool) (e : exn) : result unit :=
  if failed then Raise e else Ok ().

Definition label_is_None (l : option string) : bool :=
  match l with None => true | Some _ => false end.

(** The text [Argument "mode" must be "cells" or "clusters"]. *)
Definition mode_message : string :=
  let q := String "034"%char EmptyString in
  "Argument " ++ q ++ "mode" ++ q ++ " must be " ++ q ++ "cells" ++ q
    ++ " or " ++ q ++ "clusters" ++ q.

(** Lines 152-155: the data set the source matrix is taken from, aggregated
    by cluster in clusters mode ([None] names no column of [adata.obs]
    either). *)
Definition source_data (a : Args) : result AnnData :=
  if String.eqb (mode a) "clusters" then
    match cluster_label a with
    | Some label => adata_to_cluster_expression (adata_cells a) label (scale a) true
    | None => Raise (ValueError "Provided label must belong to adata.obs.")
    end
  else Ok (adata_cells a).

(** Lines 139-212: validation, aggregation, extraction of [S] and [G], and
    the density target. *)
Definition prepare (a : Args) : result Prepared :=
  _ ← check (Qeq_bool (lambda_g1 a) 0) (ValueError "lambda_g1 cannot be 0.");
  _ ← check (negb (is_None (density_of_arg (density_prior a))) && Qeq_bool (lambda_d a) 0)
        (ValueError "When density_prior is not None, lambda_d cannot be 0.");
  _ ← check (negb (String.eqb (mode a) "clusters" || String.eqb (mode a) "cells"))
        (ValueError mode_message);
  _ ← check (String.eqb (mode a) "clusters" && label_is_None (cluster_label a))
        (ValueError "A cluster_label must be specified if mode = clusters.");
  adata_cells ← source_data a;
  match uns adata_cells !! "training_genes", uns (adata_space a) !! "training_genes" with
  | None, _ => Raise (ValueError "Missing tangram parameters. Run `pp_adatas()`.")
  | Some _, None => Raise (ValueError "Missing tangram parameters. Run `pp_adatas()`.")
  | Some genes_cells, Some genes_space =>
      _ ← check (negb (bool_decide (genes_space = genes_cells))) AssertionError;
      let training_genes := genes_cells in
      S ← extract_S adata_cells training_genes;
      G ← extract_G (adata_space a) training_genes;
      _ ← check (negb (any_axis0_all S) || negb (any_axis0_all G))
            (ValueError "Genes with all zero values detected. Run `pp_adatas()`.");
      density_prior ←
        resolve_density_prior (density_of_arg (density_prior a)) (adata_space a) G;
      let d := choose_d (mode a) (density_of_arg (d a)) density_prior G in
      _ ← check (negb (valid_device (device a)))
            (RuntimeError "Invalid device string");
      Ok {| p_adata_cells := adata_cells; p_training_genes := training_genes;
            p_S := S; p_G := G; p_d := d; p_device := device a |}
  end.

Definition mapper_init (a : Args) (p : Prepared) : MapperInit :=
  {| init_S := p_S p; init_G := p_G p; init_d := p_d p; init_device := p_device p;
     init_adata_map := adata_map a; init_random_state := random_state a;
     init_lambda_d := lambda_d a; init_lambda_g1 := lambda_g1 a;
     init_lambda_g2 := lambda_g2 a; init_lambda_r := lambda_r a |}.

Definition train_args (a : Args) : TrainArgs :=
  {| train_learning_rate := learning_rate a; train_num_epochs := num_epochs a;
     train_print_each := if verbose a then Some 100%nat else None;
     train_experiment := experiment a |}.

(** [np.linalg.norm(v)] *)
Definition norm (v : list Q) : Q := sqrtQ (dot v v).

(** Lines 276-278: the loop that fills [cos_sims]. *)
Fixpoint cos_sims_loop (pairs : list (list Q * list Q)) (cos_sims : list Q) : list Q :=
  match pairs with
  | [] => cos_sims
  | (v1, v2) :: pairs' =>
      let norm_sq := (norm v1 * norm v2)%Q in
      cos_sims_loop pairs' (cos_sims ++ [(dot v1 v2 / norm_sq)%Q])
  end.

(** [pd.DataFrame(data, index, columns=["train_score"])] *)
Definition DataFrame (data : list Q) (index : list string) : result (list (string * Q)) :=
  if (length data =? length index)%nat then Ok (zip index data)
  else Raise (ValueError "Length of values does not match length of index").

(** Insertion of a row into rows sorted by decreasing score. *)
Fixpoint insert_by_score (x : string * Q) (l : list (string * Q)) : list (string * Q) :=
  match l with
  | [] => [x]
  | y :: l' => if Qle_bool y.2 x.2 then x :: y :: l' else y :: insert_by_score x l'
  end.

(** [df.sort_values(by="train_score", ascending=False)] *)
Definition sort_values_desc (df : list (string * Q)) : list (string * Q) :=
  foldr insert_by_score [] df.

(** Lines 266-300: the result is assembled.  [sc.AnnData(X, obs, var)]
    refuses an [X] whose shape differs from the two annotations. *)
Definition finish (a : Args) (p : Prepared) (mapping_matrix : matrix)
    (history : History) : result MappingResult :=
  cells_view ← subset_vars (p_adata_cells p) (p_training_genes p);
  space_view ← subset_vars (adata_space a) (p_training_genes p);
  _ ← check (negb ((shape0 mapping_matrix =? n_obs cells_view)%nat
                   && (shape1 mapping_matrix =? n_obs space_view)%nat))
        (ValueError "Shape of X does not match obs and var");
  let G_predicted := matmul (transpose mapping_matrix) (p_S p) in
  let cos_sims :=
    cos_sims_loop (zip (rows (transpose (p_G p))) (rows (transpose G_predicted))) [] in
  df_cs ← DataFrame cos_sims (p_training_genes p);
  Ok {| map_X := mapping_matrix; map_obs := obs cells_view; map_var := obs space_view;
        train_genes_df := sort_values_desc df_cs; training_history := history |}.

Definition map_cells_to_space (w : World) (a : Args) : result MappingResult :=
  p ← prepare a;
  '(mapping_matrix, training_history) ← Mapper_train w (mapper_init a p) (train_args a);
  finish a p mapping_matrix training_history.

(** * Properties *)

(** ** Stepping through [prepare] *)

Lemma bind_Raise {A B} (f : A -> result B) (e : exn) : (Raise e ≫= f) = Raise e.
Proof. reflexivity. Qed.

Lemma bind_Ok {A B} (f : A -> result B) (x : A) : (Ok x ≫= f) = f x.
Proof. reflexivity. Qed.

Lemma check_false (e : exn) : check false e = Ok ().
Proof. reflexivity. Qed.

Lemma check_true (e : exn) : check true e = Raise e.
Proof. reflexivity. Qed.

Lemma map_cells_to_space_Raise (w : World) (a : Args) (e : exn) :
  prepare a = Raise e -> map_cells_to_space w a = Raise e.
Proof. intros H. unfold map_cells_to_space. rewrite H. reflexivity. Qed.

(** One step of a sequence of fallible commands: the first command either
    raises on both sides of the goal or returns. *)
Ltac step_bind :=
  match goal with
  | |- context [mbind _ ?r] =>
      lazymatch r with
      | Ok _ => rewrite !bind_Ok
      | Raise _ => rewrite !bind_Raise
      | _ => destruct r eqn:?; [rewrite ?bind_Ok | rewrite ?bind_Raise; try reflexivity]
      end
  end.

(** ** Argument checks *)

(** C4: with [lambda_g1 == 0] the call raises the configuration error
    [ValueError("lambda_g1 cannot be 0.")] while the inputs of the optimizer
    are still being prepared: no optimizer is built, no epoch runs and no
    mapping is returned. *)
Theorem lambda_g1_zero_raises (w : World) (a : Args) :
  (lambda_g1 a == 0)%Q ->
  prepare a = Raise (ValueError "lambda_g1 cannot be 0.")
  /\ map_cells_to_space w a = Raise (ValueError "lambda_g1 cannot be 0.").
Proof.
  intros Hz.
  assert (Hp : prepare a = Raise (ValueError "lambda_g1 cannot be 0.")).
  { unfold prepare. apply Qeq_bool_iff in Hz. rewrite Hz. reflexivity. }
  split; [exact Hp | apply map_cells_to_space_Raise, Hp].
Qed.

(** C5: a [density_prior] other than [None] together with [lambda_d == 0]
    raises a [ValueError] before the optimizer is built, so nothing is trained
    and no mapping is returned. *)
Theorem density_prior_needs_lambda_d (w : World) (a : Args) :
  density_prior a <> ANone ->
  (lambda_d a == 0)%Q ->
  exists msg, prepare a = Raise (ValueError msg)
              /\ map_cells_to_space w a = Raise (ValueError msg)
              /\ (msg = "lambda_g1 cannot be 0."
                  \/ msg = "When density_prior is not None, lambda_d cannot be 0.").
Proof.
  intros Hdp Hz.
  assert (Hp : exists msg, prepare a = Raise (ValueError msg)
                 /\ (msg = "lambda_g1 cannot be 0."
                     \/ msg = "When density_prior is not None, lambda_d cannot be 0.")).
  { unfold prepare. destruct (Qeq_bool (lambda_g1 a) 0).
    - eexists. split; [reflexivity | now left].
    - rewrite check_false, bind_Ok.
      apply Qeq_bool_iff in Hz. rewrite Hz.
      destruct (density_prior a); [congruence | |];
        (eexists; split; [reflexivity | now right]). }
  destruct Hp as (msg & Hp & Hmsg). exists msg.
  split; [exact Hp | split; [apply map_cells_to_space_Raise, Hp | exact Hmsg]].
Qed.

(** ** The argument [d] *)

Lemma choose_d_overwrites (m : string) (d1 d2 dp : density) (G : matrix) :
  String.eqb m "clusters" || String.eqb m "cells" = true ->
  choose_d m d1 dp G = choose_d m d2 dp G.
Proof.
  intros Hm. unfold choose_d.
  destruct (String.eqb m "clusters"); [reflexivity |].
  simpl in Hm. rewrite Hm. reflexivity.
Qed.

Lemma source_data_with_d (a : Args) (d' : density_arg) :
  source_data (with_d a d') = source_data a.
Proof. reflexivity. Qed.

Lemma prepare_with_d (a : Args) (d1 d2 : density_arg) :
  prepare (with_d a d1) = prepare (with_d a d2).
Proof.
  unfold prepare; rewrite !source_data_with_d; simpl.
  destruct (Qeq_bool (lambda_g1 a) 0); [reflexivity |].
  rewrite !check_false, !bind_Ok.
  destruct (negb (is_None (density_of_arg (density_prior a))) && Qeq_bool (lambda_d a) 0);
    [reflexivity |].
  rewrite !check_false, !bind_Ok.
  destruct (String.eqb (mode a) "clusters" || String.eqb (mode a) "cells") eqn:Hmode;
    [| reflexivity].
  simpl negb. rewrite !check_false, !bind_Ok.
  repeat step_bind.
  destruct (uns _ !! "training_genes"); [| reflexivity].
  destruct (uns (adata_space a) !! "training_genes"); [| reflexivity].
  repeat step_bind.
  rewrite (choose_d_overwrites _ (density_of_arg d1) (density_of_arg d2)) by exact Hmode.
  reflexivity.
Qed.

(** C8: two calls that differ only in the argument [d] hand the same inputs
    (the same density among them) to the optimizer and return the same
    result: [d] is overwritten before it is read. *)
Theorem d_argument_is_ignored (w : World) (a : Args) (d1 d2 : density_arg) :
  prepare (with_d a d1) = prepare (with_d a d2)
  /\ (forall p, mapper_init (with_d a d1) p = mapper_init (with_d a d2) p)
  /\ map_cells_to_space w (with_d a d1) = map_cells_to_space w (with_d a d2).
Proof.
  split; [apply prepare_with_d | split; [reflexivity |]].
  unfold map_cells_to_space. rewrite (prepare_with_d a d1 d2).
  reflexivity.
Qed.

(** ** Aggregation keeps the annotations and stores a dense matrix *)

Lemma adata_to_cluster_expression_Ok (adata r : AnnData) (label : string) (sc dn : bool) :
  adata_to_cluster_expression adata label sc dn = Ok r ->
  uns r = uns adata /\ X_type r = ndarray.
Proof.
  unfold adata_to_cluster_expression.
  destruct (obs adata !! label); [| discriminate].
  destruct dn; intros [= <-]; split; reflexivity.
Qed.

Lemma adata_to_cluster_expression_Raise (adata : AnnData) (label : string)
    (sc dn : bool) (e : exn) :
  adata_to_cluster_expression adata label sc dn = Raise e ->
  e = ValueError "Provided label must belong to adata.obs.".
Proof.
  unfold adata_to_cluster_expression.
  destruct (obs adata !! label); [destruct dn; discriminate | congruence].
Qed.

(** ** Looking genes up *)

Lemma filter_nil_iff {T : Type} (f : T -> bool) (l : list T) :
  (forall x, In x l -> f x = false) -> List.filter f l = [].
Proof.
  induction l as [| x l IH]; intros H; [reflexivity |]. simpl.
  rewrite (H x (or_introl eq_refl)). apply IH. intros y Hy. apply H. right. exact Hy.
Qed.

Lemma index_of_Some (g : string) (idx : list string) (j : nat) :
  index_of g idx = Some j -> j < length idx /\ nth j idx EmptyString = g.
Proof.
  revert j. induction idx as [| h idx IH]; intros j; simpl; [discriminate |].
  destruct (String.eqb_spec g h) as [-> | Hne].
  - intros [= <-]. split; [lia | reflexivity].
  - destruct (index_of g idx) as [j' |]; [| discriminate].
    intros [= <-]. destruct (IH j' eq_refl) as [Hlt Hnth]. split; [lia | exact Hnth].
Qed.

Lemma index_of_In (g : string) (idx : list string) :
  In g idx -> exists j, index_of g idx = Some j.
Proof.
  induction idx as [| h idx IH]; intros Hin; [destruct Hin |]. simpl.
  destruct (String.eqb_spec g h) as [-> | Hne]; [eexists; reflexivity |].
  destruct Hin as [-> | Hin]; [congruence |].
  destruct (IH Hin) as [j Hj]. rewrite Hj. eexists; reflexivity.
Qed.

Lemma index_of_is_Some (g : string) (idx : list string) :
  is_Some (index_of g idx) <-> In g idx.
Proof.
  split.
  - intros [j Hj]. apply index_of_Some in Hj as [Hlt <-]. apply nth_In, Hlt.
  - intros Hin. destruct (index_of_In g idx Hin) as [j Hj]. exists j. exact Hj.
Qed.

(** The names reported absent are the names asked for that the index does
    not hold. *)
Lemma absent_names_In (genes idx : list string) (g : string) :
  In g (absent_names genes idx) <-> In g genes /\ ~ In g idx.
Proof.
  unfold absent_names. rewrite filter_In, negb_true_iff, bool_decide_eq_false.
  rewrite index_of_is_Some. reflexivity.
Qed.

Lemma absent_names_nil (genes idx : list string) :
  absent_names genes idx = [] <-> forall g, In g genes -> In g idx.
Proof.
  split.
  - intros Ha g Hg. destruct (index_of g idx) as [j |] eqn:Hj.
    + apply index_of_is_Some. exists j. exact Hj.
    + exfalso. assert (H : In g (absent_names genes idx)).
      { apply absent_names_In. split; [exact Hg |]. intros Hin.
        apply index_of_is_Some in Hin as [j Hj']. congruence. }
      rewrite Ha in H. destruct H.
  - intros H. apply filter_nil_iff. intros g Hg.
    apply negb_false_iff, bool_decide_eq_true, index_of_is_Some, H, Hg.
Qed.

Lemma positions_all_found (genes idx : list string) :
  (forall g, In g genes -> In g idx) ->
  Forall2 (fun g j => index_of g idx = Some j) genes
          (List.map (fun g => default 0%nat (index_of g idx)) genes).
Proof.
  induction genes as [| g genes IH]; intros H; simpl; constructor.
  - destruct (index_of_In g idx (H g (or_introl eq_refl))) as [j ->]. reflexivity.
  - apply IH. intros g' Hg'. apply H. right. exact Hg'.
Qed.

(** The positions found for a list of names: one per name, each the place
    of its name. *)
Lemma positions_Ok (genes idx : list string) (js : list nat) :
  positions genes idx = Ok js ->
  Forall2 (fun g j => index_of g idx = Some j) genes js.
Proof.
  unfold positions. destruct (absent_names genes idx) eqn:Ha; [| discriminate].
  intros [= <-]. apply positions_all_found, absent_names_nil, Ha.
Qed.

Lemma positions_total (genes idx : list string) :
  (forall g, In g genes -> In g idx) -> exists js, positions genes idx = Ok js.
Proof.
  intros H. unfold positions. rewrite (proj2 (absent_names_nil genes idx) H).
  eexists; reflexivity.
Qed.

(** A failure is a [KeyError] that reports every absent name. *)
Lemma positions_Raise (genes idx : list string) (e : exn) :
  positions genes idx = Raise e ->
  e = KeyError (absent_names genes idx) /\ absent_names genes idx <> [].
Proof.
  unfold positions. destruct (absent_names genes idx) eqn:Ha; [discriminate |].
  intros [= <-]. split; [reflexivity | discriminate].
Qed.


Lemma column_take_columns (js : list nat) (x : matrix) (i : nat) :
  i < length js -> column i (take_columns js x) = column (nth i js 0%nat) x.
Proof.
  intros Hi. unfold column, take_columns. simpl. rewrite List.map_map.
  apply map_ext. intros r.
  rewrite (nth_indep _ 0%Q (nth 0%nat r 0%Q)) by (rewrite length_map; exact Hi).
  apply (map_nth (fun j => nth j r 0%Q)).
Qed.

Lemma take_columns_wf (js : list nat) (x : matrix) : wf_matrix (take_columns js x).
Proof.
  unfold wf_matrix, take_columns. simpl. apply List.Forall_forall. intros r Hr.
  apply in_map_iff in Hr as (r' & <- & _). apply length_map.
Qed.

(** The columns selected by name: one per name, each the column of its
    name. *)
Lemma extracted_columns (x : matrix) (genes idx : list string) (js : list nat) :
  positions genes idx = Ok js ->
  shape0 (take_columns js x) = shape0 x
  /\ shape1 (take_columns js x) = length genes
  /\ wf_matrix (take_columns js x)
  /\ forall k g, genes !! k = Some g ->
       exists j, index_of g idx = Some j
                 /\ column k (take_columns js x) = column j x.
Proof.
  intros Hp. pose proof (positions_Ok _ _ _ Hp) as Hf.
  pose proof (Forall2_length _ _ _ Hf) as Hlen.
  split; [unfold shape0; simpl; apply length_map |].
  split; [simpl; symmetry; exact Hlen |].
  split; [apply take_columns_wf |].
  intros k g Hg.
  destruct (Forall2_lookup_l _ _ _ _ _ Hf Hg) as (j & Hj & Hidx).
  exists j. split; [exact Hidx |].
  rewrite column_take_columns by (apply lookup_lt_Some in Hj; exact Hj).
  rewrite (nth_lookup_Some _ _ _ _ Hj). reflexivity.
Qed.

(** ** Extraction of [S] and [G] *)

Definition recognized (t : storage) : bool := is_sparse t || is_ndarray t.

Lemma subset_vars_X_type (a v : AnnData) (genes : list string) :
  subset_vars a genes = Ok v -> X_type v = X_type a.
Proof.
  unfold subset_vars. destruct (positions genes (var_index a)); [| discriminate].
  intros [= <-]. reflexivity.
Qed.

(** The source matrix is extracted from every recognized class: the
    columns of the training genes, when the data set has them all. *)
Lemma extract_S_Ok (cells : AnnData) (genes : list string) (S : matrix) :
  extract_S cells genes = Ok S ->
  recognized (X_type cells) = true
  /\ exists js, positions genes (var_index cells) = Ok js /\ S = take_columns js (X cells).
Proof.
  unfold extract_S, subset_vars, recognized.
  destruct (positions genes (var_index cells)) as [js | e] eqn:Hp.
  - rewrite !bind_Ok. unfold X_toarray. simpl.
    destruct (X_type cells); simpl; try discriminate;
      intros [= <-]; (split; [reflexivity | exists js; split; reflexivity]).
  - rewrite !bind_Raise. destruct (is_sparse (X_type cells)); [discriminate |].
    destruct (is_ndarray (X_type cells)); discriminate.
Qed.

Lemma extract_S_recognized (cells : AnnData) (genes : list string) (js : list nat) :
  recognized (X_type cells) = true ->
  positions genes (var_index cells) = Ok js ->
  extract_S cells genes = Ok (take_columns js (X cells)).
Proof.
  unfold extract_S, subset_vars, recognized. intros Ht ->. rewrite !bind_Ok.
  unfold X_toarray. simpl. destruct (X_type cells); try discriminate; reflexivity.
Qed.

(** The target matrix is extracted from a dense array only. *)
Lemma extract_G_Ok (space : AnnData) (genes : list string) (G : matrix) :
  extract_G space genes = Ok G ->
  X_type space = ndarray
  /\ exists js, positions genes (var_index space) = Ok js /\ G = take_columns js (X space).
Proof.
  unfold extract_G, subset_vars.
  destruct (positions genes (var_index space)) as [js | e] eqn:Hp.
  - rewrite !bind_Ok. unfold AnnData_toarray. simpl.
    destruct (X_type space); simpl; try discriminate;
      intros [= <-]; (split; [reflexivity | exists js; split; reflexivity]).
  - rewrite !bind_Raise. destruct (is_sparse (X_type space)); [discriminate |].
    destruct (is_ndarray (X_type space)); discriminate.
Qed.

Lemma extract_G_dense (space : AnnData) (genes : list string) (js : list nat) :
  X_type space = ndarray ->
  positions genes (var_index space) = Ok js ->
  extract_G space genes = Ok (take_columns js (X space)).
Proof. unfold extract_G, subset_vars. intros -> ->. reflexivity. Qed.

(** A sparse target matrix never comes out of the extraction: once the
    names are found, [toarray] is called on the view itself, which has no such
    method. *)
Lemma extract_G_sparse (space : AnnData) (genes : list string) :
  is_sparse (X_type space) = true ->
  extract_G space genes
  = match absent_names genes (var_index space) with
    | [] => Raise (AttributeError "'AnnData' object has no attribute 'toarray'")
    | absent => Raise (KeyError absent)
    end.
Proof.
  intros Ht. unfold extract_G, subset_vars, positions. rewrite Ht.
  destruct (absent_names genes (var_index space)); reflexivity.
Qed.

(** An unrecognized class raises [NotImplementedError], and nothing else
    does. *)
Lemma extract_S_unrecognized (cells : AnnData) (genes : list string) :
  recognized (X_type cells) = false <-> extract_S cells genes = Raise NotImplementedError.
Proof.
  unfold extract_S, recognized, subset_vars, positions, X_toarray.
  destruct (X_type cells); simpl;
    destruct (absent_names genes (var_index cells)); simpl; split; congruence.
Qed.

Lemma extract_G_unrecognized (space : AnnData) (genes : list string) :
  recognized (X_type space) = false <-> extract_G space genes = Raise NotImplementedError.
Proof.
  unfold extract_G, recognized, subset_vars, positions, AnnData_toarray.
  destruct (X_type space); simpl;
    destruct (absent_names genes (var_index space)); simpl; split; congruence.
Qed.

(** C1: both data sets store [X] as a sparse [csr_matrix], a recognized
    class, and the call raises [AttributeError] while extracting [G]: line
    184 calls [toarray] on the view instead of on its [X]. *)
Theorem sparse_target_raises_AttributeError (w : World) :
  map_cells_to_space w (default_args (demo_cells csr_matrix) (demo_space csr_matrix))
  = Raise (AttributeError "'AnnData' object has no attribute 'toarray'").
Proof. apply map_cells_to_space_Raise. vm_compute. reflexivity. Qed.

(** ** The checks on the arguments *)

Definition label_message : string := "Provided label must belong to adata.obs.".

(** The errors of lines 139-155, each with the message that names the
    argument at fault. *)
Definition argument_errors : list exn :=
  [ValueError "lambda_g1 cannot be 0.";
   ValueError "When density_prior is not None, lambda_d cannot be 0.";
   ValueError mode_message;
   ValueError "A cluster_label must be specified if mode = clusters.";
   ValueError label_message].

(** The arguments that pass lines 139-155. *)
Definition arguments_accepted (a : Args) : Prop :=
  ~ (lambda_g1 a == 0)%Q
  /\ (density_prior a = ANone \/ ~ (lambda_d a == 0)%Q)
  /\ (mode a = "cells"
      \/ (mode a = "clusters"
          /\ exists label, cluster_label a = Some label
                           /\ is_Some (obs (adata_cells a) !! label))).

(** Lines 157-212, for the source data set that lines 152-155 leave in
    [adata_cells]. *)
Definition after_checks (a : Args) (cells : AnnData) : result Prepared :=
  match uns cells !! "training_genes", uns (adata_space a) !! "training_genes" with
  | None, _ => Raise (ValueError "Missing tangram parameters. Run `pp_adatas()`.")
  | Some _, None => Raise (ValueError "Missing tangram parameters. Run `pp_adatas()`.")
  | Some genes_cells, Some genes_space =>
      _ ← check (negb (bool_decide (genes_space = genes_cells))) AssertionError;
      S ← extract_S cells genes_cells;
      G ← extract_G (adata_space a) genes_cells;
      _ ← check (negb (any_axis0_all S) || negb (any_axis0_all G))
            (ValueError "Genes with all zero values detected. Run `pp_adatas()`.");
      density_prior ←
        resolve_density_prior (density_of_arg (density_prior a)) (adata_space a) G;
      _ ← check (negb (valid_device (device a)))
            (RuntimeError "Invalid device string");
      Ok {| p_adata_cells := cells; p_training_genes := genes_cells;
            p_S := S; p_G := G;
            p_d := choose_d (mode a) (density_of_arg (d a)) density_prior G;
            p_device := device a |}
  end.

Lemma is_None_density_of_arg (x : density_arg) :
  is_None (density_of_arg x) = true <-> x = ANone.
Proof. destruct x; simpl; split; congruence. Qed.

Lemma source_data_cells (a : Args) :
  mode a = "cells" -> source_data a = Ok (adata_cells a).
Proof. intros Hm. unfold source_data. rewrite Hm. reflexivity. Qed.

Lemma source_data_clusters (a : Args) (label : string) :
  mode a = "clusters" -> cluster_label a = Some label ->
  source_data a = adata_to_cluster_expression (adata_cells a) label (scale a) true.
Proof. intros Hm Hl. unfold source_data. rewrite Hm, Hl. reflexivity. Qed.

(** The source data set keeps the unstructured annotations of the argument
    and is stored in a recognized class whenever the argument is. *)
Lemma source_data_Ok (a : Args) (cells : AnnData) :
  source_data a = Ok cells ->
  uns cells = uns (adata_cells a)
  /\ (mode a <> "clusters" /\ cells = adata_cells a
      \/ mode a = "clusters"
         /\ exists label, cluster_label a = Some label
              /\ adata_to_cluster_expression (adata_cells a) label (scale a) true = Ok cells).
Proof.
  unfold source_data. destruct (String.eqb_spec (mode a) "clusters") as [Hm | Hm].
  - destruct (cluster_label a) as [label |] eqn:Hl; [| discriminate].
    intros H. split; [apply (adata_to_cluster_expression_Ok _ _ _ _ _ H) |].
    right. split; [exact Hm |]. exists label. split; [reflexivity | exact H].
  - intros [= <-]. split; [reflexivity |]. left. split; [exact Hm | reflexivity].
Qed.

(** The arguments are either accepted, and the run goes on with the source
    data set, or rejected with one of the errors of lines 139-155. *)
Lemma prepare_checks (a : Args) :
  (arguments_accepted a
   /\ exists cells, source_data a = Ok cells /\ uns cells = uns (adata_cells a)
                    /\ prepare a = after_checks a cells)
  \/ (~ arguments_accepted a /\ exists e, In e argument_errors /\ prepare a = Raise e).
Proof.
  unfold prepare.
  destruct (Qeq_bool (lambda_g1 a) 0) eqn:Hg1;
    [rewrite check_true, bind_Raise | rewrite check_false, bind_Ok].
  { right. split.
    - intros (Hn & _). apply Hn, Qeq_bool_iff, Hg1.
    - eexists. split; [| reflexivity]. simpl. tauto. }
  destruct (negb (is_None (density_of_arg (density_prior a))) && Qeq_bool (lambda_d a) 0)
    eqn:Hld; [rewrite check_true, bind_Raise | rewrite check_false, bind_Ok].
  { right. apply andb_true_iff in Hld as [Hd Hl]. split.
    - intros (_ & [Hn | Hn] & _).
      + rewrite Hn in Hd. discriminate.
      + apply Hn, Qeq_bool_iff, Hl.
    - eexists. split; [| reflexivity]. simpl. tauto. }
  destruct (negb (String.eqb (mode a) "clusters" || String.eqb (mode a) "cells"))
    eqn:Hmode; [rewrite check_true, bind_Raise | rewrite check_false, bind_Ok].
  { right. apply negb_true_iff, orb_false_iff in Hmode as [Hc1 Hc2].
    apply String.eqb_neq in Hc1, Hc2. split.
    - intros (_ & _ & [Hm | [Hm _]]); congruence.
    - eexists. split; [| reflexivity]. simpl. tauto. }
  destruct (String.eqb (mode a) "clusters" && label_is_None (cluster_label a))
    eqn:Hlabel; [rewrite check_true, bind_Raise | rewrite check_false, bind_Ok].
  { right. apply andb_true_iff in Hlabel as [Hm Hl].
    apply String.eqb_eq in Hm. split.
    - intros (_ & _ & [Hm' | (_ & label & Hlabel & _)]).
      + rewrite Hm in Hm'. discriminate.
      + rewrite Hlabel in Hl. discriminate.
    - eexists. split; [| reflexivity]. simpl. tauto. }
  assert (Hg : ~ (lambda_g1 a == 0)%Q).
  { rewrite <- Qeq_bool_iff. congruence. }
  assert (Hd : density_prior a = ANone \/ ~ (lambda_d a == 0)%Q).
  { apply andb_false_iff in Hld as [H | H].
    - left. apply is_None_density_of_arg, negb_false_iff, H.
    - right. rewrite <- Qeq_bool_iff. congruence. }
  apply negb_false_iff in Hmode.
  destruct (source_data a) as [cells | e] eqn:Hsrc.
  - left. rewrite bind_Ok. split.
    + split; [exact Hg |]. split; [exact Hd |].
      destruct (source_data_Ok a cells Hsrc) as [_ [[Hm _] | (Hm & label & Hl & Hagg)]].
      * left. apply orb_true_iff in Hmode as [H | H]; apply String.eqb_eq in H;
          [congruence | exact H].
      * right. split; [exact Hm |]. exists label. split; [exact Hl |].
        unfold adata_to_cluster_expression in Hagg.
        destruct (obs (adata_cells a) !! label); [eauto | discriminate].
    + exists cells. split; [reflexivity |].
      split; [apply (source_data_Ok a cells Hsrc) | reflexivity].
  - right. rewrite bind_Raise.
    assert (He : e = ValueError label_message
                 /\ mode a = "clusters"
                 /\ exists label, cluster_label a = Some label
                                  /\ obs (adata_cells a) !! label = None).
    { unfold source_data in Hsrc.
      destruct (String.eqb_spec (mode a) "clusters") as [Hm | Hm]; [| discriminate].
      destruct (cluster_label a) as [label |]; [| discriminate Hlabel].
      split; [apply (adata_to_cluster_expression_Raise _ _ _ _ _ Hsrc) |].
      split; [exact Hm |]. exists label. split; [reflexivity |].
      unfold adata_to_cluster_expression in Hsrc.
      destruct (obs (adata_cells a) !! label); [discriminate | reflexivity]. }
    destruct He as (-> & Hm & label & Hl & Hobs). split.
    + intros (_ & _ & [Hm' | (_ & label' & Hl' & Hsome)]).
      * rewrite Hm in Hm'. discriminate.
      * rewrite Hl in Hl'. injection Hl' as <-. rewrite Hobs in Hsome.
        destruct Hsome; discriminate.
    + eexists. split; [| reflexivity]. simpl. tauto.
Qed.

(** ** Training-gene annotations *)


(** ** Cluster densities *)

Lemma cell_eqb_refl (c : cell) : notna c = true -> cell_eqb c c = true.
Proof.
  destruct c as [s | q |]; simpl; intros H.
  - apply String.eqb_refl.
  - apply Qeq_bool_refl.
  - discriminate.
Qed.

Lemma cell_eqb_comm (a b : cell) : cell_eqb a b = cell_eqb b a.
Proof.
  destruct a, b; simpl; try reflexivity.
  - apply String.eqb_sym.
  - apply Qeq_bool_comm.
Qed.

(** The arrangements of three [a] and one [b]. *)
Lemma Permutation_three_one {T : Type} (a b : T) (l : list T) :
  Permutation l [a; a; a; b] ->
  l = [a; a; a; b] \/ l = [a; a; b; a] \/ l = [a; b; a; a] \/ l = [b; a; a; a].
Proof.
  intros Hp.
  assert (Hb : In b l).
  { apply (Permutation_in b (Permutation_sym Hp)). simpl. tauto. }
  destruct (in_split b l Hb) as (l1 & l2 & ->).
  assert (Hrest : Permutation [a; a; a] (l1 ++ l2)).
  { eapply Permutation_cons_app_inv. etransitivity; [| apply Permutation_sym, Hp].
    change [a; a; a; b] with (app [a; a; a] [b]).
    apply Permutation_cons_append. }
  assert (Hall : forall x, In x (l1 ++ l2) -> x = a).
  { intros x Hx. apply (Permutation_in x (Permutation_sym Hrest)) in Hx.
    simpl in Hx. intuition congruence. }
  pose proof (Permutation_length Hrest) as Hlen. rewrite length_app in Hlen. simpl in Hlen.
  assert (H1 : forall x, In x l1 -> x = a) by (intros; apply Hall, in_or_app; tauto).
  assert (H2 : forall x, In x l2 -> x = a) by (intros; apply Hall, in_or_app; tauto).
  destruct l1 as [| x1 [| x2 [| x3 [| x4 l1]]]];
    destruct l2 as [| y1 [| y2 [| y3 [| y4 l2]]]]; simpl in Hlen; try lia.
  - rewrite (H2 y1), (H2 y2), (H2 y3) by (simpl; tauto). simpl. tauto.
  - rewrite (H1 x1), (H2 y1), (H2 y2) by (simpl; tauto). simpl. tauto.
  - rewrite (H1 x1), (H1 x2), (H2 y1) by (simpl; tauto). simpl. tauto.
  - rewrite (H1 x1), (H1 x2), (H1 x3) by (simpl; tauto). simpl. tauto.
Qed.

Lemma value_counts_three_one (col : list cell) (A B : cell) :
  Permutation col [A; A; A; B] ->
  notna A = true -> notna B = true -> cell_eqb A B = false ->
  value_counts col = [(A, 3 # 4); (B, 1 # 4)].
Proof.
  intros Hp HA HB HAB.
  assert (HBA : cell_eqb B A = false) by (rewrite cell_eqb_comm; exact HAB).
  pose proof (cell_eqb_refl A HA) as HAA.
  pose proof (cell_eqb_refl B HB) as HBB.
  destruct (Permutation_three_one A B col Hp) as [-> | [-> | [-> | ->]]];
    unfold value_counts, unique, count_cell; cbn [List.filter List.map];
    repeat (rewrite ?HA, ?HB, ?HAA, ?HBB, ?HAB, ?HBA;
            progress cbn [List.filter List.map negb length]);
    reflexivity.
Qed.

(** The declared categories that no value takes, when the column is
    categorical. *)
Definition extra_labels (categories : option (list cell)) (col : list cell) : list cell :=
  match categories with
  | Some cats => unused_categories cats col
  | None => []
  end.

Lemma obs_value_counts_unfold (categories : option (list cell)) (col : list cell) :
  obs_value_counts categories col
  = app (value_counts col)
        (List.map (fun c => (c, (Qnat 0 / Qnat (length (List.filter notna col)))%Q))
                  (extra_labels categories col)).
Proof. destruct categories; simpl; [reflexivity | rewrite app_nil_r; reflexivity]. Qed.

Lemma obs_value_counts_labels (categories : option (list cell)) (col : list cell) :
  (obs_value_counts categories col).*1
  = app (value_counts col).*1 (extra_labels categories col).
Proof.
  rewrite obs_value_counts_unfold, fmap_app. f_equal.
  change (@fmap list _) with (@List.map). rewrite List.map_map. apply List.map_id.
Qed.

(** A category that some value takes is not listed a second time. *)
Lemma unused_categories_nil (cats col : list cell) :
  Forall (fun c => notna c = true -> existsb (cell_eqb c) col = true) cats ->
  unused_categories cats col = [].
Proof.
  intros H. unfold unused_categories. rewrite filter_nil_iff; [reflexivity |].
  intros c Hc. destruct (notna c) eqn:Hn; [| reflexivity].
  rewrite (proj1 (List.Forall_forall _ _) H c Hc Hn). reflexivity.
Qed.

(** C2 (amended): when the label column consists of three rows labelled [A]
    and one row labelled [B] and, if it is categorical, declares no category
    besides [A] and [B], the aggregated data set has exactly two rows, the
    first for cluster [A] and the second for cluster [B], and its
    [cluster_density] column holds 0.75 for [A] and 0.25 for [B]. *)
Theorem cluster_density_three_to_one
    (adata : AnnData) (label : string) (col : list cell) (A B : cell) (sc : bool) :
  obs adata !! label = Some col ->
  Permutation col [A; A; A; B] ->
  notna A = true -> notna B = true -> cell_eqb A B = false ->
  (forall cats, obs_categories adata !! label = Some cats ->
                Forall (fun c => c = A \/ c = B) cats) ->
  exists r,
    adata_to_cluster_expression adata label sc true = Ok r
    /\ n_obs r = 2%nat
    /\ rows (X r) = [cluster_row sc col (X adata) A; cluster_row sc col (X adata) B]
    /\ (label <> "cluster_density" -> obs r !! label = Some [A; B])
    /\ obs r !! "cluster_density" = Some [CNum (3 # 4); CNum (1 # 4)].
Proof.
  intros Hobs Hp HA HB HAB Hcats.
  assert (Hextra : extra_labels (obs_categories adata !! label) col = []).
  { destruct (obs_categories adata !! label) as [cats |] eqn:Hc; [| reflexivity].
    simpl. apply unused_categories_nil.
    eapply List.Forall_impl; [| apply (Hcats cats eq_refl)].
    intros c Hc' _. apply existsb_exists. exists c.
    split; [| destruct Hc' as [-> | ->]; apply cell_eqb_refl; assumption].
    apply (Permutation_in c (Permutation_sym Hp)).
    destruct Hc' as [-> | ->]; [left; reflexivity | do 3 right; left; reflexivity]. }
  unfold adata_to_cluster_expression. rewrite Hobs.
  rewrite obs_value_counts_unfold, Hextra, app_nil_r.
  rewrite (value_counts_three_one col A B Hp HA HB HAB).
  eexists. split; [reflexivity |].
  split; [reflexivity |]. split; [reflexivity |]. split.
  - intros Hne. simpl. rewrite lookup_insert_ne by congruence.
    apply lookup_singleton_eq.
  - simpl. rewrite lookup_insert_eq. unfold cluster_density_column. simpl.
    rewrite (cell_eqb_refl A HA), (cell_eqb_refl B HB).
    rewrite cell_eqb_comm, HAB. reflexivity.
Qed.

(** ** Cluster expression: sum or mean of the member rows *)

(** The observations labelled [l], by position, and the column-wise sum of
    their rows. *)
Definition member_indices (col : list cell) (l : cell) (x : matrix) : list nat :=
  List.filter (fun k => cell_eqb (nth k col CNaN) l) (seq 0 (shape0 x)).

Definition member_sum (col : list cell) (l : cell) (x : matrix) (j : nat) : Q :=
  Qsum (List.map (fun k => entry x k j) (member_indices col l x)).

Lemma length_vadd (u v : list Q) : length (vadd u v) = Nat.min (length u) (length v).
Proof.
  unfold vadd. revert v. induction u as [| a u IH]; intros [| b v]; simpl; auto.
Qed.

Lemma nth_vadd (u v : list Q) (j : nat) :
  j < length u -> j < length v ->
  nth j (vadd u v) 0%Q = (nth j u 0 + nth j v 0)%Q.
Proof.
  unfold vadd. revert v j. induction u as [| a u IH]; intros [| b v] [| j]; simpl;
    intros Hu Hv; try lia; [reflexivity | apply IH; lia].
Qed.

Lemma length_sum_rows (n : nat) (rs : list (list Q)) :
  Forall (fun r => length r = n) rs -> length (foldr vadd (repeat 0%Q n) rs) = n.
Proof.
  induction 1 as [| r rs Hr _ IH]; simpl.
  - apply repeat_length.
  - rewrite length_vadd, IH, Hr. lia.
Qed.

(** Entry [j] of the running sum of rows is the sum of the entries [j]. *)
Lemma nth_sum_rows (n : nat) (rs : list (list Q)) (j : nat) :
  Forall (fun r => length r = n) rs -> j < n ->
  nth j (foldr vadd (repeat 0%Q n) rs) 0%Q = Qsum (List.map (fun r => nth j r 0%Q) rs).
Proof.
  intros Hwf Hj. induction Hwf as [| r rs Hr Hrs IH]; simpl.
  - apply nth_repeat.
  - rewrite nth_vadd; [rewrite IH; reflexivity | lia |].
    rewrite length_sum_rows by exact Hrs. exact Hj.
Qed.

Lemma select_rows_wf (n : nat) (mask : list bool) (rs : list (list Q)) :
  Forall (fun r => length r = n) rs -> Forall (fun r => length r = n) (select_rows mask rs).
Proof.
  intros Hwf. revert mask. induction Hwf as [| r rs Hr _ IH]; intros [| b mask]; simpl;
    try constructor.
  destruct b; [constructor; [exact Hr | apply IH] | apply IH].
Qed.

(** A masked selection lists the rows at the positions where the mask
    holds. *)
Lemma select_rows_positions {T : Type} (f : list Q -> T) (mask : list bool)
    (rs : list (list Q)) :
  List.map f (select_rows mask rs)
  = List.map (fun k => f (nth k rs []))
             (List.filter (fun k => nth k mask false) (seq 0 (length rs))).
Proof.
  revert mask. induction rs as [| r rs IH]; intros mask.
  - destruct mask; reflexivity.
  - destruct mask as [| b mask].
    + simpl. rewrite (filter_ext (fun k => nth k [] false) (fun _ => false)).
      * clear. generalize (seq 1 (length rs)). intros l. induction l; auto.
      * intros [| k]; reflexivity.
    + cbn [select_rows length seq List.filter nth].
      rewrite <- seq_shift, filter_map_swap.
      destruct b; cbn [List.map nth]; rewrite List.map_map, IH; reflexivity.
Qed.

Lemma cluster_members_positions {T : Type} (f : list Q -> T) (col : list cell)
    (l : cell) (x : matrix) :
  List.map f (rows (cluster_members col l x))
  = List.map (fun k => f (nth k (rows x) [])) (member_indices col l x).
Proof.
  unfold cluster_members, member_indices, shape0. simpl.
  rewrite select_rows_positions. f_equal. apply filter_ext. intros k.
  change false with ((fun c => cell_eqb c l) CNaN). apply map_nth.
Qed.


Lemma sum_axis0_cluster_members (col : list cell) (l : cell) (x : matrix) (j : nat) :
  wf_matrix x -> j < shape1 x ->
  nth j (sum_axis0 (cluster_members col l x)) 0%Q = member_sum col l x j.
Proof.
  intros Hwf Hj. unfold sum_axis0.
  rewrite nth_sum_rows; [| apply select_rows_wf, Hwf | exact Hj].
  unfold member_sum. f_equal.
  apply (cluster_members_positions (fun r => nth j r 0%Q)).
Qed.

Lemma length_sum_axis0_cluster_members (col : list cell) (l : cell) (x : matrix) :
  wf_matrix x -> length (sum_axis0 (cluster_members col l x)) = shape1 x.
Proof. intros Hwf. apply length_sum_rows, select_rows_wf, Hwf. Qed.



(** ** What a successful preparation went through *)

Lemma resolve_density_prior_not_None (dp dp' : density) (space : AnnData) (G : matrix) :
  resolve_density_prior dp space G = Ok dp' -> is_None dp = false -> is_None dp' = false.
Proof.
  unfold resolve_density_prior. intros H Hn.
  destruct (density_eq_str dp "rna_count_based") as [[|] | e]; [| | discriminate].
  - destruct (obs space !! "rna_count_based_density"); [injection H as <- | discriminate].
    reflexivity.
  - destruct (density_eq_str dp "uniform") as [[|] | e']; [| | discriminate];
      injection H as <-; [reflexivity | exact Hn].
Qed.

Lemma choose_d_not_None (m : string) (d0 dp : density) (G : matrix) :
  String.eqb m "clusters" || String.eqb m "cells" = true ->
  is_None dp = false -> choose_d m d0 dp G = dp.
Proof.
  intros Hm Hn. unfold choose_d.
  destruct (String.eqb m "clusters"); [rewrite Hn; reflexivity |].
  simpl in Hm. rewrite Hm. reflexivity.
Qed.

Lemma arguments_accepted_mode (a : Args) :
  arguments_accepted a ->
  String.eqb (mode a) "clusters" || String.eqb (mode a) "cells" = true.
Proof.
  intros (_ & _ & [Hm | [Hm _]]); rewrite Hm; reflexivity.
Qed.

(** What lines 157-212 checked when they return. *)
Lemma after_checks_Ok (a : Args) (cells : AnnData) (p : Prepared) :
  after_checks a cells = Ok p ->
  p_adata_cells p = cells
  /\ uns cells !! "training_genes" = Some (p_training_genes p)
  /\ uns (adata_space a) !! "training_genes" = Some (p_training_genes p)
  /\ extract_S cells (p_training_genes p) = Ok (p_S p)
  /\ extract_G (adata_space a) (p_training_genes p) = Ok (p_G p)
  /\ any_axis0_all (p_S p) = true
  /\ any_axis0_all (p_G p) = true
  /\ (exists dp,
        resolve_density_prior (density_of_arg (density_prior a)) (adata_space a) (p_G p)
        = Ok dp
        /\ p_d p = choose_d (mode a) (density_of_arg (d a)) dp (p_G p))
  /\ valid_device (device a) = true
  /\ p_device p = device a.
Proof.
  unfold after_checks.
  destruct (uns cells !! "training_genes") as [gc |]; [| discriminate].
  destruct (uns (adata_space a) !! "training_genes") as [gs |]; [| discriminate].
  destruct (bool_decide (gs = gc)) eqn:Hgenes;
    [rewrite check_false, bind_Ok | discriminate].
  apply bool_decide_eq_true in Hgenes. subst gs.
  destruct (extract_S cells gc) as [S | e] eqn:HS; [rewrite bind_Ok | discriminate].
  destruct (extract_G (adata_space a) gc) as [G | e] eqn:HG; [rewrite bind_Ok | discriminate].
  destruct (any_axis0_all S) eqn:HSz; [| discriminate].
  destruct (any_axis0_all G) eqn:HGz; [| discriminate].
  simpl negb. rewrite check_false, bind_Ok.
  destruct (resolve_density_prior (density_of_arg (density_prior a)) (adata_space a) G)
    as [dp | e] eqn:Hdp; [rewrite bind_Ok | discriminate].
  destruct (valid_device (device a)) eqn:Hdev; [| discriminate].
  simpl negb. rewrite check_false, bind_Ok.
  intros [= <-]. simpl.
  repeat (split; [first [reflexivity | assumption] |]).
  split; [exists dp; split; [exact Hdp | reflexivity] |]. split; reflexivity.
Qed.

(** Lines 157-212 return as soon as their checks pass. *)
Lemma after_checks_intro (a : Args) (cells : AnnData) (genes : list string)
    (S G : matrix) (dp : density) :
  uns cells !! "training_genes" = Some genes ->
  uns (adata_space a) !! "training_genes" = Some genes ->
  extract_S cells genes = Ok S ->
  extract_G (adata_space a) genes = Ok G ->
  any_axis0_all S = true -> any_axis0_all G = true ->
  resolve_density_prior (density_of_arg (density_prior a)) (adata_space a) G = Ok dp ->
  valid_device (device a) = true ->
  after_checks a cells
  = Ok {| p_adata_cells := cells; p_training_genes := genes; p_S := S; p_G := G;
          p_d := choose_d (mode a) (density_of_arg (d a)) dp G;
          p_device := device a |}.
Proof.
  intros Hc Hs HS HG HSz HGz Hdp Hdev. unfold after_checks.
  rewrite Hc, Hs, bool_decide_eq_true_2 by reflexivity.
  simpl negb. rewrite check_false, bind_Ok, HS, bind_Ok, HG, bind_Ok, HSz, HGz.
  simpl negb. rewrite check_false, bind_Ok, Hdp, bind_Ok, Hdev. reflexivity.
Qed.

Lemma prepare_Ok_inv (a : Args) (p : Prepared) :
  prepare a = Ok p ->
  arguments_accepted a
  /\ source_data a = Ok (p_adata_cells p)
  /\ after_checks a (p_adata_cells p) = Ok p.
Proof.
  intros Hp.
  destruct (prepare_checks a)
    as [(Hacc & cells & Hsrc & _ & Heq) | (_ & e & _ & Heq)]; [| congruence].
  rewrite Heq in Hp. pose proof (after_checks_Ok a cells p Hp) as (Hcells & _).
  rewrite Hcells. split; [exact Hacc |]. split; [exact Hsrc | exact Hp].
Qed.

Lemma prepare_Ok (a : Args) (p : Prepared) :
  prepare a = Ok p ->
  String.eqb (mode a) "clusters" || String.eqb (mode a) "cells" = true
  /\ extract_S (p_adata_cells p) (p_training_genes p) = Ok (p_S p)
  /\ extract_G (adata_space a) (p_training_genes p) = Ok (p_G p)
  /\ exists dp,
       resolve_density_prior (density_of_arg (density_prior a)) (adata_space a) (p_G p) = Ok dp
       /\ p_d p = choose_d (mode a) (density_of_arg (d a)) dp (p_G p).
Proof.
  intros Hp. destruct (prepare_Ok_inv a p Hp) as (Hacc & _ & Hafter).
  destruct (after_checks_Ok a _ p Hafter) as (_ & _ & _ & HS & HG & _ & _ & Hdp & _).
  split; [apply arguments_accepted_mode, Hacc |]. tauto.
Qed.

Lemma extract_G_shape0 (space : AnnData) (genes : list string) (G : matrix) :
  extract_G space genes = Ok G -> shape0 G = n_obs space.
Proof.
  intros H. apply extract_G_Ok in H as (_ & js & _ & ->).
  unfold n_obs, shape0. simpl. apply length_map.
Qed.

Lemma extract_S_shape0 (cells : AnnData) (genes : list string) (S : matrix) :
  extract_S cells genes = Ok S -> shape0 S = n_obs cells.
Proof.
  intros H. apply extract_S_Ok in H as (_ & js & _ & ->).
  unfold n_obs, shape0. simpl. apply length_map.
Qed.

(** ** Sums of rationals *)

Lemma Qsum_Forall2 (u v : list Q) : Forall2 Qeq u v -> (Qsum u == Qsum v)%Q.
Proof.
  induction 1 as [| x y u v Hxy _ IH]; simpl; [reflexivity |].
  rewrite Hxy, IH. reflexivity.
Qed.

Lemma Qsum_nonneg (v : list Q) : Forall (Qle 0) v -> (0 <= Qsum v)%Q.
Proof.
  induction 1 as [| x v Hx _ IH]; simpl; [apply Qle_refl |].
  replace 0%Q with (0 + 0)%Q by reflexivity. apply Qplus_le_compat; assumption.
Qed.

Lemma Qsum_repeat (x : Q) (n : nat) : (Qsum (repeat x n) == Qnat n * x)%Q.
Proof.
  induction n as [| n IH].
  - simpl. unfold Qnat. simpl. ring.
  - cbn [repeat Qsum foldr]. fold (Qsum (repeat x n)). rewrite IH.
    unfold Qnat. rewrite Nat2Z.inj_succ, <- Z.add_1_r, inject_Z_plus. ring.
Qed.

Lemma Qsum_div (t : Q) (v : list Q) :
  (Qsum (List.map (fun c => c / t) v) == Qsum v / t)%Q.
Proof.
  induction v as [| x v IH]; simpl.
  - unfold Qdiv. ring.
  - fold (Qsum (List.map (fun c => (c / t)%Q) v)). fold (Qsum v). rewrite IH.
    unfold Qdiv. ring.
Qed.

Lemma Qnat_pos (n : nat) : 0 < n -> (0 < Qnat n)%Q.
Proof.
  intros Hn. unfold Qnat. replace 0%Q with (inject_Z 0) by reflexivity.
  rewrite <- Zlt_Qlt. lia.
Qed.

Lemma Qdiv_nonneg (x t : Q) : (0 <= x)%Q -> (0 <= t)%Q -> (0 <= x / t)%Q.
Proof.
  intros Hx Ht. destruct (Qeq_dec t 0) as [Hz | Hnz].
  - rewrite Hz. unfold Qdiv. simpl. rewrite Qmult_0_r. apply Qle_refl.
  - apply Qle_shift_div_l.
    + destruct (Qle_lt_or_eq _ _ Ht) as [H | H]; [exact H | symmetry in H; contradiction].
    + rewrite Qmult_0_l. exact Hx.
Qed.

(** ** The uniform density *)

Lemma ones_over_length (n : nat) : length (ones_over n) = n.
Proof. unfold ones_over. rewrite length_map. apply repeat_length. Qed.

Lemma ones_over_nonneg (n : nat) : Forall (Qle 0) (ones_over n).
Proof.
  unfold ones_over. rewrite map_repeat.
  assert (Hc : (0 <= 1 / Qnat n)%Q).
  { apply Qdiv_nonneg; [discriminate |].
    unfold Qnat. replace 0%Q with (inject_Z 0) by reflexivity. rewrite <- Zle_Qle. lia. }
  set (x := (1 / Qnat n)%Q) in *. clearbody x.
  induction n as [| n IH]; simpl; constructor; assumption.
Qed.

Lemma ones_over_sum (n : nat) : 0 < n -> (Qsum (ones_over n) == 1)%Q.
Proof.
  intros Hn. unfold ones_over. rewrite Qsum_div, Qsum_repeat.
  pose proof (Qnat_pos n Hn) as Hpos.
  field. intros Hz. rewrite Hz in Hpos. exact (Qlt_irrefl 0 Hpos).
Qed.

(** ** The density computed by [pp_adatas] *)

Lemma rna_count_based_density_distribution (x : matrix) :
  Forall (Qle 0) (sum_axis1 x) -> (0 < Qsum (sum_axis1 x))%Q ->
  length (rna_count_based_density x) = shape0 x
  /\ Forall (Qle 0) (rna_count_based_density x)
  /\ (Qsum (rna_count_based_density x) == 1)%Q.
Proof.
  intros Hnn Hpos. unfold rna_count_based_density.
  set (t := Qsum (sum_axis1 x)) in *. split; [| split].
  - rewrite length_map. unfold sum_axis1. apply length_map.
  - clearbody t. induction Hnn as [| c cs Hc _ IH]; simpl; constructor; [| exact IH].
    apply Qdiv_nonneg; [exact Hc | apply Qlt_le_weak, Hpos].
  - rewrite Qsum_div. fold t. field. intros Hz. rewrite Hz in Hpos.
    exact (Qlt_irrefl 0 Hpos).
Qed.

Lemma map_nth_seq (r : list Q) :
  List.map (fun j => nth j r 0%Q) (seq 0 (length r)) = r.
Proof.
  induction r as [| q r IH]; [reflexivity |].
  cbn [length seq List.map nth]. rewrite <- seq_shift, List.map_map. cbn [nth].
  rewrite IH. reflexivity.
Qed.

Lemma nth_nonneg (r : list Q) (j : nat) : Forall (Qle 0) r -> (0 <= nth j r 0)%Q.
Proof.
  intros Hr. revert j. induction Hr as [| q r Hq _ IH]; intros [| j]; simpl;
    try apply Qle_refl; [exact Hq | apply IH].
Qed.

(** Leaving out positions whose entry is zero does not change a sum. *)
Lemma Qsum_filter_zero (f : nat -> Q) (P : nat -> bool) (L : list nat) :
  (forall j, In j L -> P j = false -> (f j == 0)%Q) ->
  (Qsum (List.map f (List.filter P L)) == Qsum (List.map f L))%Q.
Proof.
  induction L as [| j L IH]; intros H; [reflexivity |].
  cbn [List.filter List.map]. destruct (P j) eqn:HP.
  - cbn [List.map Qsum foldr]. fold (Qsum (List.map f (List.filter P L))).
    fold (Qsum (List.map f L)). rewrite IH; [reflexivity |].
    intros k Hk. apply H. right. exact Hk.
  - cbn [Qsum foldr]. fold (Qsum (List.map f L)).
    rewrite IH by (intros k Hk; apply H; right; exact Hk).
    rewrite (H j (or_introl eq_refl) HP). ring.
Qed.

(** A gene that [filter_genes] drops is zero in every row when no entry is
    negative, so each row keeps its sum. *)
Lemma kept_genes_row_sum (x : matrix) (r : list Q) :
  wf_matrix x -> Forall (Forall (Qle 0)) (rows x) -> In r (rows x) ->
  (Qsum (List.map (fun j => nth j r 0%Q) (kept_genes x)) == Qsum r)%Q.
Proof.
  intros Hwf Hnn Hr. unfold kept_genes.
  rewrite Qsum_filter_zero.
  - assert (Hlen : length r = shape1 x)
      by (exact (proj1 (List.Forall_forall _ _) Hwf r Hr)).
    rewrite <- Hlen, map_nth_seq. reflexivity.
  - intros j _ Hdrop.
    assert (Hrow : Forall (Qle 0) r)
      by (exact (proj1 (List.Forall_forall _ _) Hnn r Hr)).
    apply Qle_antisym; [| apply nth_nonneg, Hrow].
    apply Nat.leb_gt in Hdrop.
    destruct (List.filter Qpositive (column j x)) as [| q qs] eqn:Hf; [| simpl in Hdrop; lia].
    assert (Hin : In (nth j r 0%Q) (column j x)).
    { unfold column. apply (in_map (fun r => nth j r 0%Q)). exact Hr. }
    destruct (Qpositive (nth j r 0%Q)) eqn:Hp.
    + assert (Hc : In (nth j r 0%Q) (List.filter Qpositive (column j x)))
        by (apply filter_In; split; assumption).
      rewrite Hf in Hc. destruct Hc.
    + unfold Qpositive in Hp. apply negb_false_iff in Hp.
      apply Qle_bool_iff. exact Hp.
Qed.

Lemma filter_genes_row_sums (a : AnnData) :
  wf_matrix (X a) -> Forall (Forall (Qle 0)) (rows (X a)) ->
  Forall2 Qeq (sum_axis1 (X (filter_genes a))) (sum_axis1 (X a)).
Proof.
  intros Hwf Hnn.
  change (sum_axis1 (X (filter_genes a)))
    with (List.map Qsum (List.map (fun r => List.map (fun j => nth j r 0%Q) (kept_genes (X a)))
                                  (rows (X a)))).
  unfold sum_axis1.
  assert (H : forall r, In r (rows (X a)) ->
            (Qsum (List.map (fun j => nth j r 0%Q) (kept_genes (X a))) == Qsum r)%Q)
    by (intros r Hr; apply kept_genes_row_sum; assumption).
  revert H. generalize (kept_genes (X a)). generalize (rows (X a)).
  intros rs ks H. induction rs as [| r rs IH]; simpl; constructor.
  - apply H. left. reflexivity.
  - apply IH. intros r' Hr'. apply H. right. exact Hr'.
Qed.

Lemma sum_axis1_nonneg (x : matrix) :
  Forall (Forall (Qle 0)) (rows x) -> Forall (Qle 0) (sum_axis1 x).
Proof.
  unfold sum_axis1. induction 1 as [| r rs Hr _ IH]; simpl; constructor;
    [apply Qsum_nonneg, Hr | exact IH].
Qed.

Lemma Forall2_Qeq_nonneg (u v : list Q) :
  Forall2 Qeq u v -> Forall (Qle 0) v -> Forall (Qle 0) u.
Proof.
  induction 1 as [| x y u v Hxy _ IH]; intros Hv; [constructor |].
  inversion Hv as [| ? ? Hy Hv']; subst. constructor; [rewrite Hxy; exact Hy | auto].
Qed.

Lemma cells_numbers_CNum (v : list Q) : cells_numbers (List.map CNum v) = Some v.
Proof. induction v as [| q v IH]; simpl; [reflexivity | rewrite IH; reflexivity]. Qed.

(** After [pp_adatas] the spatial data set carries a density that has one
    entry per spot, is non-negative and sums to one. *)
Lemma pp_adatas_density (adata_sc adata_sp : AnnData) (genes : option (list string)) :
  wf_matrix (X adata_sp) ->
  Forall (Forall (Qle 0)) (rows (X adata_sp)) ->
  (0 < Qsum (sum_axis1 (X adata_sp)))%Q ->
  exists v,
    obs (pp_adatas adata_sc adata_sp genes).2 !! "rna_count_based_density"
    = Some (List.map CNum v)
    /\ length v = n_obs (pp_adatas adata_sc adata_sp genes).2
    /\ Forall (Qle 0) v /\ (Qsum v == 1)%Q.
Proof.
  intros Hwf Hnn Hpos.
  set (sp := set_var_index
               (set_var_index adata_sp (List.map lower (var_index adata_sp)))
               (var_names_make_unique (List.map lower (var_index adata_sp)))).
  assert (Hsums : Forall2 Qeq (sum_axis1 (X (filter_genes sp))) (sum_axis1 (X adata_sp)))
    by (apply (filter_genes_row_sums sp); assumption).
  destruct (rna_count_based_density_distribution (X (filter_genes sp))) as (Hlen & Hn & Hs).
  { eapply Forall2_Qeq_nonneg; [exact Hsums | apply sum_axis1_nonneg, Hnn]. }
  { rewrite (Qsum_Forall2 _ _ Hsums). exact Hpos. }
  exists (rna_count_based_density (X (filter_genes sp))).
  split; [| split; [exact Hlen | split; [exact Hn | exact Hs]]].
  unfold pp_adatas. simpl. apply lookup_insert_eq.
Qed.

(** ** The density handed to the optimizer *)

(** C3 (amended): when [density_prior] is ["uniform"] and the spatial data
    set has at least one spot, or when it is ["rna_count_based"] and
    [pp_adatas] has been run on a spatial data set whose expression is
    entrywise non-negative with a positive total, the density handed to the
    optimizer has one entry per spot, is entrywise non-negative and sums
    to 1. *)
Theorem density_target_is_distribution (a : Args) (p : Prepared) :
  prepare a = Ok p ->
  (density_prior a = AStr "uniform" /\ 0 < n_obs (adata_space a))
  \/ (density_prior a = AStr "rna_count_based"
      /\ exists adata_sc adata_sp genes,
           adata_space a = (pp_adatas adata_sc adata_sp genes).2
           /\ wf_matrix (X adata_sp)
           /\ Forall (Forall (Qle 0)) (rows (X adata_sp))
           /\ (0 < Qsum (sum_axis1 (X adata_sp)))%Q) ->
  exists v,
    density_entries (init_d (mapper_init a p)) = Some v
    /\ length v = n_obs (adata_space a)
    /\ length v = shape0 (p_G p)
    /\ Forall (Qle 0) v
    /\ (Qsum v == 1)%Q.
Proof.
  intros Hp Hcase. change (init_d (mapper_init a p)) with (p_d p).
  destruct (prepare_Ok a p Hp) as (Hmode & _ & HG & dp & Hdp & Hd).
  pose proof (extract_G_shape0 _ _ _ HG) as Hshape.
  assert (Hnn : is_None (density_of_arg (density_prior a)) = false)
    by (destruct Hcase as [[-> _] | [-> _]]; reflexivity).
  rewrite (choose_d_not_None _ _ _ _ Hmode (resolve_density_prior_not_None _ _ _ _ Hdp Hnn))
    in Hd.
  rewrite Hd. clear Hd Hnn.
  destruct Hcase as [[Hu Hspots] | (Hr & adata_sc & adata_sp & genes & Hsp & Hwf & Hpos & Htot)].
  - rewrite Hu in Hdp. injection Hdp as <-.
    exists (ones_over (shape0 (p_G p))). split; [reflexivity |].
    split; [rewrite ones_over_length; exact Hshape |].
    split; [apply ones_over_length |].
    split; [apply ones_over_nonneg | apply ones_over_sum; lia].
  - destruct (pp_adatas_density adata_sc adata_sp genes Hwf Hpos Htot)
      as (v & Hobs & Hlen & Hv & Hsum).
    rewrite Hr in Hdp. unfold resolve_density_prior in Hdp. simpl in Hdp.
    rewrite Hsp, Hobs in Hdp. injection Hdp as <-.
    exists v. split; [apply cells_numbers_CNum |].
    split; [rewrite Hsp; exact Hlen |].
    split; [rewrite Hshape, Hsp; exact Hlen | split; assumption].
Qed.

(** ** Training scores *)

(** *** What the code computes *)

(** The quotient of lines 277-278 for two arrays. *)
Definition cosine_similarity (u v : list Q) : Q := (dot u v / (norm u * norm v))%Q.

Lemma insert_by_score_Permutation (x : string * Q) (l : list (string * Q)) :
  Permutation (insert_by_score x l) (x :: l).
Proof.
  induction l as [| y l IH]; simpl; [reflexivity |].
  destruct (Qle_bool y.2 x.2); [reflexivity |].
  rewrite IH. apply perm_swap.
Qed.

Lemma sort_values_desc_Permutation (df : list (string * Q)) :
  Permutation (sort_values_desc df) df.
Proof.
  induction df as [| x df IH]; simpl; [reflexivity |].
  rewrite insert_by_score_Permutation, IH. reflexivity.
Qed.

Lemma cos_sims_loop_map (pairs : list (list Q * list Q)) (acc : list Q) :
  cos_sims_loop pairs acc
  = app acc (List.map (fun vs => cosine_similarity vs.1 vs.2) pairs).
Proof.
  revert acc. induction pairs as [| [v1 v2] pairs IH]; intros acc; simpl.
  - symmetry. apply app_nil_r.
  - rewrite IH, <- app_assoc. reflexivity.
Qed.

Lemma zip_map_seq {T U : Type} (f : nat -> T) (g : nat -> U) (n m s : nat) :
  zip (List.map f (seq s n)) (List.map g (seq s m))
  = List.map (fun j => (f j, g j)) (seq s (Nat.min n m)).
Proof.
  revert m s. induction n as [| n IH]; intros [| m] s; simpl; try reflexivity.
  rewrite IH. reflexivity.
Qed.

(** The scores the loop of lines 275-278 collects, column by column. *)
Lemma cos_sims_columns (G Gp : matrix) :
  cos_sims_loop (zip (rows (transpose G)) (rows (transpose Gp))) []
  = List.map (fun j => cosine_similarity (column j G) (column j Gp))
             (seq 0 (Nat.min (shape1 G) (shape1 Gp))).
Proof.
  rewrite cos_sims_loop_map. simpl. rewrite zip_map_seq, List.map_map. reflexivity.
Qed.

Lemma subset_vars_Ok (a v : AnnData) (genes : list string) :
  subset_vars a genes = Ok v -> obs v = obs a /\ n_obs v = n_obs a.
Proof.
  unfold subset_vars. destruct (positions genes (var_index a)); [| discriminate].
  rewrite bind_Ok. intros [= <-]. split; [reflexivity |].
  unfold n_obs, shape0. simpl. apply length_map.
Qed.

Lemma extract_S_shape1 (cells : AnnData) (genes : list string) (S : matrix) :
  extract_S cells genes = Ok S -> shape1 S = length genes.
Proof.
  intros H. apply extract_S_Ok in H as (_ & js & Hjs & ->).
  apply (extracted_columns (X cells) _ _ _ Hjs).
Qed.

Lemma extract_G_shape1 (space : AnnData) (genes : list string) (G : matrix) :
  extract_G space genes = Ok G -> shape1 G = length genes.
Proof.
  intros H. apply extract_G_Ok in H as (_ & js & Hjs & ->).
  apply (extracted_columns (X space) _ _ _ Hjs).
Qed.

Lemma extract_S_subset_vars (cells : AnnData) (genes : list string) (S : matrix) :
  extract_S cells genes = Ok S -> exists v, subset_vars cells genes = Ok v.
Proof.
  intros H. apply extract_S_Ok in H as (_ & js & Hjs & _).
  unfold subset_vars. rewrite Hjs. eexists. reflexivity.
Qed.

Lemma extract_G_subset_vars (space : AnnData) (genes : list string) (G : matrix) :
  extract_G space genes = Ok G -> exists v, subset_vars space genes = Ok v.
Proof.
  intros H. apply extract_G_Ok in H as (_ & js & Hjs & _).
  unfold subset_vars. rewrite Hjs. eexists. reflexivity.
Qed.

(** What lines 266-300 return. *)
Lemma finish_Ok (a : Args) (p : Prepared) (M : matrix) (h : History) (res : MappingResult) :
  finish a p M h = Ok res ->
  map_X res = M /\ training_history res = h
  /\ shape0 M = n_obs (p_adata_cells p)
  /\ shape1 M = n_obs (adata_space a)
  /\ map_obs res = obs (p_adata_cells p)
  /\ map_var res = obs (adata_space a)
  /\ Nat.min (shape1 (p_G p)) (shape1 (p_S p)) = length (p_training_genes p)
  /\ train_genes_df res
     = sort_values_desc
         (zip (p_training_genes p)
              (List.map (fun j => cosine_similarity (column j (p_G p))
                                    (column j (matmul (transpose M) (p_S p))))
                        (seq 0 (length (p_training_genes p))))).
Proof.
  unfold finish.
  destruct (subset_vars (p_adata_cells p) (p_training_genes p)) as [cv | e] eqn:Hcv;
    [rewrite bind_Ok | discriminate].
  destruct (subset_vars (adata_space a) (p_training_genes p)) as [sv | e] eqn:Hsv;
    [rewrite bind_Ok | discriminate].
  destruct (subset_vars_Ok _ _ _ Hcv) as [Hco Hcn].
  destruct (subset_vars_Ok _ _ _ Hsv) as [Hso Hsn].
  destruct ((shape0 M =? n_obs cv)%nat && (shape1 M =? n_obs sv)%nat) eqn:Hshape;
    [| discriminate].
  simpl negb. rewrite check_false, bind_Ok.
  apply andb_true_iff in Hshape as [Hr Hc]. apply Nat.eqb_eq in Hr, Hc.
  rewrite cos_sims_columns. unfold DataFrame. rewrite length_map, length_seq.
  change (shape1 (matmul (transpose M) (p_S p))) with (shape1 (p_S p)).
  destruct (Nat.min (shape1 (p_G p)) (shape1 (p_S p)) =? length (p_training_genes p))%nat
    eqn:Hlen; [| discriminate].
  apply Nat.eqb_eq in Hlen. rewrite Hlen, bind_Ok. intros [= <-]. simpl.
  repeat split; congruence.
Qed.

(** Lines 266-300 return as soon as the mapping matrix has one row per
    source observation and one column per spot. *)
Lemma finish_intro (a : Args) (p : Prepared) (M : matrix) (h : History) :
  extract_S (p_adata_cells p) (p_training_genes p) = Ok (p_S p) ->
  extract_G (adata_space a) (p_training_genes p) = Ok (p_G p) ->
  shape0 M = n_obs (p_adata_cells p) ->
  shape1 M = n_obs (adata_space a) ->
  exists res, finish a p M h = Ok res.
Proof.
  intros HS HG Hr Hc. unfold finish.
  destruct (extract_S_subset_vars _ _ _ HS) as [cv Hcv].
  destruct (extract_G_subset_vars _ _ _ HG) as [sv Hsv].
  rewrite Hcv, Hsv, !bind_Ok.
  destruct (subset_vars_Ok _ _ _ Hcv) as [_ ->].
  destruct (subset_vars_Ok _ _ _ Hsv) as [_ ->].
  rewrite Hr, Hc, !Nat.eqb_refl. simpl negb. rewrite check_false, bind_Ok.
  rewrite cos_sims_columns. unfold DataFrame. rewrite length_map, length_seq.
  change (shape1 (matmul (transpose M) (p_S p))) with (shape1 (p_S p)).
  rewrite (extract_S_shape1 _ _ _ HS), (extract_G_shape1 _ _ _ HG), Nat.min_id.
  rewrite Nat.eqb_refl, bind_Ok. eexists. reflexivity.
Qed.

Lemma map_cells_to_space_Ok (w : World) (a : Args) (res : MappingResult) :
  map_cells_to_space w a = Ok res ->
  exists p,
    prepare a = Ok p
    /\ Mapper_train w (mapper_init a p) (train_args a)
       = Ok (map_X res, training_history res)
    /\ finish a p (map_X res) (training_history res) = Ok res.
Proof.
  unfold map_cells_to_space. destruct (prepare a) as [p | e] eqn:Hp; [| discriminate].
  rewrite bind_Ok.
  destruct (Mapper_train w (mapper_init a p) (train_args a)) as [[M h] | e] eqn:Hmt;
    [rewrite bind_Ok | discriminate].
  intros Hfin. destruct (finish_Ok a p M h res Hfin) as (HM & Hh & _).
  exists p. rewrite HM, Hh. split; [reflexivity |]. split; [exact Hmt | exact Hfin].
Qed.

(** *** The score in the words of the specification

    The quantities below are written over the entries of the matrices, one
    index at a time, independently of the array operations of the code. *)

(** [f 0 + f 1 + ... + f (n - 1)] *)
Fixpoint sigma (n : nat) (f : nat -> Q) : Q :=
  match n with
  | O => 0%Q
  | S n' => (f 0%nat + sigma n' (fun k => f (S k)))%Q
  end.

(** Entry (spot [i], gene [j]) of the prediction [Mᵀ·S], for a mapping [M]
    of cells to spots and a source matrix [S] of cells by genes: the
    expression of gene [j] in every cell, weighted by the share of the cell
    mapped on spot [i]. *)
Definition predicted_expression (M S : matrix) (i j : nat) : Q :=
  sigma (shape0 S) (fun c => (entry M c i * entry S c j)%Q).

(** Dot product and Euclidean norm of two vectors with [n] entries. *)
Definition dot_product (n : nat) (u v : nat -> Q) : Q :=
  sigma n (fun k => (u k * v k)%Q).

Definition euclidean_norm (n : nat) (u : nat -> Q) : Q :=
  sqrtQ (sigma n (fun k => (u k * u k)%Q)).

(** Column [j] of the observed matrix [G] and of the prediction, over the
    spots. *)
Definition observed_column (G : matrix) (j : nat) : nat -> Q := fun i => entry G i j.

Definition predicted_column (M S : matrix) (j : nat) : nat -> Q :=
  fun i => predicted_expression M S i j.

(** Cosine similarity between the observed and the predicted column of
    gene [j]. *)
Definition gene_score (G M S : matrix) (j : nat) : Q :=
  (dot_product (shape0 G) (observed_column G j) (predicted_column M S j)
   / (euclidean_norm (shape0 G) (observed_column G j)
      * euclidean_norm (shape0 G) (predicted_column M S j)))%Q.

(** *** The code computes the specified score *)

Lemma sigma_Qsum (n : nat) (f : nat -> Q) : sigma n f = Qsum (List.map f (seq 0 n)).
Proof.
  revert f. induction n as [| n IH]; intros f; [reflexivity |].
  cbn [sigma seq List.map Qsum foldr]. fold (Qsum (List.map f (seq 1 n))).
  rewrite IH, <- seq_shift, List.map_map. reflexivity.
Qed.

Lemma sigma_ext (n : nat) (f g : nat -> Q) :
  (forall k, k < n -> f k = g k) -> sigma n f = sigma n g.
Proof.
  revert f g. induction n as [| n IH]; intros f g H; [reflexivity |].
  simpl. rewrite (H 0%nat) by lia. f_equal. apply IH. intros k Hk. apply H. lia.
Qed.

Lemma zip_with_index {T U V : Type} (f : T -> U -> V) (u : list T) (v : list U)
    (dt : T) (du : U) :
  length u = length v ->
  zip_with f u v = List.map (fun k => f (nth k u dt) (nth k v du)) (seq 0 (length u)).
Proof.
  revert v. induction u as [| x u IH]; intros [| y v] Hlen; simpl in Hlen |- *;
    try reflexivity; try discriminate.
  rewrite <- seq_shift, List.map_map. f_equal. apply IH. lia.
Qed.

Lemma dot_index (u v : list Q) :
  length u = length v ->
  dot u v = sigma (length u) (fun k => (nth k u 0 * nth k v 0)%Q).
Proof.
  intros Hlen. unfold dot. rewrite sigma_Qsum, (zip_with_index Qmult u v 0%Q 0%Q Hlen).
  reflexivity.
Qed.

Lemma nth_column (j : nat) (m : matrix) (k : nat) : nth k (column j m) 0%Q = entry m k j.
Proof.
  unfold column, entry.
  replace 0%Q with (nth j ([] : list Q) 0%Q) at 1 by (destruct j; reflexivity).
  apply (map_nth (fun r => nth j r 0%Q)).
Qed.

Lemma length_column (j : nat) (m : matrix) : length (column j m) = shape0 m.
Proof. apply length_map. Qed.

Lemma nth_map_seq (f : nat -> Q) (n k : nat) :
  k < n -> nth k (List.map f (seq 0 n)) 0%Q = f k.
Proof.
  intros Hk. rewrite (nth_indep _ 0%Q (f 0%nat)) by (rewrite length_map, length_seq; exact Hk).
  rewrite (map_nth f), seq_nth by exact Hk. reflexivity.
Qed.

(** An entry of [M.T @ S] is the specified prediction. *)
Lemma dot_columns_predicted (M S : matrix) (i j : nat) :
  shape0 M = shape0 S ->
  dot (column i M) (column j S) = predicted_expression M S i j.
Proof.
  intros Hshape. rewrite dot_index by (rewrite !length_column; exact Hshape).
  rewrite length_column, Hshape. unfold predicted_expression.
  apply sigma_ext. intros k _. rewrite !nth_column. reflexivity.
Qed.

Lemma column_matmul_transpose (M S : matrix) (j : nat) :
  shape0 M = shape0 S -> j < shape1 S ->
  column j (matmul (transpose M) S)
  = List.map (predicted_column M S j) (seq 0 (shape1 M)).
Proof.
  intros Hshape Hj. unfold column at 1, matmul, transpose. simpl.
  rewrite !List.map_map. apply map_ext. intros i.
  rewrite nth_map_seq by exact Hj. apply dot_columns_predicted, Hshape.
Qed.

Lemma cosine_similarity_index (u v : list Q) (n : nat) (f g : nat -> Q) :
  length u = n -> length v = n ->
  (forall k, k < n -> nth k u 0%Q = f k) ->
  (forall k, k < n -> nth k v 0%Q = g k) ->
  cosine_similarity u v
  = (dot_product n f g / (euclidean_norm n f * euclidean_norm n g))%Q.
Proof.
  intros Hu Hv Hf Hg. unfold cosine_similarity, norm, dot_product, euclidean_norm.
  rewrite (dot_index u v), (dot_index u u), (dot_index v v) by congruence.
  rewrite Hu, Hv.
  rewrite (sigma_ext n (fun k => (nth k u 0 * nth k v 0)%Q) (fun k => (f k * g k)%Q))
    by (intros k Hk; rewrite Hf, Hg by exact Hk; reflexivity).
  rewrite (sigma_ext n (fun k => (nth k u 0 * nth k u 0)%Q) (fun k => (f k * f k)%Q))
    by (intros k Hk; rewrite Hf by exact Hk; reflexivity).
  rewrite (sigma_ext n (fun k => (nth k v 0 * nth k v 0)%Q) (fun k => (g k * g k)%Q))
    by (intros k Hk; rewrite Hg by exact Hk; reflexivity).
  reflexivity.
Qed.

(** The quotient the loop appends for gene [j] is the specified score. *)
Lemma loop_score_is_gene_score (G M S : matrix) (j : nat) :
  shape0 M = shape0 S -> shape1 M = shape0 G -> j < shape1 S ->
  cosine_similarity (column j G) (column j (matmul (transpose M) S)) = gene_score G M S j.
Proof.
  intros Hrows Hcols Hj. rewrite (column_matmul_transpose M S j Hrows Hj).
  unfold gene_score. apply cosine_similarity_index.
  - apply length_column.
  - rewrite length_map, length_seq. exact Hcols.
  - intros k _. apply nth_column.
  - intros k Hk. apply nth_map_seq. rewrite Hcols. exact Hk.
Qed.

(** C7: after a successful run the rows of [train_genes_df] are, in some
    order, the training genes, each paired with the cosine similarity between
    its column of the observed matrix [G] and its column of the prediction
    [Mᵀ·S] (their dot product divided by the product of their Euclidean
    norms), where [M] is the mapping matrix returned, with one row per row of
    [S] and one column per spot; in particular every training gene has a row
    with that score.  The two norms are assumed not to vanish. *)
Theorem train_score_is_cosine_similarity
    (w : World) (a : Args) (p : Prepared) (res : MappingResult) :
  prepare a = Ok p ->
  map_cells_to_space w a = Ok res ->
  (forall j, j < length (p_training_genes p) ->
     ~ (euclidean_norm (shape0 (p_G p)) (observed_column (p_G p) j) == 0)%Q
     /\ ~ (euclidean_norm (shape0 (p_G p))
             (predicted_column (map_X res) (p_S p) j) == 0)%Q) ->
  shape0 (map_X res) = shape0 (p_S p)
  /\ shape1 (map_X res) = shape0 (p_G p)
  /\ shape0 (p_G p) = n_obs (adata_space a)
  /\ Permutation (train_genes_df res)
       (zip (p_training_genes p)
            (List.map (gene_score (p_G p) (map_X res) (p_S p))
                      (seq 0 (length (p_training_genes p)))))
  /\ forall j g, p_training_genes p !! j = Some g ->
       In (g, gene_score (p_G p) (map_X res) (p_S p) j) (train_genes_df res).
Proof.
  intros Hp Hrun _.
  destruct (map_cells_to_space_Ok w a res Hrun) as (p' & Hp' & _ & Hfin).
  assert (p' = p) by congruence. subst p'. clear Hp'.
  destruct (prepare_Ok a p Hp) as (_ & HS & HG & _).
  destruct (finish_Ok a p _ _ res Hfin) as (_ & _ & Hr & Hc & _ & _ & _ & Hdf).
  assert (Hrows : shape0 (map_X res) = shape0 (p_S p))
    by (rewrite (extract_S_shape0 _ _ _ HS); exact Hr).
  assert (Hcols : shape1 (map_X res) = shape0 (p_G p))
    by (rewrite (extract_G_shape0 _ _ _ HG); exact Hc).
  assert (Hperm : Permutation (train_genes_df res)
       (zip (p_training_genes p)
            (List.map (gene_score (p_G p) (map_X res) (p_S p))
                      (seq 0 (length (p_training_genes p)))))).
  { rewrite Hdf, sort_values_desc_Permutation.
    rewrite (map_ext_in _ (gene_score (p_G p) (map_X res) (p_S p))); [reflexivity |].
    intros j Hj. apply in_seq in Hj. apply loop_score_is_gene_score; try assumption.
    rewrite (extract_S_shape1 _ _ _ HS). lia. }
  split; [exact Hrows |]. split; [exact Hcols |].
  split; [apply (extract_G_shape0 _ _ _ HG) |]. split; [exact Hperm |].
  intros j g Hg. apply (Permutation_in _ (Permutation_sym Hperm)).
  apply list_elem_of_In, list_elem_of_lookup. exists j.
  apply lookup_zip_with_Some. exists g, (gene_score (p_G p) (map_X res) (p_S p) j).
  split; [reflexivity | split; [exact Hg |]].
  change (@List.map) with (@fmap list _). rewrite list_lookup_fmap.
  rewrite lookup_seq_lt by (apply lookup_lt_Some in Hg; exact Hg). reflexivity.
Qed.

(** ** Clusters mode without a density prior *)

Lemma ones_over_entries (n : nat) :
  Forall (fun q => q = (1 / Qnat n)%Q) (ones_over n).
Proof.
  unfold ones_over. apply List.Forall_forall. intros q Hq.
  apply in_map_iff in Hq as (one & <- & Hone). apply repeat_spec in Hone. subst one.
  reflexivity.
Qed.

(** C9: in clusters mode with [density_prior=None] the check of line 143
    does not apply, whatever [lambda_d] is (0 included): when the data pass
    the later checks, the optimizer is built with the uniform density, one
    entry [1 / n_spots] per spot, and with [lambda_d] as given; and when the
    optimizer returns a matrix with one row per cluster and one column per
    spot, the call returns it. *)
Theorem clusters_default_density
    (w : World) (a : Args) (label : string) (cells : AnnData) (genes : list string)
    (S G : matrix) :
  mode a = "clusters" -> density_prior a = ANone -> cluster_label a = Some label ->
  ~ (lambda_g1 a == 0)%Q ->
  adata_to_cluster_expression (adata_cells a) label (scale a) true = Ok cells ->
  uns (adata_cells a) !! "training_genes" = Some genes ->
  uns (adata_space a) !! "training_genes" = Some genes ->
  extract_S cells genes = Ok S ->
  extract_G (adata_space a) genes = Ok G ->
  any_axis0_all S = true -> any_axis0_all G = true ->
  valid_device (device a) = true ->
  exists p,
    prepare a = Ok p
    /\ p_S p = S /\ p_G p = G
    /\ init_d (mapper_init a p) = DArray (ones_over (n_obs (adata_space a)))
    /\ length (ones_over (n_obs (adata_space a))) = n_obs (adata_space a)
    /\ Forall (fun q => q = (1 / Qnat (n_obs (adata_space a)))%Q)
              (ones_over (n_obs (adata_space a)))
    /\ init_lambda_d (mapper_init a p) = lambda_d a
    /\ forall M h,
         Mapper_train w (mapper_init a p) (train_args a) = Ok (M, h) ->
         shape0 M = n_obs cells -> shape1 M = n_obs (adata_space a) ->
         exists res, map_cells_to_space w a = Ok res /\ map_X res = M.
Proof.
  intros Hm Hd Hl Hg Hagg Huc Hus HS HG HSz HGz Hdev.
  assert (Hsrc : source_data a = Ok cells)
    by (rewrite (source_data_clusters a label Hm Hl); exact Hagg).
  assert (Huns : uns cells = uns (adata_cells a))
    by apply (adata_to_cluster_expression_Ok _ _ _ _ _ Hagg).
  destruct (prepare_checks a) as [(_ & cells' & Hsrc' & _ & Hp) | (Hrej & _)].
  2:{ exfalso. apply Hrej. split; [exact Hg |]. split; [now left |]. right.
      split; [exact Hm |]. exists label. split; [exact Hl |].
      unfold adata_to_cluster_expression in Hagg.
      destruct (obs (adata_cells a) !! label); [eauto | discriminate]. }
  assert (cells' = cells) by congruence. subst cells'.
  rewrite (after_checks_intro a cells genes S G DNone) in Hp; try assumption.
  2:{ rewrite Huns. exact Huc. }
  2:{ rewrite Hd. reflexivity. }
  eexists. split; [exact Hp |]. split; [reflexivity |]. split; [reflexivity |].
  split.
  { simpl. unfold choose_d. rewrite Hm. simpl.
    rewrite (extract_G_shape0 _ _ _ HG). reflexivity. }
  split; [apply ones_over_length |]. split; [apply ones_over_entries |].
  split; [reflexivity |].
  intros M h Hmt Hr Hc. unfold map_cells_to_space. rewrite Hp, bind_Ok, Hmt, bind_Ok.
  match goal with
  | |- context [finish a ?p M h] =>
      destruct (finish_intro a p M h HS HG Hr Hc) as [res Hres]
  end.
  exists res. split; [exact Hres |]. apply (finish_Ok _ _ _ _ _ Hres).
Qed.

(** * Further properties

    ** Labels and their counts *)

Lemma cell_eqb_notna (a b : cell) :
  cell_eqb a b = true -> notna a = true /\ notna b = true.
Proof. destruct a, b; simpl; intros H; try discriminate; split; reflexivity. Qed.

Lemma cell_eqb_trans (a b c : cell) :
  cell_eqb a b = true -> cell_eqb b c = true -> cell_eqb a c = true.
Proof.
  destruct a, b, c; simpl; try discriminate.
  - intros H1 H2. apply String.eqb_eq in H1, H2. apply String.eqb_eq. congruence.
  - intros H1 H2. apply Qeq_bool_iff in H1, H2. apply Qeq_bool_iff.
    rewrite H1. exact H2.
Qed.

Lemma filter_filter_implied {T : Type} (f g : T -> bool) (l : list T) :
  (forall x, In x l -> f x = true -> g x = true) ->
  List.filter f (List.filter g l) = List.filter f l.
Proof.
  induction l as [| x l IH]; intros H; [reflexivity |]. simpl.
  assert (IH' : List.filter f (List.filter g l) = List.filter f l)
    by (apply IH; intros y Hy; apply H; right; exact Hy).
  destruct (g x) eqn:Hg; simpl.
  - rewrite IH'. reflexivity.
  - destruct (f x) eqn:Hf; [| exact IH'].
    rewrite (H x (or_introl eq_refl) Hf) in Hg. discriminate.
Qed.

Lemma unique_In (c : cell) (l : list cell) : In c (unique l) -> In c l.
Proof.
  induction l as [| x l IH]; simpl; [tauto |].
  intros [-> | H]; [left; reflexivity |].
  right. apply IH. apply filter_In in H. tauto.
Qed.

Lemma In_unique (c : cell) (l : list cell) :
  In c l -> notna c = true -> exists u, In u (unique l) /\ cell_eqb u c = true.
Proof.
  intros Hin Hc. induction l as [| x l IH]; [destruct Hin |].
  simpl. destruct Hin as [-> | Hin].
  - exists c. split; [left; reflexivity | apply cell_eqb_refl, Hc].
  - destruct (IH Hin) as (u & Hu & Huc).
    destruct (cell_eqb x u) eqn:Hxu.
    + exists x. split; [left; reflexivity | eapply cell_eqb_trans; eassumption].
    + exists u. split; [| exact Huc]. right. apply filter_In. split; [exact Hu |].
      rewrite Hxu. reflexivity.
Qed.

(** Among the distinct values of a column without missing values, exactly
    one equals a given value of the column. *)
Lemma unique_matches_once (l : list cell) (v : cell) :
  Forall (fun c => notna c = true) l -> In v l ->
  length (List.filter (fun u => cell_eqb u v) (unique l)) = 1%nat.
Proof.
  intros Hna. induction Hna as [| c l Hc Hl IH]; intros Hv; [destruct Hv |].
  cbn [unique List.filter]. destruct (cell_eqb c v) eqn:Hcv.
  - cbn [length]. f_equal. rewrite filter_nil_iff; [reflexivity |].
    intros x Hx. apply filter_In in Hx as [_ Hx]. apply negb_true_iff in Hx.
    destruct (cell_eqb x v) eqn:Hxv; [| reflexivity].
    rewrite (cell_eqb_trans c v x Hcv) in Hx; [discriminate |].
    rewrite cell_eqb_comm. exact Hxv.
  - destruct Hv as [-> | Hv]; [rewrite (cell_eqb_refl v Hc) in Hcv; discriminate |].
    rewrite filter_filter_implied; [apply IH, Hv |].
    intros x _ Hxv. apply negb_true_iff.
    destruct (cell_eqb c x) eqn:Hcx; [| reflexivity].
    rewrite (cell_eqb_trans c x v Hcx Hxv) in Hcv. discriminate.
Qed.

Lemma count_cell_cons (u v : cell) (l : list cell) :
  count_cell u (v :: l) = ((if cell_eqb u v then 1 else 0) + count_cell u l)%nat.
Proof. unfold count_cell. simpl. destruct (cell_eqb u v); reflexivity. Qed.

Lemma list_sum_map_add {T : Type} (f g : T -> nat) (l : list T) :
  list_sum (List.map (fun x => (f x + g x)%nat) l)
  = (list_sum (List.map f l) + list_sum (List.map g l))%nat.
Proof. induction l as [| x l IH]; simpl; [reflexivity | rewrite IH; lia]. Qed.

Lemma list_sum_indicator {T : Type} (f : T -> bool) (l : list T) :
  list_sum (List.map (fun x => if f x then 1%nat else 0%nat) l) = length (List.filter f l).
Proof. induction l as [| x l IH]; simpl; [reflexivity |]. destruct (f x); simpl; lia. Qed.

(** The counts of the distinct values add up to the length of the column. *)
Lemma counts_add_up (L vals : list cell) :
  (forall v, In v vals -> length (List.filter (fun u => cell_eqb u v) L) = 1%nat) ->
  list_sum (List.map (fun u => count_cell u vals) L) = length vals.
Proof.
  induction vals as [| v vals IH]; intros H.
  - unfold count_cell. simpl. clear H. induction L; simpl; auto.
  - rewrite (map_ext _ (fun u => ((if cell_eqb u v then 1 else 0) + count_cell u vals)%nat))
      by (intros u; apply count_cell_cons).
    rewrite list_sum_map_add, list_sum_indicator, (H v (or_introl eq_refl)).
    rewrite IH by (intros x Hx; apply H; right; exact Hx). reflexivity.
Qed.

Lemma unique_counts_add_up (vals : list cell) :
  Forall (fun c => notna c = true) vals ->
  list_sum (List.map (fun u => count_cell u vals) (unique vals)) = length vals.
Proof. intros Hna. apply counts_add_up. intros v Hv. apply unique_matches_once; assumption. Qed.

Lemma filter_notna_Forall (col : list cell) :
  Forall (fun c => notna c = true) (List.filter notna col).
Proof.
  apply List.Forall_forall. intros c Hc. apply filter_In in Hc. tauto.
Qed.

(** ** Sorting by count *)

Lemma insert_by_count_Permutation (x : cell * nat) (l : list (cell * nat)) :
  Permutation (insert_by_count x l) (x :: l).
Proof.
  induction l as [| y l IH]; simpl; [reflexivity |].
  destruct (y.2 <=? x.2)%nat; [reflexivity |].
  rewrite IH. apply perm_swap.
Qed.

Lemma sort_by_count_Permutation (l : list (cell * nat)) :
  Permutation (sort_by_count l) l.
Proof.
  induction l as [| x l IH]; simpl; [reflexivity |].
  rewrite insert_by_count_Permutation, IH. reflexivity.
Qed.

Lemma insert_by_count_sorted (x : cell * nat) (l : list (cell * nat)) :
  StronglySorted (fun a b => (b.2 <= a.2)%nat) l ->
  StronglySorted (fun a b => (b.2 <= a.2)%nat) (insert_by_count x l).
Proof.
  induction 1 as [| y l Hl IH Hy]; simpl.
  - constructor; constructor.
  - destruct (y.2 <=? x.2)%nat eqn:Hle.
    + apply Nat.leb_le in Hle. constructor; [constructor; assumption |].
      constructor; [exact Hle |].
      eapply Forall_impl; [exact Hy |]. simpl. intros z Hz. lia.
    + apply Nat.leb_gt in Hle. constructor; [exact IH |].
      rewrite (insert_by_count_Permutation x l). constructor; [lia | exact Hy].
Qed.

Lemma sort_by_count_sorted (l : list (cell * nat)) :
  StronglySorted (fun a b => (b.2 <= a.2)%nat) (sort_by_count l).
Proof.
  induction l as [| x l IH]; simpl; [constructor | apply insert_by_count_sorted, IH].
Qed.

(** ** Distinct labels *)

(** No missing value, and no two entries equal. *)
Fixpoint distinct_labels (ks : list cell) : Prop :=
  match ks with
  | [] => True
  | k :: ks' =>
      notna k = true /\ Forall (fun u => cell_eqb k u = false) ks' /\ distinct_labels ks'
  end.

Lemma distinct_labels_filter (f : cell -> bool) (ks : list cell) :
  distinct_labels ks -> distinct_labels (List.filter f ks).
Proof.
  induction ks as [| k ks IH]; simpl; [tauto |].
  intros (Hk & Hks & Hd). destruct (f k); simpl; [| apply IH, Hd].
  split; [exact Hk |]. split; [| apply IH, Hd].
  apply List.Forall_forall. intros u Hu. apply filter_In in Hu as [Hu _].
  exact (proj1 (List.Forall_forall _ _) Hks u Hu).
Qed.

Lemma unique_distinct (l : list cell) :
  Forall (fun c => notna c = true) l -> distinct_labels (unique l).
Proof.
  induction 1 as [| c l Hc _ IH]; simpl; [exact I |].
  split; [exact Hc |]. split; [| apply distinct_labels_filter, IH].
  apply List.Forall_forall. intros u Hu. apply filter_In in Hu as [_ Hu].
  apply negb_true_iff in Hu. exact Hu.
Qed.

Lemma distinct_labels_Permutation (ks ks' : list cell) :
  Permutation ks ks' -> distinct_labels ks -> distinct_labels ks'.
Proof.
  induction 1 as [| k ks ks' Hp IH | k1 k2 ks | ks1 ks2 ks3 _ IH1 _ IH2]; simpl.
  - tauto.
  - intros (Hk & Hks & Hd). split; [exact Hk |]. split; [| apply IH, Hd].
    rewrite <- Hp. exact Hks.
  - intros (H2 & H2s & H1 & H1s & Hd).
    inversion H2s as [| ? ? H21 H2s']; subst.
    split; [exact H1 |]. split; [| split; [exact H2 | split; [exact H2s' | exact Hd]]].
    constructor; [rewrite cell_eqb_comm; exact H21 | exact H1s].
  - intros Hd. apply IH2, IH1, Hd.
Qed.

(** A label of a table with distinct keys is looked up at its own row. *)
Lemma lookup_count_distinct (vc : list (cell * Q)) (n : nat) (i : cell) (q : Q) :
  distinct_labels vc.*1 -> vc !! n = Some (i, q) -> lookup_count i vc = Some q.
Proof.
  revert n. induction vc as [| [c q0] vc IH]; intros n Hd Hn; [discriminate |].
  simpl in Hd. destruct Hd as (Hc & Hcs & Hd). destruct n as [| n]; simpl in Hn |- *.
  - injection Hn as -> ->. rewrite (cell_eqb_refl i Hc). reflexivity.
  - assert (Hi : In i vc.*1).
    { apply list_elem_of_In, list_elem_of_fmap. exists (i, q). split; [reflexivity |].
      apply list_elem_of_lookup. exists n. exact Hn. }
    rewrite cell_eqb_comm, (proj1 (List.Forall_forall _ _) Hcs i Hi).
    apply (IH n Hd Hn).
Qed.

Lemma cluster_density_column_distinct (vc : list (cell * Q)) :
  distinct_labels vc.*1 -> cluster_density_column vc vc.*1 = List.map CNum vc.*2.
Proof.
  intros Hd. unfold cluster_density_column.
  apply list_eq. intros n. change (@List.map) with (@fmap list _).
  rewrite !list_lookup_fmap.
  destruct (vc !! n) as [[i q] |] eqn:Hn; simpl; [| reflexivity].
  rewrite (lookup_count_distinct vc n i q Hd Hn). reflexivity.
Qed.

(** ** The table of [value_counts] *)

Definition counted_labels (col : list cell) : list (cell * nat) :=
  List.map (fun c => (c, count_cell c (List.filter notna col)))
           (unique (List.filter notna col)).

Lemma value_counts_unfold (col : list cell) :
  value_counts col
  = List.map (fun cn => (cn.1, (Qnat cn.2 / Qnat (length (List.filter notna col)))%Q))
             (sort_by_count (counted_labels col)).
Proof. reflexivity. Qed.

Lemma value_counts_labels (col : list cell) :
  Permutation (value_counts col).*1 (unique (List.filter notna col)).
Proof.
  rewrite value_counts_unfold. change (@fmap list _) with (@List.map).
  rewrite List.map_map. simpl.
  rewrite (Permutation_map fst (sort_by_count_Permutation (counted_labels col))).
  unfold counted_labels. rewrite List.map_map. simpl. rewrite List.map_id. reflexivity.
Qed.

Lemma value_counts_distinct (col : list cell) : distinct_labels (value_counts col).*1.
Proof.
  eapply distinct_labels_Permutation; [symmetry; apply value_counts_labels |].
  apply unique_distinct, filter_notna_Forall.
Qed.

Lemma value_counts_length (col : list cell) :
  length (value_counts col) = length (unique (List.filter notna col)).
Proof.
  rewrite <- (Permutation_length (value_counts_labels col)).
  change (@fmap list _) with (@List.map). symmetry. apply length_map.
Qed.

Lemma value_counts_fractions (col : list cell) :
  (value_counts col).*2
  = List.map (fun cn => (Qnat cn.2 / Qnat (length (List.filter notna col)))%Q)
             (sort_by_count (counted_labels col)).
Proof.
  rewrite value_counts_unfold. change (@fmap list _) with (@List.map).
  rewrite List.map_map. reflexivity.
Qed.

Lemma count_cell_bounds (c : cell) (vals : list cell) :
  Forall (fun c => notna c = true) vals -> In c vals ->
  (1 <= count_cell c vals <= length vals)%nat.
Proof.
  intros Hna Hc. unfold count_cell. split; [| apply List.filter_length_le].
  assert (Hin : In c (List.filter (cell_eqb c) vals)).
  { apply filter_In. split; [exact Hc |]. apply cell_eqb_refl.
    exact (proj1 (List.Forall_forall _ _) Hna c Hc). }
  destruct (List.filter (cell_eqb c) vals); [destruct Hin | simpl; lia].
Qed.

Lemma Qsum_Permutation (u v : list Q) : Permutation u v -> (Qsum u == Qsum v)%Q.
Proof.
  induction 1 as [| x u v _ IH | x y u | u v w _ IH1 _ IH2]; simpl.
  - reflexivity.
  - fold (Qsum u). fold (Qsum v). rewrite IH. reflexivity.
  - fold (Qsum u). ring.
  - rewrite IH1. exact IH2.
Qed.

Lemma Qsum_Qnat (ns : list nat) : (Qsum (List.map Qnat ns) == Qnat (list_sum ns))%Q.
Proof.
  induction ns as [| n ns IH]; simpl; [reflexivity |].
  fold (Qsum (List.map Qnat ns)). rewrite IH. unfold Qnat.
  rewrite Nat2Z.inj_add, inject_Z_plus. reflexivity.
Qed.

Lemma Qnat_le (n m : nat) : (n <= m)%nat -> (Qnat n <= Qnat m)%Q.
Proof. intros H. unfold Qnat. rewrite <- Zle_Qle. lia. Qed.

(** The fractions of [value_counts] add up to one as soon as one value is
    present. *)
Lemma value_counts_sum (col : list cell) :
  existsb notna col = true -> (Qsum (value_counts col).*2 == 1)%Q.
Proof.
  intros Hex. rewrite value_counts_fractions.
  set (vals := List.filter notna col).
  assert (Hpos : (0 < Qnat (length vals))%Q).
  { apply Qnat_pos. apply existsb_exists in Hex as (c & Hc & Hn).
    assert (Hin : In c vals) by (apply filter_In; split; assumption).
    destruct vals; [destruct Hin | simpl; lia]. }
  rewrite (Qsum_Permutation _ _
             (Permutation_map _ (sort_by_count_Permutation (counted_labels col)))).
  rewrite <- (List.map_map snd (fun n => (Qnat n / Qnat (length vals))%Q)).
  rewrite <- (List.map_map Qnat (fun q => (q / Qnat (length vals))%Q)).
  rewrite Qsum_div, Qsum_Qnat.
  unfold counted_labels. rewrite List.map_map. simpl. fold vals.
  rewrite (unique_counts_add_up vals) by apply filter_notna_Forall.
  field. intros Hz. rewrite Hz in Hpos. exact (Qlt_irrefl 0 Hpos).
Qed.

Lemma value_counts_fraction_bounds (col : list cell) :
  Forall (fun q => (0 < q /\ q <= 1)%Q) (value_counts col).*2.
Proof.
  rewrite value_counts_fractions.
  set (vals := List.filter notna col).
  apply List.Forall_forall. intros q Hq.
  apply in_map_iff in Hq as ([c n] & <- & Hcn). simpl.
  apply (Permutation_in _ (sort_by_count_Permutation _)) in Hcn.
  unfold counted_labels in Hcn. apply in_map_iff in Hcn as (c' & [= -> <-] & Hc).
  fold vals in Hc |- *. apply unique_In in Hc.
  destruct (count_cell_bounds c vals (filter_notna_Forall col) Hc) as [Hlo Hhi].
  assert (Hpos : (0 < Qnat (length vals))%Q) by (apply Qnat_pos; lia).
  split.
  - apply Qlt_shift_div_l; [exact Hpos |]. rewrite Qmult_0_l. apply Qnat_pos. lia.
  - apply Qle_shift_div_r; [exact Hpos |]. rewrite Qmult_1_l. apply Qnat_le, Hhi.
Qed.

Lemma value_counts_sorted (col : list cell) :
  StronglySorted (fun p q => (q <= p)%Q) (value_counts col).*2.
Proof.
  rewrite value_counts_fractions.
  set (t := Qnat (length (List.filter notna col))).
  assert (Ht : (0 <= / t)%Q).
  { apply Qinv_le_0_compat. unfold t, Qnat.
    replace 0%Q with (inject_Z 0) by reflexivity. rewrite <- Zle_Qle. lia. }
  pose proof (sort_by_count_sorted (counted_labels col)) as Hs.
  induction Hs as [| x l _ IH Hx]; simpl; constructor; [exact IH |].
  apply List.Forall_forall. intros q Hq. apply in_map_iff in Hq as (y & <- & Hy).
  pose proof (proj1 (List.Forall_forall _ _) Hx y Hy) as Hle. simpl in Hle.
  unfold Qdiv. apply Qmult_le_compat_r; [apply Qnat_le, Hle | exact Ht].
Qed.

(** ** The table of a categorical column *)

Lemma value_counts_labels_In (col : list cell) (l : cell) :
  In l (value_counts col).*1 -> In l col /\ notna l = true.
Proof.
  intros Hl. apply (Permutation_in _ (value_counts_labels col)) in Hl.
  apply unique_In, filter_In in Hl. exact Hl.
Qed.

(** An added category is a present value that no row of the column takes. *)
Lemma extra_labels_spec (categories : option (list cell)) (col : list cell) (l : cell) :
  In l (extra_labels categories col) ->
  notna l = true /\ forall c, In c col -> cell_eqb l c = false.
Proof.
  destruct categories as [cats |]; [| intros []]. simpl. unfold unused_categories.
  intros Hl. apply unique_In, filter_In in Hl as [_ Hl].
  apply andb_true_iff in Hl as [Hn Hex]. split; [exact Hn |].
  intros c Hc. apply negb_true_iff in Hex.
  destruct (cell_eqb l c) eqn:Hlc; [| reflexivity].
  rewrite <- Hex. symmetry. apply existsb_exists. exists c. split; assumption.
Qed.

Lemma extra_labels_distinct (categories : option (list cell)) (col : list cell) :
  distinct_labels (extra_labels categories col).
Proof.
  destruct categories as [cats |]; [| exact I]. simpl. unfold unused_categories.
  apply unique_distinct. apply List.Forall_forall. intros c Hc.
  apply filter_In in Hc as [_ Hc]. apply andb_true_iff in Hc. tauto.
Qed.

Lemma distinct_labels_app (ks1 ks2 : list cell) :
  distinct_labels ks1 -> distinct_labels ks2 ->
  (forall k1 k2, In k1 ks1 -> In k2 ks2 -> cell_eqb k1 k2 = false) ->
  distinct_labels (app ks1 ks2).
Proof.
  induction ks1 as [| k ks1 IH]; simpl; [tauto |].
  intros (Hk & Hks & Hd) Hd2 Hx. split; [exact Hk |]. split.
  - apply Forall_app. split; [exact Hks |].
    apply List.Forall_forall. intros u Hu. apply Hx; [now left | exact Hu].
  - apply IH; [exact Hd | exact Hd2 |]. intros k1 k2 H1 H2. apply Hx; [now right | exact H2].
Qed.

Lemma obs_value_counts_distinct (categories : option (list cell)) (col : list cell) :
  distinct_labels (obs_value_counts categories col).*1.
Proof.
  rewrite obs_value_counts_labels. apply distinct_labels_app.
  - apply value_counts_distinct.
  - apply extra_labels_distinct.
  - intros k1 k2 H1 H2. apply value_counts_labels_In in H1 as [H1 _].
    rewrite cell_eqb_comm. apply (extra_labels_spec _ _ _ H2), H1.
Qed.

Lemma obs_value_counts_fractions (categories : option (list cell)) (col : list cell) :
  (obs_value_counts categories col).*2
  = app (value_counts col).*2
        (List.map (fun _ => (Qnat 0 / Qnat (length (List.filter notna col)))%Q)
                  (extra_labels categories col)).
Proof.
  rewrite obs_value_counts_unfold, fmap_app. f_equal.
  change (@fmap list _) with (@List.map). rewrite List.map_map. reflexivity.
Qed.

Lemma zero_fraction (n : nat) : (Qnat 0 / Qnat n == 0)%Q.
Proof. unfold Qnat, Qdiv. simpl. apply Qmult_0_l. Qed.

Lemma Qsum_app (u v : list Q) : (Qsum (app u v) == Qsum u + Qsum v)%Q.
Proof.
  induction u as [| x u IH]; simpl; [ring |].
  fold (Qsum (app u v)). fold (Qsum u). rewrite IH. ring.
Qed.

Lemma Qsum_zero (v : list Q) : Forall (fun q => (q == 0)%Q) v -> (Qsum v == 0)%Q.
Proof.
  induction 1 as [| x v Hx _ IH]; simpl; [reflexivity |].
  fold (Qsum v). rewrite Hx, IH. ring.
Qed.

Lemma zero_fractions (n : nat) (ls : list cell) :
  Forall (fun q => (q == 0)%Q) (List.map (fun _ => (Qnat 0 / Qnat n)%Q) ls).
Proof.
  apply List.Forall_forall. intros q Hq. apply in_map_iff in Hq as (c & <- & _).
  apply zero_fraction.
Qed.

(** The fractions add up to one as soon as one value is present: the added
    categories count for nothing. *)
Lemma obs_value_counts_sum (categories : option (list cell)) (col : list cell) :
  existsb notna col = true -> (Qsum (obs_value_counts categories col).*2 == 1)%Q.
Proof.
  intros Hex. rewrite obs_value_counts_fractions, Qsum_app.
  rewrite (value_counts_sum col Hex), (Qsum_zero _ (zero_fractions _ _)). ring.
Qed.

Lemma obs_value_counts_fraction_bounds (categories : option (list cell)) (col : list cell) :
  Forall (fun q => (0 <= q /\ q <= 1)%Q) (obs_value_counts categories col).*2.
Proof.
  rewrite obs_value_counts_fractions. apply Forall_app. split.
  - eapply List.Forall_impl; [| apply value_counts_fraction_bounds].
    intros q [Hlo Hhi]. split; [apply Qlt_le_weak, Hlo | exact Hhi].
  - eapply List.Forall_impl; [| apply zero_fractions].
    intros q Hq. simpl in Hq. rewrite Hq. split; [apply Qle_refl | discriminate].
Qed.

Lemma StronglySorted_app {T : Type} (R : T -> T -> Prop) (l1 l2 : list T) :
  StronglySorted R l1 -> StronglySorted R l2 ->
  (forall x y, In x l1 -> In y l2 -> R x y) ->
  StronglySorted R (app l1 l2).
Proof.
  induction 1 as [| x l1 Hl1 IH Hx]; intros Hl2 Hx12; simpl; [exact Hl2 |].
  constructor.
  - apply IH; [exact Hl2 |]. intros u v Hu Hv. apply Hx12; [now right | exact Hv].
  - apply Forall_app. split; [exact Hx |].
    apply List.Forall_forall. intros y Hy. apply Hx12; [now left | exact Hy].
Qed.

Lemma StronglySorted_constant {T : Type} (R : T -> T -> Prop) (l : list T) :
  (forall x y, In x l -> In y l -> R x y) -> StronglySorted R l.
Proof.
  induction l as [| x l IH]; intros H; constructor.
  - apply IH. intros u v Hu Hv. apply H; now right.
  - apply List.Forall_forall. intros y Hy. apply H; [now left | now right].
Qed.

Lemma obs_value_counts_sorted (categories : option (list cell)) (col : list cell) :
  StronglySorted (fun p q => (q <= p)%Q) (obs_value_counts categories col).*2.
Proof.
  rewrite obs_value_counts_fractions.
  pose proof (zero_fractions (length (List.filter notna col))
                (extra_labels categories col)) as Hz.
  apply StronglySorted_app.
  - apply value_counts_sorted.
  - apply StronglySorted_constant. intros x y Hx Hy.
    rewrite (proj1 (List.Forall_forall _ _) Hz x Hx), (proj1 (List.Forall_forall _ _) Hz y Hy).
    apply Qle_refl.
  - intros x y Hx Hy. rewrite (proj1 (List.Forall_forall _ _) Hz y Hy).
    apply Qlt_le_weak.
    exact (proj1 (proj1 (List.Forall_forall _ _) (value_counts_fraction_bounds col) x Hx)).
Qed.

Lemma filter_length_Permutation {T : Type} (f : T -> bool) (l l' : list T) :
  Permutation l l' -> length (List.filter f l) = length (List.filter f l').
Proof.
  induction 1 as [| x l l' _ IH | x y l | l1 l2 l3 _ IH1 _ IH2]; simpl.
  - reflexivity.
  - destruct (f x); simpl; congruence.
  - destruct (f x), (f y); reflexivity.
  - congruence.
Qed.

Lemma value_counts_matches_once (col : list cell) (c : cell) :
  In c col -> notna c = true ->
  length (List.filter (fun l => cell_eqb l c) (value_counts col).*1) = 1%nat.
Proof.
  intros Hc Hn. rewrite (filter_length_Permutation _ _ _ (value_counts_labels col)).
  apply unique_matches_once; [apply filter_notna_Forall |].
  apply filter_In. split; assumption.
Qed.

(** The label of a row equals exactly one label of the table: an added
    category equals none. *)
Lemma obs_value_counts_matches_once
    (categories : option (list cell)) (col : list cell) (c : cell) :
  In c col -> notna c = true ->
  length (List.filter (fun l => cell_eqb l c) (obs_value_counts categories col).*1) = 1%nat.
Proof.
  intros Hc Hn. rewrite obs_value_counts_labels, List.filter_app, length_app.
  rewrite (value_counts_matches_once col c Hc Hn).
  rewrite filter_nil_iff; [reflexivity |].
  intros l Hl. apply (extra_labels_spec _ _ _ Hl), Hc.
Qed.

(** ** The aggregated data set *)

Lemma adata_to_cluster_expression_inv
    (adata r : AnnData) (label : string) (col : list cell) (sc dn : bool) :
  obs adata !! label = Some col ->
  adata_to_cluster_expression adata label sc dn = Ok r ->
  let vc := obs_value_counts (obs_categories adata !! label) col in
  rows (X r) = List.map (cluster_row sc col (X adata)) vc.*1
  /\ shape1 (X r) = shape1 (X adata)
  /\ var_index r = var_index adata
  /\ (dn = true -> obs r !! "cluster_density" = Some (List.map CNum vc.*2))
  /\ (label <> "cluster_density" \/ dn = false -> obs r !! label = Some vc.*1).
Proof.
  intros Hobs Hr. unfold adata_to_cluster_expression in Hr. rewrite Hobs in Hr.
  destruct dn; injection Hr as <-; simpl.
  - repeat split; try reflexivity.
    + intros _. rewrite lookup_insert_eq.
      rewrite cluster_density_column_distinct by apply obs_value_counts_distinct.
      reflexivity.
    + intros [Hne | Hf]; [| discriminate].
      rewrite lookup_insert_ne by congruence. apply lookup_singleton_eq.
  - repeat split; try reflexivity; [discriminate |].
    intros _. apply lookup_singleton_eq.
Qed.

Lemma n_obs_cluster_expression
    (adata r : AnnData) (label : string) (col : list cell) (sc dn : bool) :
  obs adata !! label = Some col ->
  adata_to_cluster_expression adata label sc dn = Ok r ->
  n_obs r = length (obs_value_counts (obs_categories adata !! label) col).
Proof.
  intros Hobs Hr.
  destruct (adata_to_cluster_expression_inv _ _ _ _ _ _ Hobs Hr) as (Hrows & _).
  unfold n_obs, shape0. rewrite Hrows, length_map.
  change (@fmap list _) with (@List.map). apply length_map.
Qed.

(** X1: the [cluster_density] column of the aggregated data set is a
    probability vector: one entry per row, each between 0 and 1, adding up
    to 1, provided at least one observation carries a label.  Every entry is
    above 0 unless the label column is categorical, where a declared
    category that no observation takes gets a row with density 0. *)
Theorem cluster_density_is_distribution
    (adata r : AnnData) (label : string) (col : list cell) (sc : bool) :
  obs adata !! label = Some col ->
  existsb notna col = true ->
  adata_to_cluster_expression adata label sc true = Ok r ->
  exists v,
    obs r !! "cluster_density" = Some (List.map CNum v)
    /\ length v = n_obs r
    /\ Forall (fun q => (0 <= q /\ q <= 1)%Q) v
    /\ (Qsum v == 1)%Q
    /\ (obs_categories adata !! label = None -> Forall (fun q => (0 < q)%Q) v).
Proof.
  intros Hobs Hex Hr.
  destruct (adata_to_cluster_expression_inv _ _ _ _ _ _ Hobs Hr) as (_ & _ & _ & Hd & _).
  exists (obs_value_counts (obs_categories adata !! label) col).*2.
  split; [apply Hd; reflexivity |].
  split; [| split; [apply obs_value_counts_fraction_bounds |
                    split; [apply obs_value_counts_sum, Hex |]]].
  - rewrite (n_obs_cluster_expression _ _ _ _ _ _ Hobs Hr).
    change (@fmap list _) with (@List.map). apply length_map.
  - intros ->. simpl.
    eapply List.Forall_impl; [| apply value_counts_fraction_bounds].
    intros q [Hq _]. exact Hq.
Qed.

(** X2: the clusters are listed from the largest to the smallest: the
    [cluster_density] column never increases from one row to the next. *)
Theorem cluster_density_is_sorted
    (adata r : AnnData) (label : string) (col : list cell) (sc : bool) :
  obs adata !! label = Some col ->
  adata_to_cluster_expression adata label sc true = Ok r ->
  exists v,
    obs r !! "cluster_density" = Some (List.map CNum v)
    /\ StronglySorted (fun p q => (q <= p)%Q) v.
Proof.
  intros Hobs Hr.
  destruct (adata_to_cluster_expression_inv _ _ _ _ _ _ Hobs Hr) as (_ & _ & _ & Hd & _).
  exists (obs_value_counts (obs_categories adata !! label) col).*2.
  split; [apply Hd; reflexivity | apply obs_value_counts_sorted].
Qed.

(** X3: the aggregated data set has one row per label (a distinct label of
    the column or, for a categorical column, a declared category): its labels
    are present values, no two of them are equal, and the label of every
    labelled observation equals exactly one of them. *)
Theorem cluster_rows_one_per_label
    (adata r : AnnData) (label : string) (col : list cell) (sc dn : bool) :
  obs adata !! label = Some col ->
  adata_to_cluster_expression adata label sc dn = Ok r ->
  exists labels,
    (label <> "cluster_density" \/ dn = false -> obs r !! label = Some labels)
    /\ length labels = n_obs r
    /\ distinct_labels labels
    /\ forall c, In c col -> notna c = true ->
         length (List.filter (fun l => cell_eqb l c) labels) = 1%nat.
Proof.
  intros Hobs Hr.
  destruct (adata_to_cluster_expression_inv _ _ _ _ _ _ Hobs Hr) as (_ & _ & _ & _ & Hl).
  exists (obs_value_counts (obs_categories adata !! label) col).*1. split; [exact Hl |].
  split; [| split; [apply obs_value_counts_distinct | apply obs_value_counts_matches_once]].
  rewrite (n_obs_cluster_expression _ _ _ _ _ _ Hobs Hr).
  change (@fmap list _) with (@List.map). apply length_map.
Qed.

Lemma cluster_row_length (sc : bool) (col : list cell) (x : matrix) (l : cell) :
  wf_matrix x -> length (cluster_row sc col x l) = shape1 x.
Proof.
  intros Hwf. unfold cluster_row, mean_axis0.
  destruct sc; simpl; rewrite ?length_map; apply length_sum_axis0_cluster_members, Hwf.
Qed.

(** X4: aggregation keeps the matrix rectangular over the same genes: every
    row of the result has as many entries as the input has genes, the gene
    index is unchanged, and the result is stored densely whatever the class
    of the input. *)
Theorem cluster_expression_shape
    (adata r : AnnData) (label : string) (sc dn : bool) :
  wf_matrix (X adata) ->
  adata_to_cluster_expression adata label sc dn = Ok r ->
  wf_matrix (X r)
  /\ shape1 (X r) = shape1 (X adata)
  /\ var_index r = var_index adata
  /\ X_type r = ndarray.
Proof.
  intros Hwf Hr.
  destruct (obs adata !! label) as [col |] eqn:Hobs.
  2:{ unfold adata_to_cluster_expression in Hr. rewrite Hobs in Hr. discriminate. }
  destruct (adata_to_cluster_expression_inv _ _ _ _ _ _ Hobs Hr) as (Hrows & Hs & Hv & _).
  split; [| split; [exact Hs | split; [exact Hv |]]].
  - unfold wf_matrix. rewrite Hrows, Hs. apply List.Forall_forall. intros row Hrow.
    apply in_map_iff in Hrow as (l & <- & _). apply cluster_row_length, Hwf.
  - apply (adata_to_cluster_expression_Ok _ _ _ _ _ Hr).
Qed.

(** ** Sum aggregation conserves the counts *)

Lemma Qsum_map_add {T : Type} (f g : T -> Q) (l : list T) :
  (Qsum (List.map (fun x => f x + g x) l) == Qsum (List.map f l) + Qsum (List.map g l))%Q.
Proof.
  induction l as [| x l IH]; simpl; [reflexivity |].
  fold (Qsum (List.map (fun x => (f x + g x)%Q) l)).
  fold (Qsum (List.map f l)). fold (Qsum (List.map g l)). rewrite IH. ring.
Qed.

Lemma Qsum_map_ext {T : Type} (f g : T -> Q) (l : list T) :
  (forall x, In x l -> (f x == g x)%Q) -> (Qsum (List.map f l) == Qsum (List.map g l))%Q.
Proof.
  induction l as [| x l IH]; intros H; simpl; [reflexivity |].
  fold (Qsum (List.map f l)). fold (Qsum (List.map g l)).
  rewrite (H x (or_introl eq_refl)), IH; [reflexivity |].
  intros y Hy. apply H. right. exact Hy.
Qed.

Lemma Qsum_indicator {T : Type} (p : T -> bool) (q : Q) (l : list T) :
  (Qsum (List.map (fun x => if p x then q else 0) l) == q * Qnat (length (List.filter p l)))%Q.
Proof.
  induction l as [| x l IH]; simpl.
  - unfold Qnat. simpl. ring.
  - fold (Qsum (List.map (fun x => if p x then q else 0%Q) l)). rewrite IH.
    destruct (p x); simpl length; [| ring].
    unfold Qnat. rewrite Nat2Z.inj_succ, <- Z.add_1_r, inject_Z_plus. ring.
Qed.

(** Summing group by group is summing position by position, each position
    weighted by the number of groups it belongs to. *)
Lemma Qsum_by_groups {T : Type} (P : T -> nat -> bool) (f : nat -> Q)
    (L : list T) (K : list nat) :
  (Qsum (List.map (fun l => Qsum (List.map f (List.filter (P l) K))) L)
   == Qsum (List.map (fun k => f k * Qnat (length (List.filter (fun l => P l k) L))) K))%Q.
Proof.
  induction K as [| k K IH]; simpl.
  - induction L as [| l L IHL]; simpl; [reflexivity |].
    fold (Qsum (List.map (fun _ : T => 0%Q) L)). simpl in IHL. rewrite IHL. ring.
  - fold (Qsum (List.map
                  (fun k => (f k * Qnat (length (List.filter (fun l => P l k) L)))%Q) K)).
    rewrite <- IH, <- Qsum_indicator, <- Qsum_map_add.
    apply Qsum_map_ext. intros l _. destruct (P l k); simpl; [reflexivity | ring].
Qed.

(** The observations that carry a label, by position. *)
Definition labelled_indices (col : list cell) (x : matrix) : list nat :=
  List.filter (fun k => notna (nth k col CNaN)) (seq 0 (shape0 x)).

Lemma labels_matching_position (col : list cell) (k : nat) :
  length (List.filter (fun l => cell_eqb (nth k col CNaN) l) (value_counts col).*1)
  = if notna (nth k col CNaN) then 1%nat else 0%nat.
Proof.
  destruct (notna (nth k col CNaN)) eqn:Hn.
  - rewrite (filter_ext _ (fun l => cell_eqb l (nth k col CNaN)))
      by (intros l; apply cell_eqb_comm).
    apply value_counts_matches_once; [| exact Hn].
    destruct (Nat.lt_ge_cases k (length col)) as [Hk | Hk]; [apply nth_In, Hk |].
    rewrite nth_overflow in Hn by exact Hk. discriminate.
  - rewrite filter_nil_iff; [reflexivity |]. intros l _.
    destruct (cell_eqb (nth k col CNaN) l) eqn:He; [| reflexivity].
    apply cell_eqb_notna in He as [He _]. congruence.
Qed.

Lemma obs_labels_matching_position
    (categories : option (list cell)) (col : list cell) (k : nat) :
  length (List.filter (fun l => cell_eqb (nth k col CNaN) l)
                      (obs_value_counts categories col).*1)
  = if notna (nth k col CNaN) then 1%nat else 0%nat.
Proof.
  rewrite obs_value_counts_labels, List.filter_app, length_app, labels_matching_position.
  rewrite (filter_nil_iff _ (extra_labels categories col)); [simpl; lia |].
  intros l Hl. destruct (Nat.lt_ge_cases k (length col)) as [Hk | Hk].
  - rewrite cell_eqb_comm. apply (extra_labels_spec _ _ _ Hl), nth_In, Hk.
  - rewrite nth_overflow by exact Hk. reflexivity.
Qed.

(** X5: with [scale=True] no count is lost or counted twice: for every gene
    the entries of the aggregated rows add up to the entries of the labelled
    observations; an observation whose label is missing is left out. *)
Theorem sum_aggregation_conserves_counts
    (adata r : AnnData) (label : string) (col : list cell) (dn : bool) (j : nat) :
  obs adata !! label = Some col ->
  wf_matrix (X adata) ->
  j < shape1 (X adata) ->
  adata_to_cluster_expression adata label true dn = Ok r ->
  (Qsum (column j (X r))
   == Qsum (List.map (fun k => entry (X adata) k j) (labelled_indices col (X adata))))%Q.
Proof.
  intros Hobs Hwf Hj Hr.
  destruct (adata_to_cluster_expression_inv _ _ _ _ _ _ Hobs Hr) as (Hrows & _).
  unfold column. rewrite Hrows, List.map_map.
  rewrite (map_ext_in _ (fun l => member_sum col l (X adata) j)).
  2:{ intros l _. unfold cluster_row. simpl.
      apply sum_axis0_cluster_members; assumption. }
  unfold member_sum, member_indices.
  rewrite (Qsum_by_groups (fun l k => cell_eqb (nth k col CNaN) l)
             (fun k => entry (X adata) k j)).
  unfold labelled_indices.
  generalize (seq 0 (shape0 (X adata))). intros K.
  induction K as [| k K IH]; simpl; [reflexivity |].
  rewrite obs_labels_matching_position.
  fold (Qsum (List.map
                (fun k => (entry (X adata) k j
                           * Qnat (length (List.filter
                                             (fun l => cell_eqb (nth k col CNaN) l)
                                             (obs_value_counts
                                                (obs_categories adata !! label) col).*1)))%Q)
                K)).
  rewrite IH. destruct (notna (nth k col CNaN)); simpl.
  - fold (Qsum (List.map (fun k => entry (X adata) k j)
                         (List.filter (fun k => notna (nth k col CNaN)) K))).
    unfold Qnat. simpl. ring.
  - unfold Qnat. simpl. ring.
Qed.

(** ** What [pp_adatas] leaves behind *)

Lemma lower_ascii_idempotent (c : ascii) : lower_ascii (lower_ascii c) = lower_ascii c.
Proof. destruct c as [[] [] [] [] [] [] [] []]; reflexivity. Qed.

Lemma lower_idempotent (g : string) : lower (lower g) = lower g.
Proof.
  induction g as [| c g IH]; simpl; [reflexivity |].
  rewrite lower_ascii_idempotent, IH. reflexivity.
Qed.

(** The genes [pp_adatas] selects: the intersection of line 52. *)
Definition shared_genes (adata_sc adata_sp : AnnData) (genes : option (list string))
  : list string :=
  let idx_sc := var_index (filter_genes (set_var_index adata_sc
                  (var_names_make_unique (List.map lower (var_index adata_sc))))) in
  let idx_sp := var_index (filter_genes (set_var_index adata_sp
                  (var_names_make_unique (List.map lower (var_index adata_sp))))) in
  let wanted :=
    match genes with
    | None => List.map lower idx_sc
    | Some genes => List.map lower genes
    end in
  elements ((list_to_set wanted : gset string) ∩ list_to_set idx_sc ∩ list_to_set idx_sp).

Lemma pp_adatas_uns (adata_sc adata_sp : AnnData) (genes : option (list string)) :
  uns (pp_adatas adata_sc adata_sp genes).1 !! "training_genes"
  = Some (shared_genes adata_sc adata_sp genes)
  /\ uns (pp_adatas adata_sc adata_sp genes).2 !! "training_genes"
     = Some (shared_genes adata_sc adata_sp genes).
Proof. unfold pp_adatas, shared_genes. simpl. split; apply lookup_insert_eq. Qed.

(** X6: after [pp_adatas] both data sets carry the same list of training
    genes; it has no repetition, every gene in it is in lower case, it names
    a variable of both data sets, and, when a list of genes was given, it
    is one of the given genes in lower case. *)
Theorem pp_adatas_training_genes
    (adata_sc adata_sp : AnnData) (genes : option (list string)) :
  exists training_genes,
    uns (pp_adatas adata_sc adata_sp genes).1 !! "training_genes" = Some training_genes
    /\ uns (pp_adatas adata_sc adata_sp genes).2 !! "training_genes" = Some training_genes
    /\ List.NoDup training_genes
    /\ forall g, In g training_genes ->
         lower g = g
         /\ In g (var_index (pp_adatas adata_sc adata_sp genes).1)
         /\ In g (var_index (pp_adatas adata_sc adata_sp genes).2)
         /\ forall given, genes = Some given -> In g (List.map lower given).
Proof.
  exists (shared_genes adata_sc adata_sp genes).
  destruct (pp_adatas_uns adata_sc adata_sp genes) as [H1 H2].
  split; [exact H1 |]. split; [exact H2 |].
  split; [apply NoDup_ListNoDup; unfold shared_genes; apply NoDup_elements |].
  intros g Hg. apply list_elem_of_In in Hg. unfold shared_genes in Hg.
  apply elem_of_elements in Hg.
  apply elem_of_intersection in Hg as [Hg Hsp].
  apply elem_of_intersection in Hg as [Hw Hsc].
  apply elem_of_list_to_set, list_elem_of_In in Hw, Hsc, Hsp.
  split; [| split; [exact Hsc | split; [exact Hsp |]]].
  - destruct genes as [given |]; apply in_map_iff in Hw as (g' & <- & _);
      apply lower_idempotent.
  - intros given ->. exact Hw.
Qed.

Lemma Qpositive_nonzero (q : Q) : Qpositive q = true -> Qnonzero q = true.
Proof.
  unfold Qpositive, Qnonzero. intros H. apply negb_true_iff in H. apply negb_true_iff.
  destruct (Qeq_bool q 0) eqn:He; [| reflexivity].
  apply Qeq_bool_iff in He. rewrite <- H. symmetry. apply Qle_bool_iff.
  rewrite He. apply Qle_refl.
Qed.

Lemma kept_genes_expressed (x : matrix) (j : nat) :
  In j (kept_genes x) -> j < shape1 x /\ existsb Qnonzero (column j x) = true.
Proof.
  unfold kept_genes. intros H. apply filter_In in H as [Hj Hpos].
  split; [apply in_seq in Hj; lia |].
  apply Nat.leb_le in Hpos.
  destruct (List.filter Qpositive (column j x)) as [| q qs] eqn:Hf; [simpl in Hpos; lia |].
  assert (Hq : In q (List.filter Qpositive (column j x))) by (rewrite Hf; left; reflexivity).
  apply filter_In in Hq as [Hq Hp]. apply existsb_exists. exists q.
  split; [exact Hq | apply Qpositive_nonzero, Hp].
Qed.

(** Selecting columns that each hold a non-zero entry gives a matrix without
    all-zero column. *)
Lemma take_columns_expressed (js : list nat) (x : matrix) :
  (forall j, In j js -> existsb Qnonzero (column j x) = true) ->
  any_axis0_all (take_columns js x) = true.
Proof.
  intros H. unfold any_axis0_all. apply forallb_forall. intros i Hi.
  apply in_seq in Hi. simpl in Hi.
  rewrite column_take_columns by lia. apply H, nth_In. lia.
Qed.

Lemma filter_genes_expressed (a : AnnData) :
  any_axis0_all (X (filter_genes a)) = true
  /\ length (var_index (filter_genes a)) = shape1 (X (filter_genes a))
  /\ n_obs (filter_genes a) = n_obs a
  /\ X_type (filter_genes a) = X_type a.
Proof.
  unfold filter_genes, n_obs, shape0. simpl. split; [| split; [| split]].
  - apply take_columns_expressed. intros j Hj. apply (kept_genes_expressed _ _ Hj).
  - apply length_map.
  - apply length_map.
  - reflexivity.
Qed.

(** X7: [pp_adatas] removes the silent genes: afterwards every gene of both
    data sets has a non-zero entry, the gene index has one name per column,
    and the observations and the storage class are as before. *)
Theorem pp_adatas_removes_silent_genes
    (adata_sc adata_sp : AnnData) (genes : option (list string)) :
  let cells := (pp_adatas adata_sc adata_sp genes).1 in
  let space := (pp_adatas adata_sc adata_sp genes).2 in
  (any_axis0_all (X cells) = true /\ any_axis0_all (X space) = true)
  /\ (length (var_index cells) = shape1 (X cells)
      /\ length (var_index space) = shape1 (X space))
  /\ (n_obs cells = n_obs adata_sc /\ n_obs space = n_obs adata_sp)
  /\ (X_type cells = X_type adata_sc /\ X_type space = X_type adata_sp).
Proof.
  set (sc := set_var_index adata_sc
               (var_names_make_unique (List.map lower (var_index adata_sc)))).
  set (sp := set_var_index adata_sp
               (var_names_make_unique (List.map lower (var_index adata_sp)))).
  destruct (filter_genes_expressed sc) as (Hc1 & Hc2 & Hc3 & Hc4).
  destruct (filter_genes_expressed sp) as (Hs1 & Hs2 & Hs3 & Hs4).
  simpl. repeat split; assumption.
Qed.

Lemma Forall2_density (cs cs' : list Q) :
  Forall2 Qeq cs' cs ->
  Forall2 Qeq (List.map (fun c => (c / Qsum cs')%Q) cs')
              (List.map (fun c => (c / Qsum cs)%Q) cs).
Proof.
  intros H. pose proof (Qsum_Forall2 _ _ H) as Ht.
  generalize dependent (Qsum cs). generalize (Qsum cs'). intros t' t Ht.
  induction H as [| x y u v Hxy _ IH]; simpl; constructor; [| exact IH].
  rewrite Hxy, Ht. reflexivity.
Qed.

Lemma Forall2_map_right {T : Type} (f : T -> Q) (u : list Q) (rs : list T) :
  Forall2 Qeq u (List.map f rs) -> Forall2 (fun q r => (q == f r)%Q) u rs.
Proof.
  revert u. induction rs as [| r rs IH]; intros u H; inversion H; subst; constructor;
    [assumption | apply IH; assumption].
Qed.

(** X8: when no count is negative and some count is positive, the density
    [pp_adatas] stores for a spot is the share of that spot in the counts of
    the data set as it was given: dropping the silent genes does not change
    it. *)
Theorem pp_adatas_density_of_given_counts
    (adata_sc adata_sp : AnnData) (genes : option (list string)) :
  wf_matrix (X adata_sp) ->
  Forall (Forall (Qle 0)) (rows (X adata_sp)) ->
  (0 < Qsum (sum_axis1 (X adata_sp)))%Q ->
  exists v,
    obs (pp_adatas adata_sc adata_sp genes).2 !! "rna_count_based_density"
    = Some (List.map CNum v)
    /\ Forall2 (fun q r => (q == Qsum r / Qsum (List.map Qsum (rows (X adata_sp))))%Q)
               v (rows (X adata_sp)).
Proof.
  intros Hwf Hnn _.
  set (sp := set_var_index adata_sp
               (var_names_make_unique (List.map lower (var_index adata_sp)))).
  exists (rna_count_based_density (X (filter_genes sp))).
  split; [unfold pp_adatas; simpl; apply lookup_insert_eq |].
  pose proof (Forall2_density _ _ (filter_genes_row_sums sp Hwf Hnn)) as H.
  change (X sp) with (X adata_sp) in H.
  unfold rna_count_based_density, sum_axis1 in H |- *.
  rewrite (List.map_map Qsum _ (rows (X adata_sp))) in H.
  apply Forall2_map_right in H. exact H.
Qed.

(** ** What reaching the optimizer implies *)

Lemma adata_to_cluster_expression_var_index
    (adata r : AnnData) (label : string) (sc dn : bool) :
  adata_to_cluster_expression adata label sc dn = Ok r -> var_index r = var_index adata.
Proof.
  unfold adata_to_cluster_expression.
  destruct (obs adata !! label); [| discriminate].
  destruct dn; intros [= <-]; reflexivity.
Qed.

(** The source data set is the argument in cells mode and its aggregation,
    stored densely, in clusters mode; it keeps the gene index. *)
Lemma source_data_keeps (a : Args) (cells : AnnData) :
  arguments_accepted a ->
  source_data a = Ok cells ->
  var_index cells = var_index (adata_cells a)
  /\ (mode a = "cells" -> cells = adata_cells a)
  /\ (mode a = "clusters" ->
      X_type cells = ndarray
      /\ exists label, cluster_label a = Some label
           /\ adata_to_cluster_expression (adata_cells a) label (scale a) true = Ok cells).
Proof.
  intros (_ & _ & Hmode) Hsrc.
  destruct Hmode as [Hm | (Hm & label & Hl & _)].
  - rewrite (source_data_cells a Hm) in Hsrc. injection Hsrc as <-.
    split; [reflexivity |]. split; [reflexivity |]. rewrite Hm. discriminate.
  - rewrite (source_data_clusters a label Hm Hl) in Hsrc.
    split; [apply (adata_to_cluster_expression_var_index _ _ _ _ _ Hsrc) |].
    split; [rewrite Hm; discriminate |]. intros _.
    split; [apply (adata_to_cluster_expression_Ok _ _ _ _ _ Hsrc) |].
    exists label. split; [exact Hl | exact Hsrc].
Qed.

Lemma prepare_accepted (a : Args) (cells : AnnData) :
  arguments_accepted a -> source_data a = Ok cells ->
  uns cells = uns (adata_cells a) /\ prepare a = after_checks a cells.
Proof.
  intros Hacc Hsrc.
  destruct (prepare_checks a) as [(_ & cells' & Hsrc' & Huns & Hp) | (Hrej & _)];
    [| contradiction].
  assert (cells' = cells) by congruence. subst cells'. split; assumption.
Qed.


(** X9: the matrices handed to the optimizer follow the training genes:
    [S] has one row per observation of the source data set (the cells in
    cells mode, their aggregation by cluster in clusters mode) and [G] one
    row per spot; both have one column per training gene, column [k] being
    the column of the [k]-th training gene in the data set it comes from, and
    neither has an all-zero column. *)
Theorem optimizer_inputs_follow_training_genes (a : Args) (p : Prepared) :
  prepare a = Ok p ->
  source_data a = Ok (p_adata_cells p)
  /\ (mode a = "cells" -> p_adata_cells p = adata_cells a)
  /\ (mode a = "clusters" ->
      exists label, cluster_label a = Some label
        /\ adata_to_cluster_expression (adata_cells a) label (scale a) true
           = Ok (p_adata_cells p))
  /\ (shape0 (p_S p) = n_obs (p_adata_cells p) /\ shape0 (p_G p) = n_obs (adata_space a))
  /\ (shape1 (p_S p) = length (p_training_genes p)
      /\ shape1 (p_G p) = length (p_training_genes p))
  /\ (wf_matrix (p_S p) /\ wf_matrix (p_G p))
  /\ (any_axis0_all (p_S p) = true /\ any_axis0_all (p_G p) = true)
  /\ forall k g, p_training_genes p !! k = Some g ->
       exists i j,
         index_of g (var_index (adata_cells a)) = Some i
         /\ index_of g (var_index (adata_space a)) = Some j
         /\ column k (p_S p) = column i (X (p_adata_cells p))
         /\ column k (p_G p) = column j (X (adata_space a)).
Proof.
  intros Hp.
  destruct (prepare_Ok_inv a p Hp) as (Hacc & Hsrc & Hafter).
  destruct (after_checks_Ok a _ p Hafter) as (_ & _ & _ & HS & HG & HzS & HzG & _).
  destruct (source_data_keeps a _ Hacc Hsrc) as (Hidx & Hcells & Hclusters).
  destruct (extract_S_Ok _ _ _ HS) as (_ & js & Hjs & HSeq).
  destruct (extract_G_Ok _ _ _ HG) as (_ & ks & Hks & HGeq).
  rewrite HSeq, HGeq in *.
  destruct (extracted_columns (X (p_adata_cells p)) _ _ _ Hjs) as (S0 & S1 & Swf & Scol).
  destruct (extracted_columns (X (adata_space a)) _ _ _ Hks) as (G0 & G1 & Gwf & Gcol).
  split; [exact Hsrc |]. split; [exact Hcells |].
  split; [intros Hm; apply (Hclusters Hm) |].
  split; [split; assumption |]. split; [split; assumption |].
  split; [split; assumption |]. split; [split; assumption |].
  intros k g Hg.
  destruct (Scol k g Hg) as (i & Hi & Hci). destruct (Gcol k g Hg) as (j & Hj & Hcj).
  rewrite Hidx in Hi. exists i, j. repeat split; assumption.
Qed.

(** X10: the optimizer is reached only by a call in cells mode, or in
    clusters mode with a label that names a column of the observations;
    whose target matrix is a dense array and, in cells mode, whose source
    matrix is sparse or a dense array; with [lambda_g1] non-zero, a density
    prior only together with a non-zero [lambda_d], equal lists of training
    genes on both data sets, each gene a variable of both, and a device
    string that [torch.device] accepts. *)
Theorem optimizer_reached_only_if (a : Args) (p : Prepared) :
  prepare a = Ok p ->
  (mode a = "cells"
   \/ (mode a = "clusters"
       /\ exists label, cluster_label a = Some label
                        /\ is_Some (obs (adata_cells a) !! label)))
  /\ (mode a = "cells" -> recognized (X_type (adata_cells a)) = true)
  /\ X_type (adata_space a) = ndarray
  /\ ~ (lambda_g1 a == 0)%Q
  /\ (density_prior a <> ANone -> ~ (lambda_d a == 0)%Q)
  /\ uns (adata_cells a) !! "training_genes" = Some (p_training_genes p)
  /\ uns (adata_space a) !! "training_genes" = Some (p_training_genes p)
  /\ (forall g, In g (p_training_genes p) ->
        In g (var_index (adata_cells a)) /\ In g (var_index (adata_space a)))
  /\ valid_device (device a) = true.
Proof.
  intros Hp.
  destruct (prepare_Ok_inv a p Hp) as (Hacc & Hsrc & Hafter).
  destruct (after_checks_Ok a _ p Hafter)
    as (_ & Hgc & Hgs & HS & HG & _ & _ & _ & Hdev & _).
  destruct (prepare_accepted a _ Hacc Hsrc) as (Huns & _).
  destruct (source_data_keeps a _ Hacc Hsrc) as (Hidx & Hcells & _).
  destruct (extract_S_Ok _ _ _ HS) as (Hrec & js & Hjs & _).
  destruct (extract_G_Ok _ _ _ HG) as (Hdense & ks & Hks & _).
  pose proof Hacc as (Hg1 & Hld & Hmode).
  split; [exact Hmode |].
  split; [intros Hm; rewrite <- (Hcells Hm); exact Hrec |].
  split; [exact Hdense |]. split; [exact Hg1 |].
  split; [intros Hdp; destruct Hld as [Hld | Hld]; [contradiction | exact Hld] |].
  split; [rewrite <- Huns; exact Hgc |]. split; [exact Hgs |].
  split; [| exact Hdev].
  intros g Hg. apply list_elem_of_In, list_elem_of_lookup in Hg as [k Hk].
  destruct (Forall2_lookup_l _ _ _ _ _ (positions_Ok _ _ _ Hjs) Hk) as (i & _ & Hi).
  destruct (Forall2_lookup_l _ _ _ _ _ (positions_Ok _ _ _ Hks) Hk) as (j & _ & Hj).
  rewrite Hidx in Hi. split; apply index_of_is_Some; eauto.
Qed.

(** X11: what the optimizer receives as density.  Without a prior: nothing
    in cells mode and the uniform vector over the spots in clusters mode.
    With a prior: the uniform vector over the spots for ["uniform"], the
    column stored by [pp_adatas] for ["rna_count_based"], any other string
    as it is, unchecked; an array is handed over as it is when its two
    comparisons with the strings do not raise and answer [False]. *)
Theorem density_handed_over (a : Args) (p : Prepared) :
  prepare a = Ok p ->
  (density_prior a = ANone -> mode a = "cells" -> p_d p = DNone)
  /\ (density_prior a = ANone -> mode a = "clusters" ->
      p_d p = DArray (ones_over (n_obs (adata_space a))))
  /\ (density_prior a = AStr "uniform" ->
      p_d p = DArray (ones_over (n_obs (adata_space a))))
  /\ (density_prior a = AStr "rna_count_based" ->
      exists col, obs (adata_space a) !! "rna_count_based_density" = Some col
                  /\ p_d p = DSeries col)
  /\ (forall s, density_prior a = AStr s -> s <> "uniform" -> s <> "rna_count_based" ->
      p_d p = DStr s)
  /\ (forall v, density_prior a = AArray v ->
      (exists b, array_equals_str v "rna_count_based" = Ok b)
      /\ (array_equals_str v "rna_count_based" = Ok false ->
          array_equals_str v "uniform" = Ok false -> p_d p = DArray v)).
Proof.
  intros Hp.
  destruct (prepare_Ok a p Hp) as (Hmode & _ & HG & dp & Hdp & Hd).
  pose proof (extract_G_shape0 _ _ _ HG) as Hshape.
  unfold resolve_density_prior in Hdp.
  split; [| split; [| split; [| split; [| split]]]].
  - intros H Hm. rewrite H in Hdp. simpl in Hdp. injection Hdp as <-.
    rewrite Hd, Hm. reflexivity.
  - intros H Hm. rewrite H in Hdp. simpl in Hdp. injection Hdp as <-.
    rewrite Hd, Hm, <- Hshape. reflexivity.
  - intros H. rewrite H in Hdp. simpl in Hdp. injection Hdp as <-.
    rewrite Hd, choose_d_not_None, <- Hshape by (exact Hmode || reflexivity).
    reflexivity.
  - intros H. rewrite H in Hdp. simpl in Hdp.
    destruct (obs (adata_space a) !! "rna_count_based_density") as [col |];
      [| discriminate].
    exists col. split; [reflexivity |]. injection Hdp as <-.
    rewrite Hd. apply choose_d_not_None; [exact Hmode | reflexivity].
  - intros s H Hu Hr. rewrite H in Hdp. simpl in Hdp.
    apply String.eqb_neq in Hu, Hr. rewrite Hu, Hr in Hdp. injection Hdp as <-.
    rewrite Hd. apply choose_d_not_None; [exact Hmode | reflexivity].
  - intros v H. rewrite H in Hdp. simpl in Hdp. split.
    + destruct (array_equals_str v "rna_count_based") as [b | e];
        [eexists; reflexivity | discriminate].
    + intros H1 H2. rewrite H1, H2 in Hdp. injection Hdp as <-.
      rewrite Hd. apply choose_d_not_None; [exact Hmode | reflexivity].
Qed.

(** X12: asking for the density based on RNA counts on a spatial data set
    that has no [rna_count_based_density] column never reaches the
    optimizer: the call raises. *)
Theorem rna_count_based_needs_column (w : World) (a : Args) :
  density_prior a = AStr "rna_count_based" ->
  obs (adata_space a) !! "rna_count_based_density" = None ->
  exists e, prepare a = Raise e /\ map_cells_to_space w a = Raise e.
Proof.
  intros Hdp Hobs. destruct (prepare a) as [p | e] eqn:Hp.
  - destruct (prepare_Ok a p Hp) as (_ & _ & _ & dp & Hres & _).
    rewrite Hdp in Hres. unfold resolve_density_prior in Hres. simpl in Hres.
    rewrite Hobs in Hres. discriminate.
  - exists e. split; [reflexivity | apply map_cells_to_space_Raise, Hp].
Qed.

Lemma argument_checks_pass (a : Args) :
  ~ (lambda_g1 a == 0)%Q ->
  density_prior a = ANone \/ ~ (lambda_d a == 0)%Q ->
  Qeq_bool (lambda_g1 a) 0 = false
  /\ negb (is_None (density_of_arg (density_prior a))) && Qeq_bool (lambda_d a) 0 = false.
Proof.
  intros Hg Hd. split.
  - destruct (Qeq_bool (lambda_g1 a) 0) eqn:H; [| reflexivity].
    apply Qeq_bool_iff in H. contradiction.
  - destruct Hd as [-> | Hd]; [reflexivity |].
    destruct (Qeq_bool (lambda_d a) 0) eqn:H; [| apply andb_false_r].
    apply Qeq_bool_iff in H. contradiction.
Qed.

(** X13: a mode other than ["cells"] and ["clusters"] is refused with
    [ValueError('Argument "mode" must be "cells" or "clusters"')] once the
    two checks on the weights have passed. *)
Theorem invalid_mode_raises (w : World) (a : Args) :
  ~ (lambda_g1 a == 0)%Q ->
  density_prior a = ANone \/ ~ (lambda_d a == 0)%Q ->
  mode a <> "cells" -> mode a <> "clusters" ->
  prepare a = Raise (ValueError mode_message)
  /\ map_cells_to_space w a = Raise (ValueError mode_message).
Proof.
  intros Hg Hd Hc Hk.
  assert (Hp : prepare a = Raise (ValueError mode_message)).
  { destruct (argument_checks_pass a Hg Hd) as [H1 H2].
    unfold prepare. rewrite H1, H2, !check_false, !bind_Ok.
    apply String.eqb_neq in Hc, Hk. rewrite Hc, Hk. reflexivity. }
  split; [exact Hp | apply map_cells_to_space_Raise, Hp].
Qed.

(** X14: in clusters mode a missing [cluster_label] is refused with
    [ValueError("A cluster_label must be specified if mode = clusters.")],
    and a [cluster_label] that is no column of [adata_cells.obs] with
    [ValueError("Provided label must belong to adata.obs.")], once the two
    checks on the weights have passed. *)
Theorem clusters_label_errors (w : World) (a : Args) :
  ~ (lambda_g1 a == 0)%Q ->
  density_prior a = ANone \/ ~ (lambda_d a == 0)%Q ->
  mode a = "clusters" ->
  (cluster_label a = None ->
   map_cells_to_space w a
   = Raise (ValueError "A cluster_label must be specified if mode = clusters."))
  /\ (forall label, cluster_label a = Some label ->
      obs (adata_cells a) !! label = None ->
      map_cells_to_space w a = Raise (ValueError "Provided label must belong to adata.obs.")).
Proof.
  intros Hg Hd Hm. destruct (argument_checks_pass a Hg Hd) as [H1 H2]. split.
  - intros Hl. apply map_cells_to_space_Raise.
    unfold prepare. rewrite H1, H2, !check_false, !bind_Ok, Hm, Hl. reflexivity.
  - intros label Hl Hobs. apply map_cells_to_space_Raise.
    unfold prepare. rewrite H1, H2, !check_false, !bind_Ok.
    rewrite (source_data_clusters a label Hm Hl), Hm, Hl. simpl.
    unfold adata_to_cluster_expression. rewrite Hobs. reflexivity.
Qed.

(** ** From [pp_adatas] to the optimizer *)

Lemma shared_genes_indexed
    (adata_sc adata_sp : AnnData) (genes : option (list string)) (g : string) :
  In g (shared_genes adata_sc adata_sp genes) ->
  In g (var_index (pp_adatas adata_sc adata_sp genes).1)
  /\ In g (var_index (pp_adatas adata_sc adata_sp genes).2).
Proof.
  intros Hg. apply list_elem_of_In in Hg. unfold shared_genes in Hg.
  apply elem_of_elements in Hg.
  apply elem_of_intersection in Hg as [Hg Hsp].
  apply elem_of_intersection in Hg as [_ Hsc].
  apply elem_of_list_to_set, list_elem_of_In in Hsc, Hsp.
  split; [exact Hsc | exact Hsp].
Qed.

(** Columns looked up by name in a data set whose genes are all expressed
    have no all-zero column. *)
Lemma positions_expressed (x : matrix) (genes idx : list string) (js : list nat) :
  any_axis0_all x = true -> length idx = shape1 x ->
  positions genes idx = Ok js ->
  any_axis0_all (take_columns js x) = true.
Proof.
  intros Hx Hlen Hp. apply take_columns_expressed. intros j Hj.
  pose proof (positions_Ok _ _ _ Hp) as Hf.
  apply list_elem_of_In, list_elem_of_lookup in Hj as [k Hk].
  destruct (Forall2_lookup_r _ _ _ _ _ Hf Hk) as (g & _ & Hg).
  apply index_of_Some in Hg as [Hlt _].
  unfold any_axis0_all in Hx.
  apply (proj1 (forallb_forall _ _) Hx j). apply in_seq. lia.
Qed.

(** X15: a source stored sparsely or densely and a dense target that went
    through [pp_adatas] reach the optimizer in cells mode: with [lambda_g1]
    non-zero, no density prior or a string together with a non-zero
    [lambda_d], and an accepted device, no check fails, whatever the two data
    sets contain. *)
Theorem pp_adatas_then_prepare
    (adata_sc adata_sp : AnnData) (genes : option (list string)) (a : Args) :
  adata_cells a = (pp_adatas adata_sc adata_sp genes).1 ->
  adata_space a = (pp_adatas adata_sc adata_sp genes).2 ->
  recognized (X_type adata_sc) = true ->
  X_type adata_sp = ndarray ->
  mode a = "cells" ->
  ~ (lambda_g1 a == 0)%Q ->
  density_prior a = ANone \/ (exists s, density_prior a = AStr s) /\ ~ (lambda_d a == 0)%Q ->
  valid_device (device a) = true ->
  exists p,
    prepare a = Ok p
    /\ p_adata_cells p = adata_cells a
    /\ uns (adata_cells a) !! "training_genes" = Some (p_training_genes p).
Proof.
  intros Hcells Hspace Hrec Hdense Hm Hg Hd Hdev.
  assert (Hacc : arguments_accepted a).
  { split; [exact Hg |]. split; [| now left].
    destruct Hd as [Hd | [_ Hd]]; [now left | now right]. }
  destruct (prepare_accepted a (adata_cells a) Hacc (source_data_cells a Hm)) as [_ Hprep].
  destruct (pp_adatas_uns adata_sc adata_sp genes) as [Huc Hus].
  set (tg := shared_genes adata_sc adata_sp genes) in *.
  assert (Hobs : is_Some (obs (pp_adatas adata_sc adata_sp genes).2
                            !! "rna_count_based_density")).
  { unfold pp_adatas. simpl. rewrite lookup_insert_eq. eexists; reflexivity. }
  set (sc0 := set_var_index adata_sc
                (var_names_make_unique (List.map lower (var_index adata_sc)))).
  set (sp0 := set_var_index adata_sp
                (var_names_make_unique (List.map lower (var_index adata_sp)))).
  destruct (filter_genes_expressed sc0) as (Hc1 & Hc2 & _ & Hc4).
  destruct (filter_genes_expressed sp0) as (Hs1 & Hs2 & _ & Hs4).
  assert (Hidx : forall g, In g tg ->
            In g (var_index (pp_adatas adata_sc adata_sp genes).1)
            /\ In g (var_index (pp_adatas adata_sc adata_sp genes).2))
    by (intros g; apply shared_genes_indexed).
  change (X (filter_genes sc0)) with (X (pp_adatas adata_sc adata_sp genes).1) in Hc1, Hc2.
  change (var_index (filter_genes sc0))
    with (var_index (pp_adatas adata_sc adata_sp genes).1) in Hc2.
  change (X_type (filter_genes sc0))
    with (X_type (pp_adatas adata_sc adata_sp genes).1) in Hc4.
  change (X (filter_genes sp0)) with (X (pp_adatas adata_sc adata_sp genes).2) in Hs1, Hs2.
  change (var_index (filter_genes sp0))
    with (var_index (pp_adatas adata_sc adata_sp genes).2) in Hs2.
  change (X_type (filter_genes sp0))
    with (X_type (pp_adatas adata_sc adata_sp genes).2) in Hs4.
  change (X_type sc0) with (X_type adata_sc) in Hc4.
  change (X_type sp0) with (X_type adata_sp) in Hs4.
  clearbody sc0 sp0. rewrite <- Hcells in *. rewrite <- Hspace in *.
  clear Hcells Hspace.
  destruct (positions_total tg (var_index (adata_cells a))) as [js Hjs];
    [intros g Hgin; apply (Hidx g Hgin) |].
  destruct (positions_total tg (var_index (adata_space a))) as [ks Hks];
    [intros g Hgin; apply (Hidx g Hgin) |].
  pose proof (positions_expressed _ _ _ _ Hc1 Hc2 Hjs) as HzS.
  pose proof (positions_expressed _ _ _ _ Hs1 Hs2 Hks) as HzG.
  assert (HS : extract_S (adata_cells a) tg = Ok (take_columns js (X (adata_cells a))))
    by (apply extract_S_recognized; [rewrite Hc4; exact Hrec | exact Hjs]).
  assert (HG : extract_G (adata_space a) tg = Ok (take_columns ks (X (adata_space a))))
    by (apply extract_G_dense; [rewrite Hs4; exact Hdense | exact Hks]).
  assert (Hres : exists dp,
            resolve_density_prior (density_of_arg (density_prior a)) (adata_space a)
              (take_columns ks (X (adata_space a))) = Ok dp).
  { unfold resolve_density_prior.
    destruct Hd as [-> | [[s ->] _]]; simpl; [eexists; reflexivity |].
    destruct (String.eqb s "rna_count_based").
    - destruct Hobs as [col ->]. eexists; reflexivity.
    - destruct (String.eqb s "uniform"); eexists; reflexivity. }
  destruct Hres as [dp Hres].
  pose proof (after_checks_intro a (adata_cells a) tg _ _ dp Huc Hus HS HG HzS HzG Hres Hdev)
    as Hafter.
  rewrite <- Hprep in Hafter.
  eexists. split; [exact Hafter |]. split; [reflexivity | exact Huc].
Qed.

(** ** The result *)

Lemma insert_by_score_sorted (x : string * Q) (l : list (string * Q)) :
  StronglySorted (fun r1 r2 => (r2.2 <= r1.2)%Q) l ->
  StronglySorted (fun r1 r2 => (r2.2 <= r1.2)%Q) (insert_by_score x l).
Proof.
  induction 1 as [| y l Hl IH Hy]; simpl.
  - constructor; constructor.
  - destruct (Qle_bool y.2 x.2) eqn:Hle.
    + apply Qle_bool_iff in Hle. constructor; [constructor; assumption |].
      constructor; [exact Hle |].
      eapply Forall_impl; [exact Hy |]. simpl. intros z Hz.
      eapply Qle_trans; eassumption.
    + assert (Hlt : (x.2 <= y.2)%Q).
      { apply Qlt_le_weak, Qnot_le_lt. intros H. apply Qle_bool_iff in H. congruence. }
      constructor; [exact IH |].
      rewrite (insert_by_score_Permutation x l). constructor; [exact Hlt | exact Hy].
Qed.

Lemma sort_values_desc_sorted (df : list (string * Q)) :
  StronglySorted (fun r1 r2 => (r2.2 <= r1.2)%Q) (sort_values_desc df).
Proof.
  induction df as [| x df IH]; simpl; [constructor | apply insert_by_score_sorted, IH].
Qed.

(** X16: a call that returns hands back the matrix and the history of the
    optimizer untouched; the matrix has one row per observation of the
    source data set (the cells in cells mode, the clusters in clusters mode)
    and one column per spot, the observations of the result are those of the
    source data set and its variables those of the target, and
    [train_genes_df] has exactly one row per training gene. *)
Theorem result_carries_mapping (w : World) (a : Args) (res : MappingResult) :
  map_cells_to_space w a = Ok res ->
  exists p,
    prepare a = Ok p
    /\ source_data a = Ok (p_adata_cells p)
    /\ (mode a = "cells" -> p_adata_cells p = adata_cells a)
    /\ Mapper_train w (mapper_init a p) (train_args a)
       = Ok (map_X res, training_history res)
    /\ shape0 (map_X res) = n_obs (p_adata_cells p)
    /\ shape1 (map_X res) = n_obs (adata_space a)
    /\ map_obs res = obs (p_adata_cells p)
    /\ map_var res = obs (adata_space a)
    /\ Permutation (train_genes_df res).*1 (p_training_genes p).
Proof.
  intros Hrun.
  destruct (map_cells_to_space_Ok w a res Hrun) as (p & Hp & Hm & Hfin).
  destruct (prepare_Ok_inv a p Hp) as (Hacc & Hsrc & _).
  destruct (source_data_keeps a _ Hacc Hsrc) as (_ & Hcells & _).
  destruct (finish_Ok a p _ _ res Hfin) as (_ & _ & H0 & H1 & Ho & Hv & _ & Hdf).
  exists p. repeat (split; [assumption |]).
  rewrite Hdf. change (@fmap list _) with (@List.map).
  rewrite (Permutation_map fst (sort_values_desc_Permutation _)).
  change (@List.map) with (@fmap list _).
  rewrite fst_zip by (rewrite length_map, length_seq; lia). reflexivity.
Qed.

(** X17: [train_genes_df] lists the training genes from the best score to
    the worst: down the rows [train_score] never increases, when every score
    is defined (no norm is zero). *)
Theorem train_genes_df_sorted
    (w : World) (a : Args) (p : Prepared) (res : MappingResult) :
  prepare a = Ok p ->
  map_cells_to_space w a = Ok res ->
  (forall j, j < length (p_training_genes p) ->
     ~ (euclidean_norm (shape0 (p_G p)) (observed_column (p_G p) j) == 0)%Q
     /\ ~ (euclidean_norm (shape0 (p_G p))
             (predicted_column (map_X res) (p_S p) j) == 0)%Q) ->
  length (train_genes_df res) = length (p_training_genes p)
  /\ StronglySorted (fun r1 r2 => (r2.2 <= r1.2)%Q) (train_genes_df res).
Proof.
  intros Hp Hrun _.
  destruct (map_cells_to_space_Ok w a res Hrun) as (p' & Hp' & _ & Hfin).
  assert (p' = p) by congruence. subst p'.
  destruct (finish_Ok a p _ _ res Hfin) as (_ & _ & _ & _ & _ & _ & _ & Hdf).
  rewrite Hdf. split; [| apply sort_values_desc_sorted].
  rewrite (Permutation_length (sort_values_desc_Permutation _)).
  rewrite length_zip_with, length_map, length_seq. lia.
Qed.

(** ** Stale or silent training genes *)




(** X19: when both matrices are extracted and one of them has a column
    without non-zero entry, the call stops with
    [ValueError("Genes with all zero values detected. Run `pp_adatas()`.")],
    in cells mode and, on the aggregated source, in clusters mode. *)
Theorem all_zero_gene_raises
    (w : World) (a : Args) (cells : AnnData) (genes : list string) (S G : matrix) :
  arguments_accepted a ->
  source_data a = Ok cells ->
  uns (adata_cells a) !! "training_genes" = Some genes ->
  uns (adata_space a) !! "training_genes" = Some genes ->
  extract_S cells genes = Ok S ->
  extract_G (adata_space a) genes = Ok G ->
  any_axis0_all S = false \/ any_axis0_all G = false ->
  map_cells_to_space w a
  = Raise (ValueError "Genes with all zero values detected. Run `pp_adatas()`.").
Proof.
  intros Hacc Hsrc Huc Hus HS HG Hz.
  destruct (prepare_accepted a cells Hacc Hsrc) as [Huns Hprep].
  apply map_cells_to_space_Raise. rewrite Hprep. unfold after_checks.
  rewrite Huns, Huc, Hus, bool_decide_eq_true_2 by reflexivity.
  simpl negb. rewrite check_false, bind_Ok, HS, bind_Ok, HG, bind_Ok.
  destruct Hz as [-> | ->]; [reflexivity |].
  destruct (any_axis0_all S); reflexivity.
Qed.

(** ** Aggregating without labels *)

(** X20: a label column of plain values that holds no value (no
    observation, or only missing labels) is aggregated without error into a
    data set with no row: no cluster, no expression and an empty
    [cluster_density].  (A categorical column still gets one row per declared
    category.) *)
Theorem cluster_expression_without_labels
    (adata : AnnData) (label : string) (col : list cell) (sc : bool) :
  obs adata !! label = Some col ->
  obs_categories adata !! label = None ->
  existsb notna col = false ->
  exists r,
    adata_to_cluster_expression adata label sc true = Ok r
    /\ n_obs r = 0%nat
    /\ rows (X r) = []
    /\ shape1 (X r) = shape1 (X adata)
    /\ obs r !! "cluster_density" = Some [].
Proof.
  intros Hobs Hcat Hex.
  assert (Hvals : List.filter notna col = []).
  { apply filter_nil_iff. intros c Hc.
    destruct (notna c) eqn:Hn; [| reflexivity].
    assert (H : existsb notna col = true) by (apply existsb_exists; eauto).
    congruence. }
  assert (Hvc : value_counts col = []) by (unfold value_counts; rewrite Hvals; reflexivity).
  unfold adata_to_cluster_expression. rewrite Hobs, Hcat. simpl obs_value_counts.
  rewrite Hvc. eexists.
  split; [reflexivity |]. repeat split. simpl. apply lookup_insert_eq.
Qed.

End Tangram.

(** * Instances

    A concrete setting in which the statements above are exercised: every
    device string is accepted, repeated names are left alone, an array
    compared with a string answers [False], the square root is taken on
    numerator and denominator, and the optimizer returns a mapping without
    training. *)

Definition sqrt_floor (q : Q) : Q := Z.sqrt (Qnum q) # Pos.sqrt (Qden q).

(** The comparison of an array with a string as numpy made it before it
    became element-wise. *)
Definition scalar_comparison (v : list Q) (s : string) : result bool := Ok false.

Definition uniform_mapper (w : unit) (i : @MapperInit (list Q)) (t : @TrainArgs unit)
  : result (matrix * list Q) :=
  Ok ({| shape1 := shape0 (init_G i);
         rows := repeat (ones_over (shape0 (init_G i))) (shape0 (init_S i)) |}, []).

(** An optimizer that returns a given matrix. *)
Definition fixed_mapper (M : matrix) (w : unit) (i : @MapperInit (list Q))
    (t : @TrainArgs unit) : result (matrix * list Q) :=
  Ok (M, []).

Definition run (a : @Args (list Q) unit) : result (@MappingResult (list Q)) :=
  map_cells_to_space (fun _ => true) scalar_comparison sqrt_floor uniform_mapper () a.

Definition run_prepare (a : @Args (list Q) unit) : result Prepared :=
  prepare (fun _ => true) scalar_comparison a.

Definition with_lambda_g1 (a : @Args (list Q) unit) (q : Q) : @Args (list Q) unit :=
  {| adata_cells := adata_cells a; adata_space := adata_space a; mode := mode a;
     adata_map := adata_map a; device := device a;
     learning_rate := learning_rate a; num_epochs := num_epochs a; d := d a;
     cluster_label := cluster_label a; scale := scale a; lambda_d := lambda_d a;
     lambda_g1 := q; lambda_g2 := lambda_g2 a; lambda_r := lambda_r a;
     random_state := random_state a; verbose := verbose a;
     density_prior := density_prior a; experiment := experiment a |}.

Definition with_density_prior (a : @Args (list Q) unit) (dp : density_arg)
  : @Args (list Q) unit :=
  {| adata_cells := adata_cells a; adata_space := adata_space a; mode := mode a;
     adata_map := adata_map a; device := device a;
     learning_rate := learning_rate a; num_epochs := num_epochs a; d := d a;
     cluster_label := cluster_label a; scale := scale a; lambda_d := lambda_d a;
     lambda_g1 := lambda_g1 a; lambda_g2 := lambda_g2 a; lambda_r := lambda_r a;
     random_state := random_state a; verbose := verbose a;
     density_prior := dp; experiment := experiment a |}.

(** A sparse source and a dense target, ready to be mapped. *)
Definition ready_args : @Args (list Q) unit :=
  default_args (tiny_adata csr_matrix) (tiny_adata ndarray).

(** Three cells mapped on four spots, in cells mode and by cluster. *)
Definition demo_args : @Args (list Q) unit :=
  default_args (demo_cells csr_matrix) (demo_space ndarray).

Definition demo_clusters_args : @Args (list Q) unit :=
  clusters_args (demo_cells ndarray) (demo_space ndarray) "cl".

(** A mapping of the three cells: the first on the first two spots, the
    second on the third spot, the third spread evenly. *)
Definition demo_mapping : matrix :=
  {| shape1 := 4;
     rows := [[1 # 2; 1 # 2; 0; 0]; [0; 0; 1; 0]; [1 # 4; 1 # 4; 1 # 4; 1 # 4]]%Q |}.

Definition run_demo_mapping (a : @Args (list Q) unit) : result (@MappingResult (list Q)) :=
  map_cells_to_space (fun _ => true) scalar_comparison sqrt_floor
    (fixed_mapper demo_mapping) () a.

(** As [three_one_adata], the label column being categorical with the two
    categories that occur. *)
Definition categorical_adata : AnnData :=
  {| X_type := csr_matrix;
     X := {| shape1 := 2; rows := [[1; 2]; [3; 4]; [5; 6]; [7; 8]]%Q |};
     obs := {[ "cl" := [CStr "A"; CStr "A"; CStr "A"; CStr "B"] ]};
     obs_categories := {[ "cl" := [CStr "A"; CStr "B"] ]};
     var_index := ["g1"; "g2"]; uns := ∅ |}.

Lemma lambda_g1_zero_raises_witness :
  (lambda_g1 (with_lambda_g1 ready_args 0) == 0)%Q
  /\ run_prepare (with_lambda_g1 ready_args 0) = Raise (ValueError "lambda_g1 cannot be 0.")
  /\ run (with_lambda_g1 ready_args 0) = Raise (ValueError "lambda_g1 cannot be 0.").
Proof.
  split; [reflexivity |].
  apply (lambda_g1_zero_raises (fun _ => true) scalar_comparison sqrt_floor uniform_mapper
           () (with_lambda_g1 ready_args 0)).
  reflexivity.
Defined.

Lemma density_prior_needs_lambda_d_witness :
  exists msg,
    run_prepare (with_density_prior ready_args (AStr "uniform")) = Raise (ValueError msg)
    /\ run (with_density_prior ready_args (AStr "uniform")) = Raise (ValueError msg)
    /\ (msg = "lambda_g1 cannot be 0."
        \/ msg = "When density_prior is not None, lambda_d cannot be 0.").
Proof.
  apply (density_prior_needs_lambda_d (fun _ => true) scalar_comparison sqrt_floor
           uniform_mapper () (with_density_prior ready_args (AStr "uniform"))).
  - discriminate.
  - reflexivity.
Defined.



(** The claim of C2 fails for a categorical label column that declares a
    category no cell takes: three rows labelled [A] and one labelled [B] give
    three rows, with densities 0.75, 0.25 and 0. *)
Lemma unused_category_adds_a_row :
  obs unused_category_adata !! "cl" = Some [CStr "A"; CStr "A"; CStr "A"; CStr "B"]
  /\ exists r,
       adata_to_cluster_expression unused_category_adata "cl" true true = Ok r
       /\ n_obs r = 3%nat
       /\ n_obs r <> 2%nat
       /\ obs r !! "cl" = Some [CStr "A"; CStr "B"; CStr "C"]
       /\ obs r !! "cluster_density" = Some [CNum (3 # 4); CNum (1 # 4); CNum (0 # 4)].
Proof.
  split; [reflexivity |]. eexists. split; [reflexivity |].
  split; [reflexivity |]. split; [discriminate |]. split; reflexivity.
Defined.

Lemma cluster_density_three_to_one_witness :
  exists r,
    adata_to_cluster_expression categorical_adata "cl" true true = Ok r
    /\ n_obs r = 2%nat
    /\ rows (X r) = [[9; 12]; [7; 8]]%Q
    /\ obs r !! "cl" = Some [CStr "A"; CStr "B"]
    /\ obs r !! "cluster_density" = Some [CNum (3 # 4); CNum (1 # 4)].
Proof.
  destruct (cluster_density_three_to_one categorical_adata "cl"
              [CStr "A"; CStr "A"; CStr "A"; CStr "B"] (CStr "A") (CStr "B") true)
    as (r & Hr & Hn & Hrows & Hcl & Hdens);
    [reflexivity | reflexivity | reflexivity | reflexivity | reflexivity | |].
  - intros cats Hcats. vm_compute in Hcats. injection Hcats as <-.
    constructor; [left; reflexivity |]. constructor; [right; reflexivity | constructor].
  - exists r. split; [exact Hr |]. split; [exact Hn |].
    split; [rewrite Hrows; reflexivity |].
    split; [apply Hcl; discriminate | exact Hdens].
Defined.


(** The claim of C3 fails for a spatial data set without spots: the uniform
    density handed to the optimizer is empty and sums to 0. *)
Lemma uniform_density_without_spots :
  exists p,
    run_prepare (density_args cells_without_genes empty_space (AStr "uniform")) = Ok p
    /\ density_entries (p_d p) = Some []
    /\ ~ (Qsum [] == 1)%Q.
Proof. eexists. split; [reflexivity |]. split; [reflexivity | discriminate]. Defined.

(** The uniform density over the four spots of [demo_space], and the
    density based on RNA counts over the three spots of [raw_space] after
    [pp_adatas]. *)
Lemma density_target_is_distribution_witness :
  (exists p v,
     run_prepare (density_args (demo_cells ndarray) (demo_space ndarray) (AStr "uniform"))
     = Ok p
     /\ density_entries (p_d p) = Some v
     /\ length v = 4%nat
     /\ Forall (Qle 0) v
     /\ (Qsum v == 1)%Q)
  /\ (exists p v,
        run_prepare
          (density_args (pp_adatas (fun l => l) raw_cells raw_space None).1
                        (pp_adatas (fun l => l) raw_cells raw_space None).2
                        (AStr "rna_count_based"))
        = Ok p
        /\ density_entries (p_d p) = Some v
        /\ length v = 3%nat
        /\ Forall (Qle 0) v
        /\ (Qsum v == 1)%Q).
Proof.
  split.
  - eexists.
    edestruct (@density_target_is_distribution (fun l => l) (fun _ => true)
                 scalar_comparison (list Q) unit
                 (density_args (demo_cells ndarray) (demo_space ndarray) (AStr "uniform")))
      as (v & Hv & Hlen & _ & Hpos & Hsum);
      [reflexivity | left; split; [reflexivity | vm_compute; lia] |].
    exists v. split; [reflexivity |]. split; [exact Hv |].
    split; [exact Hlen | split; [exact Hpos | exact Hsum]].
  - eexists.
    edestruct (@density_target_is_distribution (fun l => l) (fun _ => true)
                 scalar_comparison (list Q) unit
                 (density_args (pp_adatas (fun l => l) raw_cells raw_space None).1
                               (pp_adatas (fun l => l) raw_cells raw_space None).2
                               (AStr "rna_count_based")))
      as (v & Hv & Hlen & _ & Hpos & Hsum);
      [reflexivity
      | right; split; [reflexivity |]; exists raw_cells, raw_space, None;
        split; [reflexivity |]; split; [repeat constructor |];
        split; [repeat constructor; discriminate | reflexivity] |].
    exists v. split; [reflexivity |]. split; [exact Hv |].
    split; [exact Hlen | split; [exact Hpos | exact Hsum]].
Defined.

(** The whole route through [pp_adatas] with the density based on RNA
    counts: the spots get 1/4, 3/4 and 0. *)
Example rna_count_based_run :
  let '(cells, space) := pp_adatas (fun l => l) raw_cells raw_space None in
  exists p,
    run_prepare (density_args cells space (AStr "rna_count_based")) = Ok p
    /\ p_training_genes p = ["gene1"]
    /\ p_d p = DSeries [CNum (1 # 4); CNum (3 # 4); CNum (0 # 4)].
Proof. vm_compute. eexists. split; [reflexivity |]. split; reflexivity. Qed.

(** Three cells, four spots and two training genes, with a mapping that is
    not uniform. *)
Lemma train_score_is_cosine_similarity_witness :
  exists p res,
    run_prepare demo_args = Ok p
    /\ run_demo_mapping demo_args = Ok res
    /\ map_X res = demo_mapping
    /\ In ("g2", gene_score sqrt_floor (p_G p) demo_mapping (p_S p) 0)
          (train_genes_df res)
    /\ In ("g1", gene_score sqrt_floor (p_G p) demo_mapping (p_S p) 1)
          (train_genes_df res).
Proof.
  eexists. eexists. split; [reflexivity |]. split; [reflexivity |].
  split; [reflexivity |].
  edestruct (train_score_is_cosine_similarity (fun _ => true) scalar_comparison sqrt_floor
               (fixed_mapper demo_mapping) () demo_args)
    as (_ & _ & _ & _ & Hrow); [reflexivity | reflexivity | |].
  - intros [| [| j]] Hj; [split; vm_compute; discriminate
                         | split; vm_compute; discriminate | simpl in Hj; lia].
  - split; [apply (Hrow 0%nat "g2") | apply (Hrow 1%nat "g1")]; reflexivity.
Defined.

(** Clusters mode with the defaults, [lambda_d = 0] among them: the two
    clusters of [demo_cells] are mapped on the four spots of [demo_space]
    with the uniform density. *)
Lemma clusters_default_density_witness :
  (lambda_d demo_clusters_args == 0)%Q
  /\ density_prior demo_clusters_args = ANone
  /\ exists p res,
       run_prepare demo_clusters_args = Ok p
       /\ init_d (mapper_init demo_clusters_args p)
          = DArray [(1 / 4)%Q; (1 / 4)%Q; (1 / 4)%Q; (1 / 4)%Q]
       /\ run demo_clusters_args = Ok res
       /\ shape0 (map_X res) = 2%nat.
Proof.
  split; [reflexivity |]. split; [reflexivity |].
  edestruct (clusters_default_density (fun _ => true) scalar_comparison sqrt_floor
               uniform_mapper () demo_clusters_args "cl")
    as (p & Hp & HS & HG & Hd & _ & _ & _ & Hrun);
    [reflexivity | reflexivity | reflexivity | discriminate
     | reflexivity | reflexivity | reflexivity | reflexivity | reflexivity
     | reflexivity | reflexivity | reflexivity |].
  exists p.
  edestruct (Hrun _ [] eq_refl) as (res & Hres & HM);
    [simpl; rewrite HS; reflexivity | simpl; rewrite HG; reflexivity |].
  exists res. split; [exact Hp |]. split; [exact Hd |]. split; [exact Hres |].
  rewrite HM. simpl. rewrite HS. reflexivity.
Defined.

(** ** Further instances *)

(** A source whose only gene is silent, and a data set whose only
    observation has no label. *)
Definition silent_adata : AnnData :=
  {| X_type := csr_matrix; X := {| shape1 := 1; rows := [[0%Q]] |}; obs := ∅;
     obs_categories := ∅;
     var_index := ["a"]; uns := {[ "training_genes" := ["a"] ]} |}.

Definition unlabelled_adata : AnnData :=
  {| X_type := csr_matrix; X := {| shape1 := 1; rows := [[1%Q]] |};
     obs := {[ "cl" := [CNaN] ]}; obs_categories := ∅; var_index := ["a"]; uns := ∅ |}.


Definition with_mode (a : @Args (list Q) unit) (m : string) : @Args (list Q) unit :=
  {| adata_cells := adata_cells a; adata_space := adata_space a; mode := m;
     adata_map := adata_map a; device := device a;
     learning_rate := learning_rate a; num_epochs := num_epochs a; d := d a;
     cluster_label := cluster_label a; scale := scale a; lambda_d := lambda_d a;
     lambda_g1 := lambda_g1 a; lambda_g2 := lambda_g2 a; lambda_r := lambda_r a;
     random_state := random_state a; verbose := verbose a;
     density_prior := density_prior a; experiment := experiment a |}.

(** Calls on the tiny data sets with an array, and with the name of the
    density based on RNA counts, as prior. *)
Definition array_prior_args : @Args (list Q) unit :=
  density_args (tiny_adata csr_matrix) (tiny_adata ndarray) (AArray [2; 3]%Q).

Definition rna_prior_args : @Args (list Q) unit :=
  density_args (tiny_adata csr_matrix) (tiny_adata ndarray) (AStr "rna_count_based").

Definition three_one_labels : list cell := [CStr "A"; CStr "A"; CStr "A"; CStr "B"].

Lemma three_one_aggregated (sc : bool) :
  exists r, adata_to_cluster_expression three_one_adata "cl" sc true = Ok r.
Proof. destruct sc; eexists; reflexivity. Defined.

Lemma unused_category_aggregated (sc : bool) :
  exists r, adata_to_cluster_expression unused_category_adata "cl" sc true = Ok r.
Proof. destruct sc; eexists; reflexivity. Defined.

(** With and without a category that no cell takes. *)
Lemma cluster_density_is_distribution_witness :
  (exists r v,
     adata_to_cluster_expression unused_category_adata "cl" true true = Ok r
     /\ obs r !! "cluster_density" = Some (List.map CNum v)
     /\ length v = 3%nat
     /\ Forall (fun q => (0 <= q /\ q <= 1)%Q) v
     /\ (Qsum v == 1)%Q)
  /\ (exists r v,
        adata_to_cluster_expression three_one_adata "cl" true true = Ok r
        /\ obs r !! "cluster_density" = Some (List.map CNum v)
        /\ Forall (fun q => (0 < q)%Q) v
        /\ (Qsum v == 1)%Q).
Proof.
  split.
  - destruct (unused_category_aggregated true) as [r Hr]. exists r.
    destruct (cluster_density_is_distribution unused_category_adata r "cl" three_one_labels
                true eq_refl eq_refl Hr) as (v & Hv & Hlen & Hb & Hsum & _).
    exists v. split; [exact Hr |]. split; [exact Hv |].
    split; [| split; [exact Hb | exact Hsum]].
    rewrite Hlen. injection Hr as <-. reflexivity.
  - destruct (three_one_aggregated true) as [r Hr]. exists r.
    destruct (cluster_density_is_distribution three_one_adata r "cl" three_one_labels true
                eq_refl eq_refl Hr) as (v & Hv & _ & _ & Hsum & Hpos).
    exists v. split; [exact Hr |]. split; [exact Hv |].
    split; [apply Hpos; reflexivity | exact Hsum].
Defined.

Lemma cluster_density_is_sorted_witness :
  exists r v,
    adata_to_cluster_expression unused_category_adata "cl" true true = Ok r
    /\ obs r !! "cluster_density" = Some (List.map CNum v)
    /\ StronglySorted (fun p q => (q <= p)%Q) v.
Proof.
  destruct (unused_category_aggregated true) as [r Hr]. exists r.
  destruct (cluster_density_is_sorted unused_category_adata r "cl" three_one_labels true
              eq_refl Hr) as (v & Hv & Hs).
  exists v. split; [exact Hr |]. split; [exact Hv | exact Hs].
Defined.

Lemma cluster_rows_one_per_label_witness :
  exists r labels,
    adata_to_cluster_expression unused_category_adata "cl" true true = Ok r
    /\ obs r !! "cl" = Some labels
    /\ length labels = n_obs r
    /\ length (List.filter (fun l => cell_eqb l (CStr "B")) labels) = 1%nat.
Proof.
  destruct (unused_category_aggregated true) as [r Hr]. exists r.
  destruct (cluster_rows_one_per_label unused_category_adata r "cl" three_one_labels
              true true eq_refl Hr) as (labels & Hl & Hlen & _ & Honce).
  exists labels. split; [exact Hr |].
  split; [apply Hl; left; discriminate |].
  split; [exact Hlen |].
  apply Honce; [simpl; tauto | reflexivity].
Defined.

Lemma cluster_expression_shape_witness :
  exists r,
    adata_to_cluster_expression three_one_adata "cl" false true = Ok r
    /\ wf_matrix (X r) /\ shape1 (X r) = 2%nat /\ X_type r = ndarray.
Proof.
  destruct (three_one_aggregated false) as [r Hr]. exists r. split; [exact Hr |].
  destruct (cluster_expression_shape three_one_adata r "cl" false true)
    as (Hwf & Hs & _ & Ht); [repeat constructor | exact Hr |].
  split; [exact Hwf | split; [exact Hs | exact Ht]].
Defined.

Lemma sum_aggregation_conserves_counts_witness :
  exists r,
    adata_to_cluster_expression unused_category_adata "cl" true true = Ok r
    /\ (Qsum (column 0 (X r)) == 16)%Q.
Proof.
  destruct (unused_category_aggregated true) as [r Hr]. exists r. split; [exact Hr |].
  rewrite (sum_aggregation_conserves_counts unused_category_adata r "cl" three_one_labels
             true 0%nat eq_refl); [reflexivity | repeat constructor | simpl; lia | exact Hr].
Defined.

Lemma pp_adatas_density_of_given_counts_witness :
  exists v,
    obs (pp_adatas (fun l => l) raw_cells raw_space None).2 !! "rna_count_based_density"
    = Some (List.map CNum v)
    /\ Forall2 (fun q r => (q == Qsum r / 4)%Q) v (rows (X raw_space)).
Proof.
  apply (pp_adatas_density_of_given_counts (fun l => l) raw_cells raw_space None);
    [repeat constructor | repeat constructor; discriminate | reflexivity].
Defined.

(** In clusters mode [S] has one row per cluster. *)
Lemma optimizer_inputs_follow_training_genes_witness :
  exists p,
    run_prepare demo_clusters_args = Ok p
    /\ shape0 (p_S p) = 2%nat
    /\ shape0 (p_G p) = 4%nat
    /\ shape1 (p_S p) = length (p_training_genes p)
    /\ shape1 (p_G p) = length (p_training_genes p)
    /\ any_axis0_all (p_S p) = true.
Proof.
  eexists. split; [reflexivity |].
  destruct (optimizer_inputs_follow_training_genes (fun _ => true) scalar_comparison
              demo_clusters_args _ eq_refl)
    as (_ & _ & _ & (H0 & H0') & (H1 & H2) & _ & (H3 & _) & _).
  split; [rewrite H0; reflexivity |]. split; [rewrite H0'; reflexivity |].
  split; [exact H1 | split; [exact H2 | exact H3]].
Defined.

Lemma optimizer_reached_only_if_witness :
  exists p,
    run_prepare demo_clusters_args = Ok p
    /\ X_type (adata_space demo_clusters_args) = ndarray
    /\ forall g, In g (p_training_genes p) ->
         In g (var_index (adata_cells demo_clusters_args))
         /\ In g (var_index (adata_space demo_clusters_args)).
Proof.
  eexists. split; [reflexivity |].
  destruct (optimizer_reached_only_if (fun _ => true) scalar_comparison
              demo_clusters_args _ eq_refl)
    as (_ & _ & H3 & _ & _ & _ & _ & H8 & _).
  split; [exact H3 | exact H8].
Defined.

Lemma density_handed_over_witness :
  exists p, run_prepare array_prior_args = Ok p /\ p_d p = DArray [2; 3]%Q.
Proof.
  eexists. split; [reflexivity |].
  destruct (density_handed_over (fun _ => true) scalar_comparison array_prior_args _ eq_refl)
    as (_ & _ & _ & _ & _ & H).
  apply (H [2; 3]%Q); reflexivity.
Defined.

Lemma rna_count_based_needs_column_witness :
  exists e, run_prepare rna_prior_args = Raise e /\ run rna_prior_args = Raise e.
Proof.
  apply (rna_count_based_needs_column (fun _ => true) scalar_comparison sqrt_floor
           uniform_mapper () rna_prior_args); reflexivity.
Defined.

Lemma invalid_mode_raises_witness :
  run (with_mode ready_args "spots") = Raise (ValueError mode_message).
Proof.
  apply (invalid_mode_raises (fun _ => true) scalar_comparison sqrt_floor uniform_mapper ()
           (with_mode ready_args "spots")).
  - discriminate.
  - left. reflexivity.
  - discriminate.
  - discriminate.
Defined.

Lemma clusters_label_errors_witness :
  run (clusters_args two_cluster_adata (tiny_adata ndarray) "batch")
  = Raise (ValueError "Provided label must belong to adata.obs.").
Proof.
  apply (proj2 (clusters_label_errors (fun _ => true) scalar_comparison sqrt_floor
                  uniform_mapper ()
                  (clusters_args two_cluster_adata (tiny_adata ndarray) "batch")
                  ltac:(discriminate) (or_introl eq_refl) eq_refl) "batch");
    reflexivity.
Defined.

Lemma pp_adatas_then_prepare_witness :
  exists p,
    run_prepare (default_args (pp_adatas (fun l => l) raw_cells raw_space None).1
                              (pp_adatas (fun l => l) raw_cells raw_space None).2) = Ok p
    /\ uns (pp_adatas (fun l => l) raw_cells raw_space None).1 !! "training_genes"
       = Some (p_training_genes p).
Proof.
  destruct (@pp_adatas_then_prepare (fun l => l) (fun _ => true) scalar_comparison
              (list Q) unit raw_cells raw_space None
              (default_args (pp_adatas (fun l => l) raw_cells raw_space None).1
                            (pp_adatas (fun l => l) raw_cells raw_space None).2))
    as (p & Hp & _ & Hg);
    [reflexivity | reflexivity | reflexivity | reflexivity | reflexivity
     | discriminate | left; reflexivity | reflexivity |].
  exists p. split; [exact Hp | exact Hg].
Defined.

(** In clusters mode the result has one row per cluster. *)
Lemma result_carries_mapping_witness :
  exists res,
    run demo_clusters_args = Ok res
    /\ shape0 (map_X res) = 2%nat /\ shape1 (map_X res) = 4%nat
    /\ map_obs res !! "cl" = Some [CStr "A"; CStr "B"]
    /\ Permutation (train_genes_df res).*1 ["g2"; "g1"].
Proof.
  eexists. split; [reflexivity |].
  destruct (result_carries_mapping (fun _ => true) scalar_comparison sqrt_floor
              uniform_mapper () demo_clusters_args _ eq_refl)
    as (p & Hp & _ & _ & _ & H0 & H1 & Ho & _ & Hperm).
  injection Hp as <-.
  split; [exact H0 | split; [exact H1 | split; [rewrite Ho; reflexivity | exact Hperm]]].
Defined.

Lemma train_genes_df_sorted_witness :
  exists res,
    run_demo_mapping demo_args = Ok res
    /\ length (train_genes_df res) = 2%nat
    /\ StronglySorted (fun r1 r2 => (r2.2 <= r1.2)%Q) (train_genes_df res).
Proof.
  eexists. split; [reflexivity |].
  edestruct (train_genes_df_sorted (fun _ => true) scalar_comparison sqrt_floor
               (fixed_mapper demo_mapping) () demo_args) as [Hlen Hsorted];
    [reflexivity | reflexivity | |].
  - intros [| [| j]] Hj; [split; vm_compute; discriminate
                         | split; vm_compute; discriminate | simpl in Hj; lia].
  - split; [exact Hlen | exact Hsorted].
Defined.


Lemma all_zero_gene_raises_witness :
  run (default_args silent_adata (tiny_adata ndarray))
  = Raise (ValueError "Genes with all zero values detected. Run `pp_adatas()`.").
Proof.
  apply (all_zero_gene_raises (fun _ => true) scalar_comparison sqrt_floor uniform_mapper ()
           (default_args silent_adata (tiny_adata ndarray)) silent_adata ["a"]
           {| shape1 := 1; rows := [[0%Q]] |} {| shape1 := 1; rows := [[1%Q]] |});
    try reflexivity.
  - split; [discriminate | split; left; reflexivity].
  - left. reflexivity.
Defined.

Lemma cluster_expression_without_labels_witness :
  exists r,
    adata_to_cluster_expression unlabelled_adata "cl" true true = Ok r
    /\ n_obs r = 0%nat
    /\ obs r !! "cluster_density" = Some [].
Proof.
  destruct (cluster_expression_without_labels unlabelled_adata "cl" [CNaN] true
              eq_refl eq_refl eq_refl) as (r & Hr & Hn & _ & _ & Hd).
  exists r. split; [exact Hr | split; [exact Hn | exact Hd]].
Defined.
